(** * Messaging core of the Uniboe backend

    A shallow embedding of [backend/core/utils/encryption.py] and of
    [backend/core/services/chat/chat_service.py], with the hosted
    relational store (Supabase / PostgREST) modelled as an in-memory state
    of three tables and a journal of the requests it received. *)

From Stdlib Require Import String Ascii ZArith List Lia Bool.
From Stdlib Require Import Sorted.
Import ListNotations.
Local Open Scope Z_scope.

(** ** Python values *)

(** A Python [str] is a sequence of code points, a [bytes] object a
    sequence of octets. *)
Definition codepoint := Z.
Definition str := list codepoint.
Definition bytes := list Z.

(** [uuid.UUID]: compared and ordered through its 128-bit integer value;
    the canonical string form [str(u)] is a fixed-width lower-case
    hexadecimal rendering of that integer, so equality and order of the
    strings coincide with equality and order of the integers. *)
Definition UUID := Z.

Definition is_byte (b : Z) : Prop := 0 <= b < 256.
Definition is_ascii (b : Z) : Prop := 0 <= b < 128.

(** Byte literals such as [b"uniboe_chat_salt_2024"]. *)
Fixpoint bytes_of_string (s : string) : bytes :=
  match s with
  | EmptyString => []
  | String a s' => Z.of_N (N_of_ascii a) :: bytes_of_string s'
  end.

(** *** Exceptions *)

Inductive StoreFault : Type :=
| UniqueViolation      (* 23505: duplicate key on a unique index *)
| CheckViolation       (* 23514: a CHECK constraint rejected the row *)
| ForeignKeyViolation  (* 23503 *)
| RangeNotSatisfiable. (* a negative offset or an empty range *)

Inductive exn : Type :=
| InvalidParticipantError (msg : string)
| ConversationNotFoundError (conversation_id : UUID)
| UnauthorizedError (msg : string)
| ValueError (msg : string)
| UnicodeEncodeError
| UnicodeDecodeError
| ValidationError
| InvalidToken
| TypeError
| AttributeError
| APIError (fault : StoreFault)
| Exception (msg : string)
| ExceptionFrom (prefix : string) (cause : exn).
    (* raise Exception(f"<prefix>{e}") *)

(** [isinstance(e, ValueError)]: the two Unicode errors and pydantic's
    validation error derive from it. *)
Definition is_ValueError (e : exn) : bool :=
  match e with
  | ValueError _ | UnicodeEncodeError | UnicodeDecodeError
  | ValidationError => true
  | _ => false
  end.

Inductive result (A : Type) : Type :=
| Ok (a : A)
| Raise (e : exn).
Arguments Ok {A} a.
Arguments Raise {A} e.

Definition rbind {A B} (r : result A) (k : A -> result B) : result B :=
  match r with
  | Ok a => k a
  | Raise e => Raise e
  end.

(** *** [str.encode("utf-8")] and [bytes.decode("utf-8")] *)

Definition utf8_encode_char (c : codepoint) : option bytes :=
  if c <? 0 then None
  else if c <? 0x80 then Some [c]
  else if c <? 0x800 then Some [0xC0 + c / 64; 0x80 + c mod 64]
  else if c <? 0x10000 then
    if (0xD800 <=? c) && (c <=? 0xDFFF) then None
    else Some [0xE0 + c / 4096; 0x80 + (c / 64) mod 64; 0x80 + c mod 64]
  else if c <? 0x110000 then
    Some [0xF0 + c / 262144; 0x80 + (c / 4096) mod 64;
          0x80 + (c / 64) mod 64; 0x80 + c mod 64]
  else None.

Fixpoint utf8_encode (s : str) : option bytes :=
  match s with
  | [] => Some []
  | c :: s' =>
      match utf8_encode_char c, utf8_encode s' with
      | Some a, Some b => Some (a ++ b)
      | _, _ => None
      end
  end.

Definition is_cont (b : Z) : bool := (0x80 <=? b) && (b <? 0xC0).

Fixpoint utf8_decode (bs : bytes) : option str :=
  match bs with
  | [] => Some []
  | b0 :: r0 =>
      if (0 <=? b0) && (b0 <? 0x80) then option_map (cons b0) (utf8_decode r0)
      else if (0xC2 <=? b0) && (b0 <? 0xE0) then
        match r0 with
        | b1 :: r1 =>
            if is_cont b1
            then option_map (cons ((b0 - 0xC0) * 64 + (b1 - 0x80)))
                            (utf8_decode r1)
            else None
        | _ => None
        end
      else if (0xE0 <=? b0) && (b0 <? 0xF0) then
        match r0 with
        | b1 :: b2 :: r2 =>
            let c := (b0 - 0xE0) * 4096 + (b1 - 0x80) * 64 + (b2 - 0x80) in
            if is_cont b1 && is_cont b2 && (0x800 <=? c)
               && negb ((0xD800 <=? c) && (c <=? 0xDFFF))
            then option_map (cons c) (utf8_decode r2)
            else None
        | _ => None
        end
      else if (0xF0 <=? b0) && (b0 <? 0xF5) then
        match r0 with
        | b1 :: b2 :: b3 :: r3 =>
            let c := (b0 - 0xF0) * 262144 + (b1 - 0x80) * 4096
                     + (b2 - 0x80) * 64 + (b3 - 0x80) in
            if is_cont b1 && is_cont b2 && is_cont b3
               && (0x10000 <=? c) && (c <? 0x110000)
            then option_map (cons c) (utf8_decode r3)
            else None
        | _ => None
        end
      else None
  end.

Definition str_encode (s : str) : result bytes :=
  match utf8_encode s with
  | Some b => Ok b
  | None => Raise UnicodeEncodeError
  end.

Definition bytes_decode (b : bytes) : result str :=
  match utf8_decode b with
  | Some s => Ok s
  | None => Raise UnicodeDecodeError
  end.

(** *** [str.strip()] *)

(** [str.isspace] on one code point: the Unicode white-space set CPython
    uses for [strip()] without arguments. *)
Definition isspace (c : codepoint) : bool :=
  ((0x09 <=? c) && (c <=? 0x0D)) || ((0x1C <=? c) && (c <=? 0x20))
  || (c =? 0x85) || (c =? 0xA0) || (c =? 0x1680)
  || ((0x2000 <=? c) && (c <=? 0x200A))
  || (c =? 0x2028) || (c =? 0x2029) || (c =? 0x202F) || (c =? 0x205F)
  || (c =? 0x3000).

Fixpoint lstrip (s : str) : str :=
  match s with
  | [] => []
  | c :: s' => if isspace c then lstrip s' else s
  end.

Definition rstrip (s : str) : str := rev (lstrip (rev s)).
Definition strip (s : str) : str := rstrip (lstrip s).

(** Truthiness of a sequence: [not xs] holds exactly for the empty one. *)
Definition py_not {A} (xs : list A) : bool :=
  match xs with [] => true | _ => false end.

(** ** The [cryptography] package and the settings *)

(** The key derivation, the base64 alphabet and Fernet itself belong to
    the [cryptography] package; they are taken as an interface with the
    guarantees the package documents: tokens are URL-safe base64 text,
    never empty, and a token decrypts under the key that produced it.
    [iv] stands for the entropy and time stamp Fernet draws per call. *)
Class Cryptography : Type := {
  pbkdf2_hmac_sha256 :
    forall (password salt : bytes) (iterations length : Z), bytes;
  urlsafe_b64encode : bytes -> bytes;
  fernet_encrypt : forall (key : bytes) (iv : Z) (data : bytes), bytes;
  fernet_decrypt : forall (key : bytes) (token : bytes), option bytes;
  fernet_token_ascii :
    forall key iv data, Forall is_ascii (fernet_encrypt key iv data);
  fernet_token_nonempty :
    forall key iv data, fernet_encrypt key iv data <> [];
  fernet_decrypt_encrypt :
    forall key iv data,
      Forall is_byte data ->
      fernet_decrypt key (fernet_encrypt key iv data) = Some data
}.

(** [backend.config.settings]: the secret is read from a UTF-8 text
    file, so it can be encoded. *)
Class Settings : Type := {
  SECRET_KEY : str;
  SECRET_KEY_text : utf8_encode SECRET_KEY <> None
}.

(** ** backend/core/utils/encryption.py *)

Module Encryption.
Section WithEnv.
Context {crypto : Cryptography} {settings : Settings}.

Definition salt : bytes := bytes_of_string "uniboe_chat_salt_2024".

Definition _get_fernet_key (password : option str) : result bytes :=
  let password :=
    match password with
    | None => SECRET_KEY
    | Some p => p
    end in
  rbind (str_encode password) (fun pw =>
  Ok (urlsafe_b64encode (pbkdf2_hmac_sha256 pw salt 100000 32))).

(** The two handlers that close both functions:
    [except ValueError: raise] and
    [except Exception as e: raise Exception(f"<prefix>{str(e)}")]. *)
Definition reraise_value_error {A} (prefix : string) (r : result A)
  : result A :=
  match r with
  | Ok a => Ok a
  | Raise e => if is_ValueError e then Raise e
               else Raise (ExceptionFrom prefix e)
  end.

Definition encrypt_message (content : str) (key : option str) (iv : Z)
  : result str :=
  if py_not content || py_not (strip content)
  then Raise (ValueError "Cannot encrypt empty content")
  else
    reraise_value_error "Encryption failed: "
      (rbind (_get_fernet_key key) (fun fernet_key =>
       rbind (str_encode content) (fun data =>
       let encrypted_bytes := fernet_encrypt fernet_key iv data in
       bytes_decode encrypted_bytes))).

Definition decrypt_message (encrypted_content : str) (key : option str)
  : result str :=
  if py_not encrypted_content
  then Raise (ValueError "Cannot decrypt empty content")
  else
    reraise_value_error "Decryption failed: "
      (rbind (_get_fernet_key key) (fun fernet_key =>
       rbind (str_encode encrypted_content) (fun token =>
       match fernet_decrypt fernet_key token with
       | None => Raise InvalidToken
       | Some decrypted_bytes => bytes_decode decrypted_bytes
       end))).

End WithEnv.
End Encryption.

(** ** The relational store *)

Record ProfileRow : Type := {
  p_id : UUID;
  full_name : str;
  profile_picture_url : option str;
  universities : option str  (* the embedded [universities(name)] *)
}.

Record ConversationRow : Type := {
  c_id : UUID;
  participant_1_id : UUID;
  participant_2_id : UUID;
  last_message_at : Z;
  c_created_at : Z
}.

Record MessageRow : Type := {
  m_id : UUID;
  m_conversation_id : UUID;
  m_sender_id : UUID;
  content_encrypted : str;
  is_read : bool;
  created_at : Z
}.

Inductive Table : Type := profiles_t | conversations_t | messages_t.

(** What a request carries to the store: a read names its table, a write
    carries the values it sends. *)
Inductive Request : Type :=
| Select (t : Table)
| InsertConversation (participant_1 participant_2 : UUID)
| InsertMessage (conversation sender : UUID) (content : str)
| UpdateIsRead    (* update({"is_read": True}) on messages *)
| Delete (t : Table).

Record Store : Type := mkStore {
  profiles : list ProfileRow;
  conversations : list ConversationRow;
  messages : list MessageRow;
  now : Z;                    (* the store's clock, for column defaults *)
  journal : list Request      (* every request executed, oldest first *)
}.

(** Store computations: an exception leaves the writes already made. *)
Definition M (A : Type) : Type := Store -> result A * Store.

Definition ret {A} (a : A) : M A := fun st => (Ok a, st).
Definition raise {A} (e : exn) : M A := fun st => (Raise e, st).
Definition lift {A} (r : result A) : M A := fun st => (r, st).

Definition bind {A B} (m : M A) (k : A -> M B) : M B :=
  fun st =>
    match m st with
    | (Ok a, st') => k a st'
    | (Raise e, st') => (Raise e, st')
    end.

Notation "x <- c ;; k" := (bind c (fun x => k))
  (at level 61, c at next level, right associativity).

(** [try: ... except <kept>: raise
     except Exception as e: raise Exception(f"<prefix>{e}")]. *)
Definition try_except {A} (kept : exn -> bool) (prefix : string) (m : M A)
  : M A :=
  fun st =>
    match m st with
    | (Ok a, st') => (Ok a, st')
    | (Raise e, st') =>
        if kept e then (Raise e, st')
        else (Raise (ExceptionFrom prefix e), st')
    end.

Definition log (rq : Request) (st : Store) : Store :=
  mkStore (profiles st) (conversations st) (messages st) (now st)
          (journal st ++ [rq]).

(** Filters of the query builder: [.eq(column, v)] and [.neq(column, v)]. *)
Inductive ConvFilter : Type :=
| c_id_eq (v : UUID)
| participant_1_id_eq (v : UUID)
| participant_2_id_eq (v : UUID).

Inductive MsgFilter : Type :=
| m_id_eq (v : UUID)
| conversation_id_eq (v : UUID)
| is_read_eq (v : bool)
| sender_id_neq (v : UUID).

Definition conv_matches (r : ConversationRow) (f : ConvFilter) : bool :=
  match f with
  | c_id_eq v => c_id r =? v
  | participant_1_id_eq v => participant_1_id r =? v
  | participant_2_id_eq v => participant_2_id r =? v
  end.

Definition msg_matches (r : MessageRow) (f : MsgFilter) : bool :=
  match f with
  | m_id_eq v => m_id r =? v
  | conversation_id_eq v => m_conversation_id r =? v
  | is_read_eq v => Bool.eqb (is_read r) v
  | sender_id_neq v => negb (m_sender_id r =? v)
  end.

Definition conv_where (fs : list ConvFilter) (r : ConversationRow) : bool :=
  forallb (conv_matches r) fs.

Definition msg_where (fs : list MsgFilter) (r : MessageRow) : bool :=
  forallb (msg_matches r) fs.

Definition find_profile (ps : list ProfileRow) (id : UUID)
  : option ProfileRow :=
  find (fun p => p_id p =? id) ps.

(** Rows with the resources embedded by the select strings. *)
Record ConversationJoined : Type := {
  cj_row : ConversationRow;
  participant_1 : option ProfileRow;
  participant_2 : option ProfileRow
}.

Record MessageJoined : Type := {
  mj_row : MessageRow;
  mj_profiles : option ProfileRow
}.

Definition join_conversation (ps : list ProfileRow) (r : ConversationRow)
  : ConversationJoined :=
  {| cj_row := r;
     participant_1 := find_profile ps (participant_1_id r);
     participant_2 := find_profile ps (participant_2_id r) |}.

Definition join_message (ps : list ProfileRow) (r : MessageRow)
  : MessageJoined :=
  {| mj_row := r; mj_profiles := find_profile ps (m_sender_id r) |}.

(** The identifier default of a table: a value no row of it carries. *)
Definition fresh_id (ids : list UUID) : UUID :=
  1 + fold_right Z.max 0 ids.

(** [.order(column, desc=True)], and [list.sort(key=..., reverse=True)]:
    rows of equal key keep their relative order. *)
Fixpoint insert_desc {A} (key : A -> Z) (x : A) (l : list A) : list A :=
  match l with
  | [] => [x]
  | y :: l' => if key y <=? key x then x :: l
               else y :: insert_desc key x l'
  end.

Definition order_desc {A} (key : A -> Z) (l : list A) : list A :=
  fold_right (insert_desc key) [] l.

(** [.range(start, end)]: the rows at positions [start..end], inclusive. *)
Definition range_rows {A} (start stop : Z) (l : list A) : result (list A) :=
  if (start <? 0) || (stop <? start)
  then Raise (APIError RangeNotSatisfiable)
  else Ok (firstn (Z.to_nat (stop - start + 1)) (skipn (Z.to_nat start) l)).

Definition select_profiles (id : UUID) : M (list ProfileRow) :=
  fun st =>
    (Ok (filter (fun p => p_id p =? id) (profiles st)),
     log (Select profiles_t) st).

Definition select_conversations (fs : list ConvFilter)
  : M (list ConversationRow) :=
  fun st =>
    (Ok (filter (conv_where fs) (conversations st)),
     log (Select conversations_t) st).

Definition select_conversations_embed (fs : list ConvFilter)
  : M (list ConversationJoined) :=
  fun st =>
    (Ok (map (join_conversation (profiles st))
             (filter (conv_where fs) (conversations st))),
     log (Select conversations_t) st).

Definition has_profile (st : Store) (id : UUID) : bool :=
  existsb (fun p => p_id p =? id) (profiles st).

Definition pair_taken (st : Store) (p1 p2 : UUID) : bool :=
  existsb (fun r => (participant_1_id r =? p1) && (participant_2_id r =? p2))
          (conversations st).

(** Modelled from the spec: the schema of the [conversations] table is not
    among the sources.  The store enforces the foreign keys named by the
    select strings, the check [participant_1_id < participant_2_id] the
    service's docstring relies on, and the uniqueness constraint on the
    ordered pair, in the order PostgreSQL checks them; identifier and time
    stamps are column defaults. *)
Definition insert_conversation (p1 p2 : UUID) : M (list ConversationRow) :=
  fun st =>
    let st1 := log (InsertConversation p1 p2) st in
    if negb (p1 <? p2)
    then (Raise (APIError CheckViolation), st1)
    else if pair_taken st p1 p2
    then (Raise (APIError UniqueViolation), st1)
    else if negb (has_profile st p1 && has_profile st p2)
    then (Raise (APIError ForeignKeyViolation), st1)
    else
      let row := {| c_id := fresh_id (map c_id (conversations st));
                    participant_1_id := p1;
                    participant_2_id := p2;
                    last_message_at := now st;
                    c_created_at := now st |} in
      (Ok [row],
       mkStore (profiles st) (conversations st ++ [row]) (messages st)
               (now st + 1) (journal st1)).

Definition select_messages (fs : list MsgFilter) : M (list MessageRow) :=
  fun st =>
    (Ok (filter (msg_where fs) (messages st)), log (Select messages_t) st).

(** [.select("id", count="exact")]: the [count] of the response. *)
Definition count_messages (fs : list MsgFilter) : M Z :=
  fun st =>
    (Ok (Z.of_nat (length (filter (msg_where fs) (messages st)))),
     log (Select messages_t) st).

Definition select_messages_embed (fs : list MsgFilter)
  : M (list MessageJoined) :=
  fun st =>
    (Ok (map (join_message (profiles st))
             (filter (msg_where fs) (messages st))),
     log (Select messages_t) st).

(** The page query: embedded sender, newest first, a range of positions. *)
Definition select_messages_page (fs : list MsgFilter) (start stop : Z)
  : M (list MessageJoined) :=
  fun st =>
    (rbind (range_rows start stop
              (order_desc created_at (filter (msg_where fs) (messages st))))
           (fun rows => Ok (map (join_message (profiles st)) rows)),
     log (Select messages_t) st).

(** Modelled from the spec: the schema of the [messages] table is not among
    the sources.  Conversation and sender are foreign keys, the read flag
    defaults to false, identifier and creation time are column defaults. *)
Definition insert_message (conv sender : UUID) (content : str)
  : M (list MessageRow) :=
  fun st =>
    let st1 := log (InsertMessage conv sender content) st in
    if negb (existsb (fun r => c_id r =? conv) (conversations st)
             && has_profile st sender)
    then (Raise (APIError ForeignKeyViolation), st1)
    else
      let row := {| m_id := fresh_id (map m_id (messages st));
                    m_conversation_id := conv;
                    m_sender_id := sender;
                    content_encrypted := content;
                    is_read := false;
                    created_at := now st |} in
      (Ok [row],
       mkStore (profiles st) (conversations st) (messages st ++ [row])
               (now st + 1) (journal st1)).

Definition set_read (r : MessageRow) : MessageRow :=
  {| m_id := m_id r;
     m_conversation_id := m_conversation_id r;
     m_sender_id := m_sender_id r;
     content_encrypted := content_encrypted r;
     is_read := true;
     created_at := created_at r |}.

(** [.update({"is_read": True})] under filters: every matching row is
    written and returned, whatever its flag was before. *)
Definition update_is_read (fs : list MsgFilter) : M (list MessageRow) :=
  fun st =>
    (Ok (map set_read (filter (msg_where fs) (messages st))),
     mkStore (profiles st) (conversations st)
             (map (fun r => if msg_where fs r then set_read r else r)
                  (messages st))
             (now st) (journal st ++ [UpdateIsRead])).

(** *** Further requests of the service *)



(** Modelled from the spec: the schema of the [messages] table is not among
    the sources; the service relies on its foreign key to cascade (its
    comment: CASCADE will delete messages).  [.delete()] under filters
    removes the matching conversations and every message of theirs, and
    returns the removed conversations. *)
Definition delete_conversations (fs : list ConvFilter)
  : M (list ConversationRow) :=
  fun st =>
    let removed := filter (conv_where fs) (conversations st) in
    (Ok removed,
     mkStore (profiles st)
             (filter (fun r => negb (conv_where fs r)) (conversations st))
             (filter (fun m =>
                        negb (existsb (fun r => c_id r =? m_conversation_id m)
                                      removed))
                     (messages st))
             (now st) (journal st ++ [Delete conversations_t])).

(** ** backend/core/services/chat/chat_service.py *)

(** The dictionaries the service returns.  A field carries a prefix where
    its name in the source is that of another record's field or of a
    parameter. *)
Record OtherParticipant : Type := {
  op_id : UUID;
  op_full_name : str;
  op_profile_picture_url : option str;
  op_university_name : option str
}.

Record ConversationDict : Type := {
  cd_id : UUID;
  cd_participant_1_id : UUID;
  cd_participant_2_id : UUID;
  cd_last_message_at : Z;
  cd_created_at : Z;
  other_participant : OtherParticipant;
  unread_count : Z
}.

Record SenderInfo : Type := {
  si_id : UUID;
  si_full_name : str;
  si_profile_picture_url : option str
}.

Record MessageDict : Type := {
  md_id : UUID;
  md_conversation_id : UUID;
  md_sender_id : UUID;
  md_content_encrypted : str;
  content : str;
  md_is_read : bool;
  md_created_at : Z;
  sender : SenderInfo
}.

Record MessageListResponse : Type := {
  ml_messages : list MessageDict;
  total : Z;
  ml_page : Z;
  ml_page_size : Z;
  has_more : bool
}.

(** The field constraints of the pydantic model: [total >= 0],
    [page >= 1], [page_size >= 1]. *)
Definition MessageListResponse_validate (r : MessageListResponse)
  : result MessageListResponse :=
  if (0 <=? total r) && (1 <=? ml_page r) && (1 <=? ml_page_size r)
  then Ok r else Raise ValidationError.

Definition text (s : string) : str := bytes_of_string s.

Fixpoint startswith (s prefix : str) {struct prefix} : bool :=
  match prefix, s with
  | [], _ => true
  | p :: prefix', c :: s' => (c =? p) && startswith s' prefix'
  | _ :: _, [] => false
  end.

(** [needle in hay] on strings. *)
Fixpoint contains (needle hay : str) : bool :=
  startswith hay needle
  || match hay with
     | [] => false
     | _ :: hay' => contains needle hay'
     end.



(** The model [ConversationResponse]: [unread_count >= 0]. *)
Definition ConversationResponse_validate (d : ConversationDict)
  : result ConversationDict :=
  if 0 <=? unread_count d then Ok d else Raise ValidationError.



(** [str(u)] for a UUID: 32 lower-case hexadecimal digits of its integer,
    grouped 8-4-4-4-12. *)
Definition hex_digit (d : Z) : ascii :=
  ascii_of_N (Z.to_N (if d <? 10 then 48 + d else 87 + d)).

Fixpoint hex_of (digits : nat) (z : Z) : string :=
  match digits with
  | O => EmptyString
  | S n => String.append (hex_of n (z / 16))
                         (String (hex_digit (z mod 16)) EmptyString)
  end.

Definition uuid_str (u : UUID) : string :=
  let h := hex_of 32 u in
  String.append (substring 0 8 h)
    (String.append "-" (String.append (substring 8 4 h)
    (String.append "-" (String.append (substring 12 4 h)
    (String.append "-" (String.append (substring 16 4 h)
    (String.append "-" (substring 20 12 h)))))))).



(** ** backend/core/models/chat.py *)

Module Models.

(** [MessageCreate]: pydantic takes for a [str] only text that UTF-8 can
    encode (a lone surrogate is refused as [string_unicode]); the field
    constraints [min_length=1], [max_length=5000] hold of the text as
    received; [validate_content] then refuses blank text and returns the
    text stripped. *)
Definition MessageCreate (content : str) : result str :=
  match utf8_encode content with
  | None => Raise ValidationError
  | Some _ =>
      let n := Z.of_nat (length content) in
      if (n <? 1) || (5000 <? n) then Raise ValidationError
      else if py_not (strip content) then Raise ValidationError
      else Ok (strip content)
  end.

End Models.

Module Chat.
Section WithEnv.
Context {crypto : Cryptography} {settings : Settings}.

(** [str.lower]: the case mapping of the Unicode database. *)
Variable str_lower : str -> str.

Definition is_InvalidParticipantError (e : exn) : bool :=
  match e with InvalidParticipantError _ => true | _ => false end.

Definition is_not_found_or_unauthorized (e : exn) : bool :=
  match e with
  | ConversationNotFoundError _ | UnauthorizedError _ => true
  | _ => false
  end.

Definition kept_none (e : exn) : bool := false.

Definition not_a_participant : string :=
  "You are not a participant in this conversation".

Definition _format_conversation_response
  (conv : ConversationJoined) (user_id : UUID) : result ConversationDict :=
  let row := cj_row conv in
  let is_user_participant_1 := participant_1_id row =? user_id in
  let '(other_profile, other_id) :=
    if is_user_participant_1
    then (participant_2 conv, participant_2_id row)
    else (participant_1 conv, participant_1_id row) in
  match other_profile with
  | None => Raise AttributeError
  | Some other =>
      Ok {| cd_id := c_id row;
            cd_participant_1_id := participant_1_id row;
            cd_participant_2_id := participant_2_id row;
            cd_last_message_at := last_message_at row;
            cd_created_at := c_created_at row;
            other_participant :=
              {| op_id := other_id;
                 op_full_name := full_name other;
                 op_profile_picture_url := profile_picture_url other;
                 op_university_name := universities other |};
            unread_count := 0 |}
  end.

(** Writes that other clients of the store commit while this request is
    between two of its own queries. *)
Definition concurrently (others : Store -> Store) : M unit :=
  fun st => (Ok tt, others st).

(** [get_or_create_conversation], with what other clients of the store do
    between its lookup and its insert made explicit. *)
Definition get_or_create_conversation_amid
  (others : Store -> Store) (user_id participant_id : UUID)
  : M ConversationDict :=
  try_except is_InvalidParticipantError
    "Error getting or creating conversation: "
    (if user_id =? participant_id
     then raise (InvalidParticipantError
                   "Cannot create conversation with yourself")
     else
       let '(p1_id, p2_id) :=
         if user_id <? participant_id
         then (user_id, participant_id)
         else (participant_id, user_id) in
       existing_response <-
         select_conversations_embed
           [participant_1_id_eq p1_id; participant_2_id_eq p2_id];;
       match existing_response with
       | conv :: _ => lift (_format_conversation_response conv user_id)
       | [] =>
           _ <- concurrently others;;
           new_conv_response <- insert_conversation p1_id p2_id;;
           match new_conv_response with
           | [] => raise (Exception "Failed to create conversation")
           | created_conv :: _ =>
               full_conv_response <-
                 select_conversations_embed [c_id_eq (c_id created_conv)];;
               match full_conv_response with
               | [] =>
                   raise (Exception "Failed to fetch created conversation")
               | full :: _ =>
                   lift (_format_conversation_response full user_id)
               end
           end
       end).

(** The function as one request runs it when no other client writes. *)
Definition get_or_create_conversation (user_id participant_id : UUID)
  : M ConversationDict :=
  get_or_create_conversation_amid (fun st => st) user_id participant_id.

Definition _get_user_profile_for_message (user_id : UUID) : M SenderInfo :=
  response <- select_profiles user_id;;
  match response with
  | [] => ret {| si_id := user_id;
                 si_full_name := text "Unknown User";
                 si_profile_picture_url := None |}
  | profile :: _ =>
      ret {| si_id := p_id profile;
             si_full_name := full_name profile;
             si_profile_picture_url := profile_picture_url profile |}
  end.

(** The test of the membership checks:
    [conv["participant_1_id"] != str(user_id)
     and conv["participant_2_id"] != str(user_id)]. *)
Definition neither_participant (conv : ConversationRow) (user_id : UUID)
  : bool :=
  negb (participant_1_id conv =? user_id)
  && negb (participant_2_id conv =? user_id).

(** [message_data.content] is the plain text; [iv] is what Fernet draws. *)
Definition send_message
  (conversation_id sender_id : UUID) (message_content : str) (iv : Z)
  : M MessageDict :=
  try_except is_not_found_or_unauthorized "Error sending message: "
    (conv_response <- select_conversations [c_id_eq conversation_id];;
     match conv_response with
     | [] => raise (ConversationNotFoundError conversation_id)
     | conv :: _ =>
         if neither_participant conv sender_id
         then raise (UnauthorizedError not_a_participant)
         else
           encrypted_content <-
             lift (Encryption.encrypt_message message_content None iv);;
           message_response <-
             insert_message conversation_id sender_id encrypted_content;;
           match message_response with
           | [] => raise (Exception "Failed to send message")
           | created_message :: _ =>
               sender_info <- _get_user_profile_for_message sender_id;;
               ret {| md_id := m_id created_message;
                      md_conversation_id :=
                        m_conversation_id created_message;
                      md_sender_id := m_sender_id created_message;
                      md_content_encrypted :=
                        content_encrypted created_message;
                      content := message_content;
                      md_is_read := is_read created_message;
                      md_created_at := created_at created_message;
                      sender := sender_info |}
           end
     end).

(** The body of the listing loop: decrypt, then read the embedded sender;
    either step may raise. *)
Definition format_message (msg : MessageJoined) : result MessageDict :=
  let row := mj_row msg in
  rbind (Encryption.decrypt_message (content_encrypted row) None)
    (fun decrypted_content =>
     match mj_profiles msg with
     | None => Raise TypeError
     | Some sender_profile =>
         Ok {| md_id := m_id row;
               md_conversation_id := m_conversation_id row;
               md_sender_id := m_sender_id row;
               md_content_encrypted := content_encrypted row;
               content := decrypted_content;
               md_is_read := is_read row;
               md_created_at := created_at row;
               sender :=
                 {| si_id := p_id sender_profile;
                    si_full_name := full_name sender_profile;
                    si_profile_picture_url :=
                      profile_picture_url sender_profile |} |}
     end).

(** [for msg in ...: try: ... except Exception: continue]. *)
Fixpoint format_messages (rows : list MessageJoined) : list MessageDict :=
  match rows with
  | [] => []
  | msg :: rest =>
      match format_message msg with
      | Ok m => m :: format_messages rest
      | Raise _ => format_messages rest
      end
  end.

Definition get_conversation_messages
  (conversation_id user_id : UUID) (page page_size : Z)
  : M MessageListResponse :=
  try_except is_not_found_or_unauthorized "Error fetching messages: "
    (conv_response <- select_conversations [c_id_eq conversation_id];;
     match conv_response with
     | [] => raise (ConversationNotFoundError conversation_id)
     | conv :: _ =>
         if neither_participant conv user_id
         then raise (UnauthorizedError not_a_participant)
         else
           count <- count_messages [conversation_id_eq conversation_id];;
           let total_count := if count =? 0 then 0 else count in
           let offset := (page - 1) * page_size in
           messages_response <-
             select_messages_page [conversation_id_eq conversation_id]
                                  offset (offset + page_size - 1);;
           if py_not messages_response
           then lift (MessageListResponse_validate
                        {| ml_messages := []; total := 0;
                           ml_page := page; ml_page_size := page_size;
                           has_more := false |})
           else
             let formatted_messages := format_messages messages_response in
             let has_more := page * page_size <? total_count in
             lift (MessageListResponse_validate
                     {| ml_messages := formatted_messages;
                        total := total_count;
                        ml_page := page; ml_page_size := page_size;
                        has_more := has_more |})
     end).

Fixpoint mark_each (user_id : UUID) (message_ids : list UUID)
  (updated_count : Z) : M Z :=
  match message_ids with
  | [] => ret updated_count
  | message_id :: rest =>
      msg_response <- select_messages [m_id_eq message_id];;
      match msg_response with
      | [] => mark_each user_id rest updated_count
      | msg :: _ =>
          if negb (m_sender_id msg =? user_id)
          then
            update_response <- update_is_read [m_id_eq message_id];;
            if py_not update_response
            then mark_each user_id rest updated_count
            else mark_each user_id rest (updated_count + 1)
          else mark_each user_id rest updated_count
      end
  end.

Definition mark_messages_as_read (user_id : UUID) (message_ids : list UUID)
  : M Z :=
  try_except kept_none "Error marking messages as read: "
    (if py_not message_ids then ret 0
     else mark_each user_id message_ids 0).

Definition mark_conversation_as_read (conversation_id user_id : UUID)
  : M Z :=
  try_except is_not_found_or_unauthorized
    "Error marking conversation as read: "
    (conv_response <- select_conversations [c_id_eq conversation_id];;
     match conv_response with
     | [] => raise (ConversationNotFoundError conversation_id)
     | conv :: _ =>
         if neither_participant conv user_id
         then raise (UnauthorizedError not_a_participant)
         else
           update_response <-
             update_is_read [conversation_id_eq conversation_id;
                             is_read_eq false; sender_id_neq user_id];;
           ret (Z.of_nat (length update_response))
     end).

(** The body of the search loop over the rows of one conversation. *)
Definition search_message (query_lower : str) (msg : MessageJoined)
  : result (option MessageDict) :=
  let row := mj_row msg in
  rbind (Encryption.decrypt_message (content_encrypted row) None)
    (fun decrypted_content =>
     if contains query_lower (str_lower decrypted_content)
     then
       match mj_profiles msg with
       | None => Raise TypeError
       | Some sender_profile =>
           Ok (Some
                 {| md_id := m_id row;
                    md_conversation_id := m_conversation_id row;
                    md_sender_id := m_sender_id row;
                    md_content_encrypted := content_encrypted row;
                    content := decrypted_content;
                    md_is_read := is_read row;
                    md_created_at := created_at row;
                    sender :=
                      {| si_id := p_id sender_profile;
                         si_full_name := full_name sender_profile;
                         si_profile_picture_url :=
                           profile_picture_url sender_profile |} |})
       end
     else Ok None).

Fixpoint search_rows (query_lower : str) (rows : list MessageJoined)
  : list MessageDict :=
  match rows with
  | [] => []
  | msg :: rest =>
      match search_message query_lower msg with
      | Ok (Some m) => m :: search_rows query_lower rest
      | _ => search_rows query_lower rest
      end
  end.

Fixpoint search_conversations (query_lower : str)
  (conversation_ids : list UUID) (matching_messages : list MessageDict)
  : M (list MessageDict) :=
  match conversation_ids with
  | [] => ret matching_messages
  | conv_id :: rest =>
      messages_response <-
        select_messages_embed [conversation_id_eq conv_id];;
      search_conversations query_lower rest
        (matching_messages ++ search_rows query_lower messages_response)
  end.

Definition search_in (query : str) (conversation_ids : list UUID)
  : M (list MessageDict) :=
  if py_not conversation_ids then ret []
  else
    matching_messages <-
      search_conversations (str_lower query) conversation_ids [];;
    ret (order_desc md_created_at matching_messages).

Definition search_messages
  (user_id : UUID) (query : str) (conversation_id : option UUID)
  : M (list MessageDict) :=
  try_except kept_none "Error searching messages: "
    (match conversation_id with
     | Some conversation_id =>
         conv_response <- select_conversations [c_id_eq conversation_id];;
         match conv_response with
         | [] => ret []
         | conv :: _ =>
             if neither_participant conv user_id
             then ret []
             else search_in query [conversation_id]
         end
     | None =>
         conv1 <- select_conversations [participant_1_id_eq user_id];;
         conv2 <- select_conversations [participant_2_id_eq user_id];;
         search_in query (map c_id conv1 ++ map c_id conv2)
     end).

Definition get_conversation_by_id (conversation_id user_id : UUID)
  : M ConversationDict :=
  try_except is_not_found_or_unauthorized
    (String.append "Error fetching conversation "
       (String.append (uuid_str conversation_id) ": "))
    (response <- select_conversations_embed [c_id_eq conversation_id];;
     match response with
     | [] => raise (ConversationNotFoundError conversation_id)
     | conv :: _ =>
         if neither_participant (cj_row conv) user_id
         then raise (UnauthorizedError not_a_participant)
         else lift (_format_conversation_response conv user_id)
     end).

(** The loop of [get_unread_count] over the user's conversations. *)
Fixpoint count_unread (user_id : UUID) (conversation_ids : list UUID)
  (total_unread : Z) : M Z :=
  match conversation_ids with
  | [] => ret total_unread
  | conv_id :: rest =>
      count <- count_messages [conversation_id_eq conv_id;
                               is_read_eq false; sender_id_neq user_id];;
      count_unread user_id rest
        (total_unread + (if count =? 0 then 0 else count))
  end.

Definition get_unread_count (user_id : UUID) : M Z :=
  try_except kept_none "Error getting unread count: "
    (conv1 <- select_conversations [participant_1_id_eq user_id];;
     conv2 <- select_conversations [participant_2_id_eq user_id];;
     let conversation_ids := map c_id conv1 ++ map c_id conv2 in
     if py_not conversation_ids then ret 0
     else count_unread user_id conversation_ids 0).

Definition delete_conversation (conversation_id user_id : UUID) : M bool :=
  try_except is_not_found_or_unauthorized "Error deleting conversation: "
    (conv_response <- select_conversations [c_id_eq conversation_id];;
     match conv_response with
     | [] => raise (ConversationNotFoundError conversation_id)
     | conv :: _ =>
         if neither_participant conv user_id
         then raise (UnauthorizedError not_a_participant)
         else
           delete_response <- delete_conversations [c_id_eq conversation_id];;
           ret (negb (py_not delete_response))
     end).




End WithEnv.
End Chat.

(** ** backend/api/routes/chat.py *)

(** The [detail] of an [HTTPException]: a literal, [str(e)], or
    [f"<prefix>{str(e)}"]. *)
Inductive Detail : Type :=
| Text (s : string)
| StrOf (e : exn)
| Failed (prefix : string) (e : exn).

(** What an endpoint answers: the body of its success response, or the
    exception FastAPI turns into an error response. *)
Inductive http (A : Type) : Type :=
| Respond (body : A)
| HTTPException (status_code : Z) (detail : Detail).
Arguments Respond {A} body.
Arguments HTTPException {A} status_code detail.

(** Each definition of [Routes] is the body of a handler.  FastAPI runs it
    after the dependencies of the endpoint: [get_current_user], which reads
    [profiles] and gives [current_user], and the validation of the request
    against the declared parameters, which answers 422 itself. *)
Module Routes.
Section WithEnv.
Context {crypto : Cryptography} {settings : Settings}.

(** The two handlers for the service's own errors:
    [except ConversationNotFoundError] gives 404,
    [except UnauthorizedError] gives 403. *)
Definition not_found_or_forbidden (e : exn) : option Z :=
  match e with
  | ConversationNotFoundError _ => Some 404
  | UnauthorizedError _ => Some 403
  | _ => None
  end.

Definition bad_participant (e : exn) : option Z :=
  match e with
  | InvalidParticipantError _ => Some 400
  | _ => None
  end.

Definition no_handler (e : exn) : option Z := None.

(** The [except] clauses of an endpoint: the handled kinds answer with
    [str(e)], anything else with 500 and [f"<failure>{str(e)}"]. *)
Definition answer {A} (handled : exn -> option Z) (failure : string)
  (r : result A) : http A :=
  match r with
  | Ok a => Respond a
  | Raise e =>
      match handled e with
      | Some status_code => HTTPException status_code (StrOf e)
      | None => HTTPException 500 (Failed failure e)
      end
  end.

Definition endpoint {A} (handled : exn -> option Z) (failure : string)
  (m : M A) : Store -> http A * Store :=
  fun st => let '(r, st') := m st in (answer handled failure r, st').

Definition create_or_get_conversation (participant_id current_user : UUID)
  : Store -> http ConversationDict * Store :=
  fun st =>
    let user_id := current_user in
    if user_id =? participant_id
    then (HTTPException 400 (Text "Cannot create conversation with yourself"),
          st)
    else
      endpoint bad_participant "Failed to create conversation: "
        (conversation <-
           Chat.get_or_create_conversation user_id participant_id;;
         lift (ConversationResponse_validate conversation)) st.

Definition get_conversation (conversation_id current_user : UUID)
  : Store -> http ConversationDict * Store :=
  endpoint not_found_or_forbidden "Failed to fetch conversation: "
    (conversation <-
       Chat.get_conversation_by_id conversation_id current_user;;
     lift (ConversationResponse_validate conversation)).

(** [message_data] is the validated [MessageCreate]; its [content] is what
    reaches the service. *)
Definition send_message (conversation_id : UUID) (message_content : str)
  (current_user : UUID) (iv : Z) : Store -> http MessageDict * Store :=
  endpoint not_found_or_forbidden "Failed to send message: "
    (Chat.send_message conversation_id current_user message_content iv).

Definition get_messages (conversation_id : UUID) (page page_size : Z)
  (current_user : UUID) : Store -> http MessageListResponse * Store :=
  endpoint not_found_or_forbidden "Failed to fetch messages: "
    (messages <-
       Chat.get_conversation_messages conversation_id current_user
         page page_size;;
     lift (MessageListResponse_validate messages)).

Definition get_unread_count (current_user : UUID)
  : Store -> http Z * Store :=
  endpoint no_handler "Failed to get unread count: "
    (Chat.get_unread_count current_user).

Definition delete_conversation (conversation_id current_user : UUID)
  : Store -> http unit * Store :=
  endpoint not_found_or_forbidden "Failed to delete conversation: "
    (_ <- Chat.delete_conversation conversation_id current_user;;
     ret tt).

End WithEnv.
End Routes.

(** ** Vocabulary of the statements *)

(** The two filters of the lookup by ordered pair. *)
Definition pair_filters (lo hi : UUID) : list ConvFilter :=
  [participant_1_id_eq lo; participant_2_id_eq hi].

(** A user takes part in a conversation as one of its two participants. *)
Definition participant_of (conv : ConversationRow) (user_id : UUID) : Prop :=
  participant_1_id conv = user_id \/ participant_2_id conv = user_id.

(** The stored record a conversation dictionary describes. *)
Definition conversation_record (d : ConversationDict) : ConversationRow :=
  {| c_id := cd_id d;
     participant_1_id := cd_participant_1_id d;
     participant_2_id := cd_participant_2_id d;
     last_message_at := cd_last_message_at d;
     c_created_at := cd_created_at d |}.

(** The row a first contact between two users stores. *)
Definition first_contact_row (st : Store) (A B : UUID) : ConversationRow :=
  {| c_id := fresh_id (map c_id (conversations st));
     participant_1_id := Z.min A B;
     participant_2_id := Z.max A B;
     last_message_at := now st;
     c_created_at := now st |}.

(** The message identifiers [mark_messages_as_read] acts on for a caller:
    those of a stored message that the caller did not send. *)
Definition markable (st : Store) (user_id message_id : UUID) : bool :=
  match find (fun r => m_id r =? message_id) (messages st) with
  | Some msg => negb (m_sender_id msg =? user_id)
  | None => false
  end.

(** The messages table after marking: every row whose identifier is a
    markable one of the request has its flag set. *)
Definition marked_rows (st : Store) (user_id : UUID) (message_ids : list UUID)
  : list MessageRow :=
  map (fun r =>
         if existsb (fun id => (m_id r =? id) && markable st user_id id)
                    message_ids
         then set_read r else r)
      (messages st).

(** The requests that concern the messages table only. *)
Definition about_messages (rq : Request) : Prop :=
  rq = Select messages_t \/ rq = UpdateIsRead.

(** The stored messages of a conversation, and the rows of one page of
    them as the page query returns them: newest first, [page_size] rows
    from position [(page - 1) * page_size] on, each with its sender. *)
Definition conversation_messages (st : Store) (conversation_id : UUID)
  : list MessageRow :=
  filter (msg_where [conversation_id_eq conversation_id]) (messages st).

Definition stored_page (st : Store) (conversation_id : UUID)
  (page page_size : Z) : list MessageJoined :=
  map (join_message (profiles st))
      (firstn (Z.to_nat page_size)
         (skipn (Z.to_nat ((page - 1) * page_size))
            (order_desc created_at
               (conversation_messages st conversation_id)))).

(** The foreign key of [messages.sender_id]. *)
Definition senders_have_profiles (st : Store) : Prop :=
  forall r, In r (messages st) -> has_profile st (m_sender_id r) = true.

(** What of a page can be read: identifier and plain text of every row
    whose content decrypts, in the order of the page. *)
Definition readable {crypto : Cryptography} {settings : Settings}
  (rows : list MessageJoined) : list (UUID * str) :=
  flat_map (fun msg =>
              match Encryption.decrypt_message
                      (content_encrypted (mj_row msg)) None with
              | Ok s => [(m_id (mj_row msg), s)]
              | Raise _ => []
              end)
           rows.

(** A message is unread for a user in a conversation: it belongs to the
    conversation, its flag is not set, and somebody else sent it. *)
Definition unread_for (user_id conversation_id : UUID) (r : MessageRow)
  : bool :=
  msg_where [conversation_id_eq conversation_id; is_read_eq false;
             sender_id_neq user_id] r.

Definition unread_in (st : Store) (user_id conversation_id : UUID) : Z :=
  Z.of_nat (length (filter (unread_for user_id conversation_id)
                           (messages st))).

(** The identifiers of the conversations a user takes part in, as the
    service collects them: first participant, then second. *)
Definition conversations_of (st : Store) (user_id : UUID) : list UUID :=
  map c_id (filter (conv_where [participant_1_id_eq user_id])
                   (conversations st))
  ++ map c_id (filter (conv_where [participant_2_id_eq user_id])
                      (conversations st)).

(** The rows [mark_conversation_as_read] leaves for a user. *)
Definition read_rows (user_id conversation_id : UUID)
  (rows : list MessageRow) : list MessageRow :=
  map (fun r => if unread_for user_id conversation_id r
                then set_read r else r) rows.

(** What is unread for a user over all the conversations collected. *)
Definition unread_total (st : Store) (user_id : UUID) : Z :=
  fold_right Z.add 0
    (map (unread_in st user_id) (conversations_of st user_id)).

(** The primary key of [conversations] and the check on its pair. *)
Definition conversations_keyed (st : Store) : Prop :=
  NoDup (map c_id (conversations st))
  /\ forall r, In r (conversations st) ->
               participant_1_id r < participant_2_id r.

(** The participant of a conversation that a user is not. *)
Definition other_of (conv : ConversationRow) (user_id : UUID) : UUID :=
  if participant_1_id conv =? user_id
  then participant_2_id conv else participant_1_id conv.

(** Stores that differ in clock and journal only. *)
Definition same_tables (st st' : Store) : Prop :=
  profiles st' = profiles st
  /\ conversations st' = conversations st
  /\ messages st' = messages st.

(** Newest first: no later element has a greater key. *)
Definition newest_first {A} (key : A -> Z) (l : list A) : Prop :=
  StronglySorted (fun a b => key b <= key a) l.

(** What the search loop finds in one conversation. *)
Definition found_in {crypto : Cryptography} {settings : Settings}
  (str_lower : str -> str) (st : Store) (query_lower : str) (conv_id : UUID)
  : list MessageDict :=
  Chat.search_rows str_lower query_lower
    (map (join_message (profiles st)) (conversation_messages st conv_id)).

(** The foreign keys of [conversations]. *)
Definition participants_have_profiles (st : Store) : Prop :=
  forall r, In r (conversations st) ->
            has_profile st (participant_1_id r) = true
            /\ has_profile st (participant_2_id r) = true.




(** ** A small instance of the environment

    A stand-in for the [cryptography] package that meets the interface:
    a token is the letter [g], a tag of the key and the payload, two
    letters per octet. *)

Module Toy.

Definition letters (b : Z) : bytes :=
  [65 + (b mod 256) / 16; 65 + b mod 16].

Definition is_letter (h : Z) : bool := (65 <=? h) && (h <? 81).

Fixpoint unletters (t : bytes) : option bytes :=
  match t with
  | [] => Some []
  | h :: l :: r =>
      if is_letter h && is_letter l
      then option_map (cons ((h - 65) * 16 + (l - 65))) (unletters r)
      else None
  | _ => None
  end.

Definition key_tag (key : bytes) : Z := fold_right Z.add 0 key.

Definition encrypt (key : bytes) (iv : Z) (data : bytes) : bytes :=
  103 :: letters (key_tag key) ++ flat_map letters data.

Definition decrypt (key : bytes) (token : bytes) : option bytes :=
  match token with
  | v :: h :: l :: r =>
      if (v =? 103) && (h =? 65 + (key_tag key mod 256) / 16)
         && (l =? 65 + key_tag key mod 16)
      then unletters r
      else None
  | _ => None
  end.

Definition derive (password salt : bytes) (iterations length : Z) : bytes :=
  firstn (Z.to_nat length) (password ++ salt ++ repeat 0 (Z.to_nat length)).

Definition secret : str := text "development-secret".

End Toy.

(** The users of the spec's scenario, and a third one. *)
Module Scenario.

Definition alice : UUID := 0x11111111111111111111111111111111.
Definition bob : UUID := 0x22222222222222222222222222222222.
Definition carol : UUID := 0x33333333333333333333333333333333.

Definition profile (id : UUID) (name : string) : ProfileRow :=
  {| p_id := id; full_name := text name;
     profile_picture_url := None; universities := None |}.

Definition campus : Store :=
  mkStore [profile alice "Alice"; profile bob "Bob"; profile carol "Carol"]
          [] [] 0 [].

(** Alice has opened a conversation with Bob; the store numbers it 1. *)
Definition met : Store :=
  snd (Chat.get_or_create_conversation alice bob campus).

Definition talk : UUID := 1.

(** Another client asking for the conversation of Bob and Alice. *)
Definition rival (st : Store) : Store :=
  snd (Chat.get_or_create_conversation bob alice st).

End Scenario.

(** Settle every integer test of the goal whose outcome [lia] decides. *)
Ltac settle_tests :=
  repeat match goal with
         | |- context [?a <? ?b] =>
             first [ replace (a <? b) with true
                       by (symmetry; apply Z.ltb_lt; lia)
                   | replace (a <? b) with false
                       by (symmetry; apply Z.ltb_ge; lia) ]
         | |- context [?a <=? ?b] =>
             first [ replace (a <=? b) with true
                       by (symmetry; apply Z.leb_le; lia)
                   | replace (a <=? b) with false
                       by (symmetry; apply Z.leb_gt; lia) ]
         end.

(** * Properties *)

(** ** The small instance meets the interface *)

Lemma toy_letters_ascii (b : Z) : Forall is_ascii (Toy.letters b).
Proof.
  unfold Toy.letters, is_ascii.
  pose proof (Z.mod_pos_bound b 256 ltac:(lia)).
  pose proof (Z.mod_pos_bound b 16 ltac:(lia)).
  assert (0 <= b mod 256 / 16 < 16)
    by (split; [apply Z.div_pos | apply Z.div_lt_upper_bound]; lia).
  repeat constructor; lia.
Qed.

Lemma toy_token_ascii (key : bytes) (iv : Z) (data : bytes) :
  Forall is_ascii (Toy.encrypt key iv data).
Proof.
  unfold Toy.encrypt. constructor; [unfold is_ascii; lia|].
  apply Forall_app. split; [apply toy_letters_ascii|].
  induction data as [|b data IH]; [constructor|].
  cbn [flat_map]. apply Forall_app. split; [apply toy_letters_ascii|exact IH].
Qed.

Lemma toy_token_nonempty (key : bytes) (iv : Z) (data : bytes) :
  Toy.encrypt key iv data <> [].
Proof. unfold Toy.encrypt. discriminate. Qed.

Lemma toy_unletters_letters (data : bytes) :
  Forall is_byte data -> Toy.unletters (flat_map Toy.letters data) = Some data.
Proof.
  induction 1 as [|b data Hb _ IH]; [reflexivity|].
  unfold is_byte in Hb.
  change (flat_map Toy.letters (b :: data))
    with (65 + (b mod 256) / 16 :: 65 + b mod 16
          :: flat_map Toy.letters data).
  cbn [Toy.unletters]. rewrite IH. unfold Toy.is_letter.
  rewrite (Z.mod_small b 256) by lia.
  pose proof (Z.div_mod b 16 ltac:(lia)).
  pose proof (Z.mod_pos_bound b 16 ltac:(lia)).
  assert (0 <= b / 16 < 16)
    by (split; [apply Z.div_pos | apply Z.div_lt_upper_bound]; lia).
  settle_tests. cbn [andb option_map]. do 2 f_equal. lia.
Qed.

Lemma toy_decrypt_encrypt (key : bytes) (iv : Z) (data : bytes) :
  Forall is_byte data ->
  Toy.decrypt key (Toy.encrypt key iv data) = Some data.
Proof.
  intros H. unfold Toy.encrypt, Toy.decrypt, Toy.letters. cbn [app].
  rewrite !Z.eqb_refl. cbn [andb]. apply toy_unletters_letters, H.
Qed.

Definition toy_cryptography : Cryptography := {|
  pbkdf2_hmac_sha256 := Toy.derive;
  urlsafe_b64encode := fun b => b;
  fernet_encrypt := Toy.encrypt;
  fernet_decrypt := Toy.decrypt;
  fernet_token_ascii := toy_token_ascii;
  fernet_token_nonempty := toy_token_nonempty;
  fernet_decrypt_encrypt := toy_decrypt_encrypt
|}.

Lemma toy_secret_text : utf8_encode Toy.secret <> None.
Proof. vm_compute. discriminate. Qed.

Definition toy_settings : Settings := {|
  SECRET_KEY := Toy.secret;
  SECRET_KEY_text := toy_secret_text
|}.

(** Alice has sent "hi" in her conversation with Bob; the store numbers
    the message 1. *)
Module Story.

Definition greeted : Store :=
  snd (@Chat.send_message toy_cryptography toy_settings
         Scenario.talk Scenario.alice (text "hi") 7 Scenario.met).

Definition hi : UUID := 1.

(** What the send returned to Alice. *)
Definition echo : MessageDict :=
  {| md_id := hi;
     md_conversation_id := Scenario.talk;
     md_sender_id := Scenario.alice;
     md_content_encrypted :=
       Toy.encrypt (Toy.derive Toy.secret Encryption.salt 100000 32) 7
                   (text "hi");
     content := text "hi";
     md_is_read := false;
     md_created_at := 1;
     sender := {| si_id := Scenario.alice;
                  si_full_name := text "Alice";
                  si_profile_picture_url := None |} |}.

(** A row whose content is no token has found its way into the table,
    and Bob has answered since. *)
Definition damaged : Store :=
  mkStore (profiles greeted) (conversations greeted)
          (messages greeted
           ++ [{| m_id := 2;
                  m_conversation_id := Scenario.talk;
                  m_sender_id := Scenario.bob;
                  content_encrypted := text "not a token";
                  is_read := false;
                  created_at := now greeted |}])
          (now greeted + 1) (journal greeted).

Definition answered : Store :=
  snd (@Chat.send_message toy_cryptography toy_settings
         Scenario.talk Scenario.bob (text "yo") 9 damaged).

(** Alice sends [n] more messages. *)
Fixpoint chatter (n : nat) (st : Store) : Store :=
  match n with
  | O => st
  | S n' =>
      chatter n'
        (snd (@Chat.send_message toy_cryptography toy_settings
                Scenario.talk Scenario.alice (text "hi") (Z.of_nat n) st))
  end.

(** The conversation of the pagination example: 125 stored messages. *)
Definition busy : Store := chatter 125 Scenario.met.

End Story.

(** ** UTF-8 *)

Lemma decode_1 (c : Z) (rest : bytes) :
  0 <= c < 0x80 ->
  utf8_decode (c :: rest) = option_map (cons c) (utf8_decode rest).
Proof.
  intros H. cbn [utf8_decode]. settle_tests. reflexivity.
Qed.

Lemma decode_2 (q r : Z) (rest : bytes) :
  2 <= q < 32 -> 0 <= r < 64 ->
  utf8_decode (0xC0 + q :: 0x80 + r :: rest)
  = option_map (cons (64 * q + r)) (utf8_decode rest).
Proof.
  intros Hq Hr. cbn [utf8_decode]. unfold is_cont. settle_tests.
  cbn [andb]. do 2 f_equal. lia.
Qed.

Lemma decode_3 (q r2 r : Z) (rest : bytes) :
  0 <= q < 16 -> 0 <= r2 < 64 -> 0 <= r < 64 ->
  0x800 <= 4096 * q + 64 * r2 + r ->
  ~ (0xD800 <= 4096 * q + 64 * r2 + r <= 0xDFFF) ->
  utf8_decode (0xE0 + q :: 0x80 + r2 :: 0x80 + r :: rest)
  = option_map (cons (4096 * q + 64 * r2 + r)) (utf8_decode rest).
Proof.
  intros Hq Hr2 Hr Hlo Hsur. cbn [utf8_decode]. unfold is_cont.
  cbv zeta.
  replace ((0xE0 + q - 0xE0) * 4096 + (0x80 + r2 - 0x80) * 64
           + (0x80 + r - 0x80)) with (4096 * q + 64 * r2 + r) by lia.
  settle_tests. cbn [andb].
  destruct (Z.leb_spec 0xD800 (4096 * q + 64 * r2 + r));
    destruct (Z.leb_spec (4096 * q + 64 * r2 + r) 0xDFFF);
    cbn [andb negb]; try reflexivity; lia.
Qed.

Lemma decode_4 (q r3 r2 r : Z) (rest : bytes) :
  0 <= q < 5 -> 0 <= r3 < 64 -> 0 <= r2 < 64 -> 0 <= r < 64 ->
  0x10000 <= 262144 * q + 4096 * r3 + 64 * r2 + r < 0x110000 ->
  utf8_decode (0xF0 + q :: 0x80 + r3 :: 0x80 + r2 :: 0x80 + r :: rest)
  = option_map (cons (262144 * q + 4096 * r3 + 64 * r2 + r))
               (utf8_decode rest).
Proof.
  intros Hq Hr3 Hr2 Hr Hc. cbn [utf8_decode]. unfold is_cont.
  cbv zeta.
  replace ((0xF0 + q - 0xF0) * 262144 + (0x80 + r3 - 0x80) * 4096
           + (0x80 + r2 - 0x80) * 64 + (0x80 + r - 0x80))
    with (262144 * q + 4096 * r3 + 64 * r2 + r) by lia.
  settle_tests. reflexivity.
Qed.

Lemma utf8_decode_encode_char_cases (c : codepoint) (rest : bytes) :
  match utf8_encode_char c with
  | Some bs =>
      utf8_decode (bs ++ rest) = option_map (cons c) (utf8_decode rest)
      /\ Forall is_byte bs
  | None => True
  end.
Proof.
  unfold utf8_encode_char, is_byte.
  destruct (Z.ltb_spec c 0); [exact I|].
  destruct (Z.ltb_spec c 0x80).
  { split; [apply decode_1; lia | repeat constructor; lia]. }
  pose proof (Z.div_mod c 64 ltac:(lia)) as E1.
  pose proof (Z.mod_pos_bound c 64 ltac:(lia)) as B1.
  destruct (Z.ltb_spec c 0x800).
  { split; [|repeat constructor; lia].
    change (utf8_decode (0xC0 + c / 64 :: 0x80 + c mod 64 :: rest)
            = option_map (cons c) (utf8_decode rest)).
    rewrite decode_2 by lia. do 2 f_equal. lia. }
  pose proof (Z.div_mod (c / 64) 64 ltac:(lia)) as E2.
  pose proof (Z.mod_pos_bound (c / 64) 64 ltac:(lia)) as B2.
  assert (E4096 : c / 4096 = c / 64 / 64)
    by (rewrite Z.div_div by lia; reflexivity).
  destruct (Z.ltb_spec c 0x10000).
  { destruct (Z.leb_spec 0xD800 c); destruct (Z.leb_spec c 0xDFFF);
      cbv beta iota delta [andb]; try exact I.
    all: rewrite E4096; (split; [|repeat constructor; lia]).
    all: change (utf8_decode (0xE0 + c / 64 / 64 :: 0x80 + (c / 64) mod 64
                              :: 0x80 + c mod 64 :: rest)
                 = option_map (cons c) (utf8_decode rest)).
    all: rewrite decode_3 by lia; do 2 f_equal; lia. }
  destruct (Z.ltb_spec c 0x110000); [|exact I].
  pose proof (Z.div_mod (c / 64 / 64) 64 ltac:(lia)) as E3.
  pose proof (Z.mod_pos_bound (c / 64 / 64) 64 ltac:(lia)) as B3.
  assert (E262144 : c / 262144 = c / 64 / 64 / 64)
    by (rewrite !Z.div_div by lia; reflexivity).
  rewrite E262144, E4096. split; [|repeat constructor; lia].
  change (utf8_decode (0xF0 + c / 64 / 64 / 64 :: 0x80 + (c / 64 / 64) mod 64
                       :: 0x80 + (c / 64) mod 64 :: 0x80 + c mod 64 :: rest)
          = option_map (cons c) (utf8_decode rest)).
  rewrite decode_4 by lia. do 2 f_equal. lia.
Qed.

Lemma utf8_decode_encode_char (c : codepoint) (bs rest : bytes) :
  utf8_encode_char c = Some bs ->
  utf8_decode (bs ++ rest) = option_map (cons c) (utf8_decode rest).
Proof.
  intros E. pose proof (utf8_decode_encode_char_cases c rest) as H.
  rewrite E in H. apply H.
Qed.

Lemma utf8_encode_char_bytes (c : codepoint) (bs : bytes) :
  utf8_encode_char c = Some bs -> Forall is_byte bs.
Proof.
  intros E. pose proof (utf8_decode_encode_char_cases c []) as H.
  rewrite E in H. apply H.
Qed.

(** Decoding undoes encoding: [s.encode("utf-8").decode("utf-8") == s]. *)
Lemma utf8_decode_encode (s : str) (bs : bytes) :
  utf8_encode s = Some bs -> utf8_decode bs = Some s.
Proof.
  revert bs. induction s as [|c s IH]; intros bs; cbn [utf8_encode].
  - intros [= <-]. reflexivity.
  - destruct (utf8_encode_char c) as [a|] eqn:Ec; [|discriminate].
    destruct (utf8_encode s) as [b|]; [|discriminate].
    intros [= <-]. rewrite (utf8_decode_encode_char c a b Ec).
    rewrite (IH b eq_refl). reflexivity.
Qed.

Lemma utf8_encode_bytes (s : str) (bs : bytes) :
  utf8_encode s = Some bs -> Forall is_byte bs.
Proof.
  revert bs. induction s as [|c s IH]; intros bs; cbn [utf8_encode].
  - intros [= <-]. constructor.
  - destruct (utf8_encode_char c) as [a|] eqn:Ec; [|discriminate].
    destruct (utf8_encode s) as [b|]; [|discriminate].
    intros [= <-]. apply Forall_app. split.
    + exact (utf8_encode_char_bytes c a Ec).
    + exact (IH b eq_refl).
Qed.

(** ASCII text and its octets are the same sequence. *)
Lemma utf8_decode_ascii (bs : bytes) :
  Forall is_ascii bs -> utf8_decode bs = Some bs.
Proof.
  induction 1 as [|b bs Hb _ IH]; [reflexivity|].
  unfold is_ascii in Hb. rewrite decode_1 by lia. rewrite IH. reflexivity.
Qed.

Lemma utf8_encode_ascii (s : str) :
  Forall is_ascii s -> utf8_encode s = Some s.
Proof.
  induction 1 as [|c s Hc _ IH]; [reflexivity|].
  unfold is_ascii in Hc. cbn [utf8_encode]. rewrite IH.
  unfold utf8_encode_char.
  destruct (Z.ltb_spec c 0); [lia|].
  destruct (Z.ltb_spec c 0x80); [reflexivity|lia].
Qed.

(** ** encryption.py *)

Section EncryptionFacts.
Context {crypto : Cryptography} {settings : Settings}.

Lemma strip_nil : strip [] = [].
Proof. reflexivity. Qed.

Lemma get_fernet_key_default :
  exists k, Encryption._get_fernet_key None = Ok k.
Proof.
  unfold Encryption._get_fernet_key, str_encode.
  pose proof SECRET_KEY_text as H.
  destruct (utf8_encode SECRET_KEY) as [pw|]; [|contradiction].
  eexists. reflexivity.
Qed.

(** A token of the package reads back as itself through the two text
    conversions that surround it. *)
Lemma token_text (k : bytes) (iv : Z) (data : bytes) :
  bytes_decode (fernet_encrypt k iv data) = Ok (fernet_encrypt k iv data)
  /\ str_encode (fernet_encrypt k iv data) = Ok (fernet_encrypt k iv data).
Proof.
  unfold bytes_decode, str_encode.
  rewrite (utf8_decode_ascii _ (fernet_token_ascii k iv data)).
  rewrite (utf8_encode_ascii _ (fernet_token_ascii k iv data)).
  split; reflexivity.
Qed.

(** What [encrypt_message] returns on text it accepts. *)
Lemma encrypt_message_accepts (s : str) (iv : Z) (data : bytes) :
  strip s <> [] -> utf8_encode s = Some data ->
  exists k, Encryption._get_fernet_key None = Ok k
    /\ Encryption.encrypt_message s None iv = Ok (fernet_encrypt k iv data).
Proof.
  intros Hs Hd. destruct get_fernet_key_default as [k Hk].
  exists k. split; [exact Hk|].
  unfold Encryption.encrypt_message.
  assert (Hne : py_not s = false)
    by (destruct s; [rewrite strip_nil in Hs; contradiction|reflexivity]).
  assert (Hns : py_not (strip s) = false)
    by (destruct (strip s); [contradiction|reflexivity]).
  rewrite Hne, Hns. cbn [orb]. rewrite Hk. cbn [rbind].
  unfold str_encode at 1. rewrite Hd. cbn [rbind].
  rewrite (proj1 (token_text k iv data)). reflexivity.
Qed.

(** [encrypt_message] refuses exactly the empty and the blank text before
    it touches the key. *)
Lemma encrypt_message_blank (s : str) (key : option str) (iv : Z) :
  strip s = [] ->
  Encryption.encrypt_message s key iv
  = Raise (ValueError "Cannot encrypt empty content").
Proof.
  intros Hs. unfold Encryption.encrypt_message. rewrite Hs.
  cbn [py_not]. rewrite orb_true_r. reflexivity.
Qed.

(** A token made under the derived key decrypts to the text whose octets
    it carries. *)
Lemma decrypt_message_token (k : bytes) (iv : Z) (data : bytes) (s : str) :
  Encryption._get_fernet_key None = Ok k ->
  Forall is_byte data -> utf8_decode data = Some s ->
  Encryption.decrypt_message (fernet_encrypt k iv data) None = Ok s.
Proof.
  intros Hk Hb Hs. unfold Encryption.decrypt_message.
  pose proof (fernet_token_nonempty k iv data) as Hne.
  destruct (fernet_encrypt k iv data) as [|t0 ts] eqn:Et; [contradiction|].
  cbn [py_not]. rewrite Hk. cbn [rbind]. rewrite <- Et.
  rewrite (proj2 (token_text k iv data)). cbn [rbind].
  rewrite (fernet_decrypt_encrypt k iv data Hb).
  unfold bytes_decode. rewrite Hs. reflexivity.
Qed.

(** C4, as the code has it: text that is neither empty nor blank, and
    that UTF-8 can encode, is returned unchanged by [decrypt_message]
    applied to what [encrypt_message] made of it under the same key. *)
Theorem encrypt_decrypt_round_trip (s : str) (iv : Z) :
  strip s <> [] -> utf8_encode s <> None ->
  exists token,
    Encryption.encrypt_message s None iv = Ok token
    /\ Encryption.decrypt_message token None = Ok s.
Proof.
  intros Hs He. destruct (utf8_encode s) as [data|] eqn:Ed; [|contradiction].
  destruct (encrypt_message_accepts s iv data Hs Ed) as (k & Hk & Henc).
  exists (fernet_encrypt k iv data). split; [exact Henc|].
  apply decrypt_message_token.
  - exact Hk.
  - exact (utf8_encode_bytes s data Ed).
  - exact (utf8_decode_encode s data Ed).
Qed.

End EncryptionFacts.

Lemma encrypt_decrypt_round_trip_witness :
  strip (text "hi") <> [] /\ utf8_encode (text "hi") <> None
  /\ exists token,
       @Encryption.encrypt_message toy_cryptography toy_settings
         (text "hi") None 7 = Ok token
       /\ @Encryption.decrypt_message toy_cryptography toy_settings
            token None = Ok (text "hi").
Proof.
  assert (H1 : strip (text "hi") <> []) by (vm_compute; discriminate).
  assert (H2 : utf8_encode (text "hi") <> None) by (vm_compute; discriminate).
  split; [exact H1|]. split; [exact H2|].
  exact (@encrypt_decrypt_round_trip toy_cryptography toy_settings
           (text "hi") 7 H1 H2).
Defined.

(** C4 as stated fails: a single space has nonzero length and
    [encrypt_message] refuses it, so there is nothing to decrypt. *)
Lemma blank_text_not_encrypted :
  text " " <> []
  /\ @Encryption.encrypt_message toy_cryptography toy_settings
       (text " ") None 0
     = Raise (ValueError "Cannot encrypt empty content")
  /\ ~ (forall s : str, s <> [] ->
        exists token,
          @Encryption.encrypt_message toy_cryptography toy_settings
            s None 0 = Ok token
          /\ @Encryption.decrypt_message toy_cryptography toy_settings
               token None = Ok s).
Proof.
  assert (H1 : text " " <> []) by (vm_compute; discriminate).
  split; [exact H1|]. split; [reflexivity|].
  intros H. destruct (H (text " ") H1) as (token & He & _).
  discriminate He.
Qed.

(** ** Lists and tables *)

Lemma filter_nil_existsb {A} (p : A -> bool) (l : list A) :
  filter p l = [] <-> existsb p l = false.
Proof.
  induction l as [|x l IH]; cbn [filter existsb]; [tauto|].
  destruct (p x); cbn [orb]; [split; discriminate | exact IH].
Qed.

Lemma filter_head_find {A} (p : A -> bool) (l : list A) :
  hd_error (filter p l) = find p l.
Proof.
  induction l as [|x l IH]; cbn [filter find]; [reflexivity|].
  destruct (p x); [reflexivity | exact IH].
Qed.

Lemma fold_max_ge (ids : list Z) (x : Z) :
  In x ids -> x <= fold_right Z.max 0 ids.
Proof.
  induction ids as [|y ids IH]; cbn [In fold_right]; [contradiction|].
  intros [->|H]; [lia | specialize (IH H); lia].
Qed.

Lemma fresh_id_fresh (ids : list UUID) (x : UUID) :
  In x ids -> x <> fresh_id ids.
Proof.
  intros H. pose proof (fold_max_ge ids x H). unfold fresh_id. lia.
Qed.

Lemma filter_fresh_id {A} (id : A -> UUID) (rows : list A) :
  filter (fun r => id r =? fresh_id (map id rows)) rows = [].
Proof.
  apply filter_nil_existsb.
  destruct (existsb _ rows) eqn:E; [|reflexivity].
  apply existsb_exists in E. destruct E as (r & Hin & Heq).
  apply Z.eqb_eq in Heq.
  exfalso. apply (fresh_id_fresh (map id rows) (id r)); [|exact Heq].
  apply in_map, Hin.
Qed.

Lemma has_profile_find (st : Store) (id : UUID) :
  has_profile st id = true ->
  exists p, find_profile (profiles st) id = Some p /\ p_id p = id.
Proof.
  unfold has_profile, find_profile. intros H.
  destruct (find _ (profiles st)) as [p|] eqn:E.
  - exists p. split; [reflexivity|].
    apply find_some in E. apply Z.eqb_eq, E.
  - apply existsb_exists in H. destruct H as (p & Hin & Hp).
    rewrite (find_none _ _ E p Hin) in Hp. discriminate.
Qed.

Lemma has_profile_log (rq : Request) (st : Store) (id : UUID) :
  has_profile (log rq st) id = has_profile st id.
Proof. reflexivity. Qed.

(** ** get_or_create_conversation *)

Lemma pair_where (lo hi : UUID) (r : ConversationRow) :
  conv_where (pair_filters lo hi) r
  = (participant_1_id r =? lo) && (participant_2_id r =? hi).
Proof.
  unfold conv_where, pair_filters. cbn [forallb conv_matches].
  rewrite andb_true_r. reflexivity.
Qed.

Lemma pair_taken_filter (st : Store) (lo hi : UUID) :
  pair_taken st lo hi = false
  <-> filter (conv_where (pair_filters lo hi)) (conversations st) = [].
Proof.
  rewrite filter_nil_existsb. unfold pair_taken.
  induction (conversations st) as [|r l IH]; cbn [existsb]; [tauto|].
  rewrite pair_where.
  destruct ((participant_1_id r =? lo) && (participant_2_id r =? hi));
    cbn [orb]; [tauto | exact IH].
Qed.

Lemma neither_participant_false (conv : ConversationRow) (user_id : UUID) :
  participant_of conv user_id -> Chat.neither_participant conv user_id = false.
Proof.
  unfold participant_of, Chat.neither_participant.
  intros [H|H]; rewrite H, Z.eqb_refl; cbn [negb andb];
    [reflexivity | apply andb_false_r].
Qed.

Lemma neither_participant_true (conv : ConversationRow) (user_id : UUID) :
  ~ participant_of conv user_id -> Chat.neither_participant conv user_id = true.
Proof.
  unfold participant_of, Chat.neither_participant. intros H.
  destruct (Z.eqb_spec (participant_1_id conv) user_id); [tauto|].
  destruct (Z.eqb_spec (participant_2_id conv) user_id); [tauto|].
  reflexivity.
Qed.

Lemma ordered_pair (A B : UUID) :
  (if A <? B then (A, B) else (B, A)) = (Z.min A B, Z.max A B).
Proof. destruct (Z.ltb_spec A B); f_equal; lia. Qed.

(** The dictionary made from a stored row describes that row, when the
    other participant has a profile. *)
Lemma format_conversation_row
  (ps : list ProfileRow) (row : ConversationRow) (user_id : UUID) :
  find_profile ps (participant_1_id row) <> None ->
  find_profile ps (participant_2_id row) <> None ->
  exists d,
    Chat._format_conversation_response (join_conversation ps row) user_id
    = Ok d
    /\ conversation_record d = row.
Proof.
  intros H1 H2. unfold Chat._format_conversation_response, join_conversation.
  cbn [cj_row participant_1 participant_2].
  destruct (participant_1_id row =? user_id).
  - destruct (find_profile ps (participant_2_id row)); [|contradiction].
    eexists. split; [reflexivity|]. destruct row; reflexivity.
  - destruct (find_profile ps (participant_1_id row)); [|contradiction].
    eexists. split; [reflexivity|]. destruct row; reflexivity.
Qed.

Lemma get_or_create_existing
  (st : Store) (A B : UUID) (row : ConversationRow)
  (rest : list ConversationRow) :
  A <> B -> has_profile st A = true -> has_profile st B = true ->
  filter (conv_where (pair_filters (Z.min A B) (Z.max A B)))
         (conversations st) = row :: rest ->
  exists d,
    Chat.get_or_create_conversation A B st
    = (Ok d, log (Select conversations_t) st)
    /\ conversation_record d = row.
Proof.
  intros Hne HA HB Hf.
  assert (Hrow : participant_1_id row = Z.min A B
                 /\ participant_2_id row = Z.max A B).
  { assert (Hin : In row (filter (conv_where
              (pair_filters (Z.min A B) (Z.max A B))) (conversations st)))
      by (rewrite Hf; left; reflexivity).
    apply filter_In in Hin. destruct Hin as [_ Hw].
    rewrite pair_where in Hw. apply andb_true_iff in Hw.
    destruct Hw as [H1 H2]. apply Z.eqb_eq in H1, H2. tauto. }
  destruct Hrow as [Hp1 Hp2].
  destruct (format_conversation_row (profiles st) row A) as (d & Hd & Hrec).
  { rewrite Hp1. destruct (has_profile_find st (Z.min A B)) as (p & -> & _);
      [|discriminate].
    destruct (Z.min_spec A B) as [[_ ->]|[_ ->]]; assumption. }
  { rewrite Hp2. destruct (has_profile_find st (Z.max A B)) as (p & -> & _);
      [|discriminate].
    destruct (Z.max_spec A B) as [[_ ->]|[_ ->]]; assumption. }
  exists d. split; [|exact Hrec].
  unfold Chat.get_or_create_conversation, Chat.get_or_create_conversation_amid.
  unfold try_except.
  destruct (Z.eqb_spec A B) as [|_]; [contradiction|].
  rewrite ordered_pair.
  unfold bind, select_conversations_embed.
  fold (pair_filters (Z.min A B) (Z.max A B)). rewrite Hf.
  cbn [map]. unfold lift. rewrite Hd. reflexivity.
Qed.

Lemma id_where (id : UUID) (r : ConversationRow) :
  conv_where [c_id_eq id] r = (c_id r =? id).
Proof. unfold conv_where. cbn [forallb conv_matches]. apply andb_true_r. Qed.

Lemma get_or_create_new (st : Store) (A B : UUID) :
  A <> B -> has_profile st A = true -> has_profile st B = true ->
  filter (conv_where (pair_filters (Z.min A B) (Z.max A B)))
         (conversations st) = [] ->
  exists d,
    Chat.get_or_create_conversation A B st
    = (Ok d,
       mkStore (profiles st)
               (conversations st ++ [first_contact_row st A B])
               (messages st) (now st + 1)
               (journal st ++ [Select conversations_t;
                               InsertConversation (Z.min A B) (Z.max A B);
                               Select conversations_t]))
    /\ conversation_record d = first_contact_row st A B.
Proof.
  intros Hne HA HB Hf.
  assert (Hlo : has_profile st (Z.min A B) = true)
    by (destruct (Z.min_spec A B) as [[_ ->]|[_ ->]]; assumption).
  assert (Hhi : has_profile st (Z.max A B) = true)
    by (destruct (Z.max_spec A B) as [[_ ->]|[_ ->]]; assumption).
  destruct (format_conversation_row (profiles st)
              (first_contact_row st A B) A) as (d & Hd & Hrec).
  { cbn [first_contact_row participant_1_id].
    destruct (has_profile_find st _ Hlo) as (p & -> & _). discriminate. }
  { cbn [first_contact_row participant_2_id].
    destruct (has_profile_find st _ Hhi) as (p & -> & _). discriminate. }
  exists d. split; [|exact Hrec].
  unfold Chat.get_or_create_conversation, Chat.get_or_create_conversation_amid.
  unfold try_except.
  destruct (Z.eqb_spec A B) as [|_]; [contradiction|].
  rewrite ordered_pair.
  unfold bind at 1. unfold select_conversations_embed at 1.
  fold (pair_filters (Z.min A B) (Z.max A B)). rewrite Hf.
  cbn [map]. unfold bind at 1, Chat.concurrently.
  unfold bind at 1. unfold insert_conversation.
  destruct (Z.ltb_spec (Z.min A B) (Z.max A B)) as [_|]; [|lia].
  cbn [negb].
  rewrite (proj2 (pair_taken_filter (log (Select conversations_t) st) _ _))
    by exact Hf.
  rewrite !has_profile_log, Hlo, Hhi. cbn [andb negb].
  fold (first_contact_row st A B).
  cbn [log profiles conversations messages now journal c_id].
  fold (first_contact_row st A B).
  unfold bind, select_conversations_embed.
  cbn [profiles conversations messages now journal].
  rewrite filter_app, (filter_ext _ _ (id_where _)), filter_fresh_id.
  cbn [filter app]. rewrite id_where.
  cbn [first_contact_row c_id]. rewrite Z.eqb_refl.
  fold (first_contact_row st A B). cbn [map]. unfold lift.
  cbn [profiles]. rewrite Hd.
  unfold log. cbn [profiles conversations messages now journal].
  rewrite <- !app_assoc. reflexivity.
Qed.

Lemma pair_row_fields (lo hi : UUID) (row : ConversationRow)
  (rows rest : list ConversationRow) :
  filter (conv_where (pair_filters lo hi)) rows = row :: rest ->
  In row rows /\ participant_1_id row = lo /\ participant_2_id row = hi.
Proof.
  intros Hf.
  assert (Hin : In row (filter (conv_where (pair_filters lo hi)) rows))
    by (rewrite Hf; left; reflexivity).
  apply filter_In in Hin. destruct Hin as [Hin Hw].
  rewrite pair_where in Hw. apply andb_true_iff in Hw.
  destruct Hw as [H1 H2]. apply Z.eqb_eq in H1, H2. tauto.
Qed.

(** C1: whoever of two distinct users asks first, both requests resolve
    to one stored conversation record, whose participants are the two
    identifiers in increasing order; the second request adds no row, and
    had the other user asked first the same record and the same table
    would have resulted. *)
Theorem get_or_create_symmetric (st : Store) (A B : UUID) :
  A <> B -> has_profile st A = true -> has_profile st B = true ->
  exists dA dB st1 st2 row,
    Chat.get_or_create_conversation A B st = (Ok dA, st1)
    /\ Chat.get_or_create_conversation B A st1 = (Ok dB, st2)
    /\ conversation_record dA = row /\ conversation_record dB = row
    /\ In row (conversations st2)
    /\ conversations st2 = conversations st1
    /\ participant_1_id row = Z.min A B /\ participant_2_id row = Z.max A B
    /\ participant_1_id row < participant_2_id row
    /\ exists dB0 stB,
         Chat.get_or_create_conversation B A st = (Ok dB0, stB)
         /\ conversation_record dB0 = row
         /\ conversations stB = conversations st1.
Proof.
  intros Hne HA HB.
  assert (Hne' : B <> A) by congruence.
  destruct (filter (conv_where (pair_filters (Z.min A B) (Z.max A B)))
                   (conversations st)) as [|row rest] eqn:Hf.
  - destruct (get_or_create_new st A B Hne HA HB Hf) as (dA & HrA & HdA).
    assert (Hf0 : filter (conv_where (pair_filters (Z.min B A) (Z.max B A)))
                    (conversations st) = [])
      by (rewrite (Z.min_comm B A), (Z.max_comm B A); exact Hf).
    destruct (get_or_create_new st B A Hne' HB HA Hf0) as (dB0 & HrB0 & HdB0).
    assert (Hrow : first_contact_row st B A = first_contact_row st A B)
      by (unfold first_contact_row;
          rewrite (Z.min_comm B A), (Z.max_comm B A); reflexivity).
    rewrite Hrow in HrB0, HdB0.
    set (st1 := mkStore (profiles st)
                  (conversations st ++ [first_contact_row st A B])
                  (messages st) (now st + 1)
                  (journal st ++ [Select conversations_t;
                       InsertConversation (Z.min A B) (Z.max A B);
                       Select conversations_t])) in *.
    assert (Hf1 : filter (conv_where (pair_filters (Z.min B A) (Z.max B A)))
                    (conversations st1) = [first_contact_row st A B]).
    { rewrite (Z.min_comm B A), (Z.max_comm B A).
      unfold st1. cbn [conversations]. rewrite filter_app, Hf.
      cbn [filter app]. rewrite pair_where.
      cbn [first_contact_row participant_1_id participant_2_id].
      rewrite !Z.eqb_refl. reflexivity. }
    destruct (get_or_create_existing st1 B A _ _ Hne' HB HA Hf1)
      as (dB & HrB & HdB).
    exists dA, dB, st1, (log (Select conversations_t) st1),
      (first_contact_row st A B).
    split; [exact HrA|]. split; [exact HrB|].
    split; [exact HdA|]. split; [exact HdB|].
    split; [cbn [log conversations st1]; apply in_or_app; right; left;
            reflexivity|].
    split; [reflexivity|]. split; [reflexivity|]. split; [reflexivity|].
    split; [cbn [first_contact_row participant_1_id participant_2_id]; lia|].
    eexists dB0, _. split; [exact HrB0|]. split; [exact HdB0|]. reflexivity.
  - destruct (get_or_create_existing st A B _ _ Hne HA HB Hf)
      as (dA & HrA & HdA).
    assert (Hf0 : filter (conv_where (pair_filters (Z.min B A) (Z.max B A)))
                    (conversations st) = row :: rest)
      by (rewrite (Z.min_comm B A), (Z.max_comm B A); exact Hf).
    destruct (get_or_create_existing st B A _ _ Hne' HB HA Hf0)
      as (dB0 & HrB0 & HdB0).
    destruct (get_or_create_existing (log (Select conversations_t) st) B A
                _ _ Hne' HB HA Hf0) as (dB & HrB & HdB).
    destruct (pair_row_fields _ _ _ _ _ Hf) as (Hin & Hp1 & Hp2).
    exists dA, dB, (log (Select conversations_t) st),
      (log (Select conversations_t) (log (Select conversations_t) st)), row.
    split; [exact HrA|]. split; [exact HrB|].
    split; [exact HdA|]. split; [exact HdB|].
    split; [exact Hin|]. split; [reflexivity|].
    split; [exact Hp1|]. split; [exact Hp2|].
    split; [rewrite Hp1, Hp2; lia|].
    exists dB0, (log (Select conversations_t) st).
    split; [exact HrB0|]. split; [exact HdB0|]. reflexivity.
Qed.

Lemma get_or_create_symmetric_witness :
  exists dA dB st1 st2 row,
    Chat.get_or_create_conversation Scenario.alice Scenario.bob
      Scenario.campus = (Ok dA, st1)
    /\ Chat.get_or_create_conversation Scenario.bob Scenario.alice st1
       = (Ok dB, st2)
    /\ conversation_record dA = row /\ conversation_record dB = row
    /\ In row (conversations st2)
    /\ conversations st2 = conversations st1
    /\ participant_1_id row = Z.min Scenario.alice Scenario.bob
    /\ participant_2_id row = Z.max Scenario.alice Scenario.bob
    /\ participant_1_id row < participant_2_id row
    /\ exists dB0 stB,
         Chat.get_or_create_conversation Scenario.bob Scenario.alice
           Scenario.campus = (Ok dB0, stB)
         /\ conversation_record dB0 = row
         /\ conversations stB = conversations st1.
Proof.
  apply (get_or_create_symmetric Scenario.campus Scenario.alice Scenario.bob).
  - vm_compute. discriminate.
  - reflexivity.
  - reflexivity.
Defined.

(** The spec's scenario: whichever of the two asks, the stored row has the
    identifier made of ones first and the one made of twos second. *)
Lemma scenario_pair_order :
  map (fun r => (participant_1_id r, participant_2_id r))
      (conversations
         (snd (Chat.get_or_create_conversation Scenario.alice Scenario.bob
                 Scenario.campus)))
  = [(Scenario.alice, Scenario.bob)]
  /\ map (fun r => (participant_1_id r, participant_2_id r))
         (conversations
            (snd (Chat.get_or_create_conversation Scenario.bob Scenario.alice
                    Scenario.campus)))
     = [(Scenario.alice, Scenario.bob)].
Proof. vm_compute. split; reflexivity. Qed.

(** C8: a request for a conversation with oneself raises
    [InvalidParticipantError] and leaves the store exactly as it was, its
    journal included: no request reached the store. *)
Theorem self_conversation_rejected
  (others : Store -> Store) (A : UUID) (st : Store) :
  Chat.get_or_create_conversation_amid others A A st
  = (Raise (InvalidParticipantError "Cannot create conversation with yourself"),
     st)
  /\ Chat.get_or_create_conversation A A st
     = (Raise (InvalidParticipantError
                 "Cannot create conversation with yourself"), st)
  /\ journal (snd (Chat.get_or_create_conversation A A st)) = journal st.
Proof.
  assert (H : forall f, Chat.get_or_create_conversation_amid f A A st
    = (Raise (InvalidParticipantError
                "Cannot create conversation with yourself"), st)).
  { intros f. unfold Chat.get_or_create_conversation_amid, try_except.
    rewrite Z.eqb_refl. reflexivity. }
  unfold Chat.get_or_create_conversation.
  rewrite !H. repeat split.
Qed.

(** C6, as the code has it: when another client stores the pair between
    the lookup and the insert, the insert is rejected and the request ends
    there, raising a generic exception that carries the store's fault;
    nothing is fetched again and no row is added. *)
Theorem insert_conflict_surfaces
  (others : Store -> Store) (A B : UUID) (st : Store) :
  A <> B ->
  pair_taken st (Z.min A B) (Z.max A B) = false ->
  pair_taken (others (log (Select conversations_t) st))
             (Z.min A B) (Z.max A B) = true ->
  Chat.get_or_create_conversation_amid others A B st
  = (Raise (ExceptionFrom "Error getting or creating conversation: "
                          (APIError UniqueViolation)),
     log (InsertConversation (Z.min A B) (Z.max A B))
         (others (log (Select conversations_t) st))).
Proof.
  intros Hne Hfree Htaken.
  unfold Chat.get_or_create_conversation_amid, try_except.
  destruct (Z.eqb_spec A B) as [|_]; [contradiction|].
  rewrite ordered_pair.
  unfold bind at 1. unfold select_conversations_embed at 1.
  fold (pair_filters (Z.min A B) (Z.max A B)).
  rewrite (proj1 (pair_taken_filter st _ _) Hfree). cbn [map].
  unfold bind at 1, Chat.concurrently.
  unfold bind at 1. unfold insert_conversation.
  destruct (Z.ltb_spec (Z.min A B) (Z.max A B)) as [_|]; [|lia].
  cbn [negb]. rewrite Htaken. reflexivity.
Qed.

Lemma insert_conflict_surfaces_witness :
  Chat.get_or_create_conversation_amid Scenario.rival
    Scenario.alice Scenario.bob Scenario.campus
  = (Raise (ExceptionFrom "Error getting or creating conversation: "
                          (APIError UniqueViolation)),
     log (InsertConversation (Z.min Scenario.alice Scenario.bob)
                             (Z.max Scenario.alice Scenario.bob))
         (Scenario.rival (log (Select conversations_t) Scenario.campus))).
Proof.
  apply (insert_conflict_surfaces Scenario.rival Scenario.alice Scenario.bob
           Scenario.campus).
  - vm_compute. discriminate.
  - reflexivity.
  - vm_compute. reflexivity.
Defined.

(** C6 as stated fails: Alice's lookup misses, a rival request stores the
    pair, Alice's insert is rejected by the uniqueness constraint, and her
    request raises instead of returning the stored conversation. *)
Lemma insert_conflict_not_recovered :
  pair_taken Scenario.campus Scenario.alice Scenario.bob = false
  /\ pair_taken (Scenario.rival (log (Select conversations_t) Scenario.campus))
                Scenario.alice Scenario.bob = true
  /\ fst (Chat.get_or_create_conversation_amid Scenario.rival
            Scenario.alice Scenario.bob Scenario.campus)
     = Raise (ExceptionFrom "Error getting or creating conversation: "
                            (APIError UniqueViolation))
  /\ ~ (exists d,
          fst (Chat.get_or_create_conversation_amid Scenario.rival
                 Scenario.alice Scenario.bob Scenario.campus) = Ok d).
Proof.
  split; [reflexivity|]. split; [vm_compute; reflexivity|].
  split; [vm_compute; reflexivity|].
  intros [d Hd]. vm_compute in Hd. discriminate Hd.
Qed.

(** ** send_message *)

Section SendFacts.
Context {crypto : Cryptography} {settings : Settings}.

(** C2: a send that succeeds wrote one row, whose content is the token
    [encrypt_message] made of the plain text; the only write request the
    store received carries that token, and the plain text travels back in
    the returned dictionary only. *)
Theorem send_message_persists_ciphertext
  (st st' : Store) (conversation_id sender_id : UUID) (plaintext : str)
  (iv : Z) (m : MessageDict) :
  Chat.send_message conversation_id sender_id plaintext iv st = (Ok m, st') ->
  exists token,
    Encryption.encrypt_message plaintext None iv = Ok token
    /\ messages st'
       = messages st
         ++ [{| m_id := fresh_id (map m_id (messages st));
                m_conversation_id := conversation_id;
                m_sender_id := sender_id;
                content_encrypted := token;
                is_read := false;
                created_at := now st |}]
    /\ conversations st' = conversations st
    /\ profiles st' = profiles st
    /\ journal st'
       = journal st ++ [Select conversations_t;
                        InsertMessage conversation_id sender_id token;
                        Select profiles_t]
    /\ md_content_encrypted m = token
    /\ content m = plaintext.
Proof.
  unfold Chat.send_message, try_except.
  unfold bind at 1. unfold select_conversations at 1.
  destruct (filter (conv_where [c_id_eq conversation_id]) (conversations st))
    as [|conv convs]; [discriminate|].
  destruct (Chat.neither_participant conv sender_id); [discriminate|].
  unfold bind at 1, lift.
  destruct (Encryption.encrypt_message plaintext None iv) as [token|e];
    [|destruct (Chat.is_not_found_or_unauthorized e); discriminate].
  unfold bind at 1. unfold insert_message.
  cbn [log profiles conversations messages now journal].
  rewrite has_profile_log.
  destruct (existsb (fun r => c_id r =? conversation_id) (conversations st)
            && has_profile st sender_id); cbn [negb]; [|discriminate].
  unfold Chat._get_user_profile_for_message, bind, select_profiles, ret.
  cbn [log profiles conversations messages now journal].
  intros H. exists token. split; [reflexivity|].
  destruct (filter (fun p => p_id p =? sender_id) (profiles st));
    injection H as <- <-;
    cbn [log profiles conversations messages now journal
         md_content_encrypted content content_encrypted];
    rewrite <- !app_assoc; repeat split.
Qed.

End SendFacts.

Lemma send_message_persists_ciphertext_witness :
  @Chat.send_message toy_cryptography toy_settings
     Scenario.talk Scenario.alice (text "hi") 7 Scenario.met
  = (Ok Story.echo, Story.greeted)
  /\ exists token,
       @Encryption.encrypt_message toy_cryptography toy_settings
         (text "hi") None 7 = Ok token
       /\ messages Story.greeted
          = messages Scenario.met
            ++ [{| m_id := fresh_id (map m_id (messages Scenario.met));
                   m_conversation_id := Scenario.talk;
                   m_sender_id := Scenario.alice;
                   content_encrypted := token;
                   is_read := false;
                   created_at := now Scenario.met |}]
       /\ conversations Story.greeted = conversations Scenario.met
       /\ profiles Story.greeted = profiles Scenario.met
       /\ journal Story.greeted
          = journal Scenario.met
            ++ [Select conversations_t;
                InsertMessage Scenario.talk Scenario.alice token;
                Select profiles_t]
       /\ md_content_encrypted Story.echo = token
       /\ content Story.echo = text "hi".
Proof.
  assert (H : @Chat.send_message toy_cryptography toy_settings
                Scenario.talk Scenario.alice (text "hi") 7 Scenario.met
              = (Ok Story.echo, Story.greeted))
    by (vm_compute; reflexivity).
  split; [exact H|].
  exact (@send_message_persists_ciphertext toy_cryptography toy_settings
           Scenario.met Story.greeted Scenario.talk Scenario.alice
           (text "hi") 7 Story.echo H).
Defined.

Section SendSucceeds.
Context {crypto : Cryptography} {settings : Settings}.

(** A participant with a profile can send any text that is not blank. *)
Lemma send_message_succeeds
  (st : Store) (conversation_id sender_id : UUID) (plaintext : str) (iv : Z)
  (conv : ConversationRow) :
  find (fun r => c_id r =? conversation_id) (conversations st) = Some conv ->
  participant_of conv sender_id ->
  has_profile st sender_id = true ->
  strip plaintext <> [] -> utf8_encode plaintext <> None ->
  exists m st',
    Chat.send_message conversation_id sender_id plaintext iv st = (Ok m, st').
Proof.
  intros Hconv Hpart Hprof Hs He.
  destruct (utf8_encode plaintext) as [data|] eqn:Ed; [|contradiction].
  destruct (encrypt_message_accepts plaintext iv data Hs Ed)
    as (k & _ & Henc).
  unfold Chat.send_message, try_except.
  unfold bind at 1. unfold select_conversations at 1.
  rewrite (filter_ext _ _ (id_where conversation_id)).
  assert (Hex : existsb (fun r => c_id r =? conversation_id)
                        (conversations st) = true).
  { apply existsb_exists. exists conv. apply find_some in Hconv. exact Hconv. }
  rewrite <- filter_head_find in Hconv.
  destruct (filter (fun r => c_id r =? conversation_id) (conversations st))
    as [|c cs]; [discriminate|].
  cbn [hd_error] in Hconv. injection Hconv as ->.
  rewrite (neither_participant_false conv sender_id Hpart).
  unfold bind at 1, lift. rewrite Henc.
  unfold bind at 1. unfold insert_message.
  cbn [log profiles conversations messages now journal].
  rewrite has_profile_log, Hex, Hprof. cbn [andb negb].
  unfold Chat._get_user_profile_for_message, bind, select_profiles, ret.
  cbn [log profiles conversations messages now journal].
  destruct (filter (fun p => p_id p =? sender_id) (profiles st));
    eexists; eexists; reflexivity.
Qed.

(** Sending keeps the foreign key of the senders. *)
Lemma send_message_keeps_senders
  (st st' : Store) (conversation_id sender_id : UUID) (plaintext : str)
  (iv : Z) (r : result MessageDict) :
  senders_have_profiles st ->
  Chat.send_message conversation_id sender_id plaintext iv st = (r, st') ->
  senders_have_profiles st'.
Proof.
  intros Hfk. unfold Chat.send_message, try_except.
  unfold bind at 1. unfold select_conversations at 1.
  destruct (filter (conv_where [c_id_eq conversation_id]) (conversations st))
    as [|conv convs].
  { intros [= _ <-]. exact Hfk. }
  destruct (Chat.neither_participant conv sender_id);
    [intros [= _ <-]; exact Hfk|].
  unfold bind at 1, lift.
  destruct (Encryption.encrypt_message plaintext None iv) as [token|e];
    [|destruct (Chat.is_not_found_or_unauthorized e);
      intros [= _ <-]; exact Hfk].
  unfold bind at 1. unfold insert_message.
  cbn [log profiles conversations messages now journal].
  rewrite has_profile_log.
  destruct (existsb (fun r => c_id r =? conversation_id) (conversations st))
    eqn:Hex; cbn [andb negb]; [|intros [= _ <-]; exact Hfk].
  destruct (has_profile st sender_id) eqn:Hprof; cbn [negb];
    [|intros [= _ <-]; exact Hfk].
  unfold Chat._get_user_profile_for_message, bind, select_profiles, ret.
  cbn [log profiles conversations messages now journal].
  assert (Hgoal : forall j n,
            senders_have_profiles
              (mkStore (profiles st) (conversations st)
                 (messages st
                  ++ [{| m_id := fresh_id (map m_id (messages st));
                         m_conversation_id := conversation_id;
                         m_sender_id := sender_id;
                         content_encrypted := token;
                         is_read := false;
                         created_at := now st |}]) n j)).
  { intros j n x Hx. cbn [messages] in Hx. apply in_app_or in Hx.
    destruct Hx as [Hx|[<-|[]]]; [exact (Hfk x Hx) | exact Hprof]. }
  destruct (filter (fun p => p_id p =? sender_id) (profiles st));
    intros [= _ <-]; apply Hgoal.
Qed.

End SendSucceeds.

(** ** mark_messages_as_read *)

Lemma m_id_where (id : UUID) (r : MessageRow) :
  msg_where [m_id_eq id] r = (m_id r =? id).
Proof. unfold msg_where. cbn [forallb msg_matches]. apply andb_true_r. Qed.

Lemma find_map_preserved {A} (p : A -> bool) (f : A -> A) (l : list A) :
  (forall x, p (f x) = p x) ->
  find p (map f l) = option_map f (find p l).
Proof.
  intros Hp. induction l as [|x l IH]; [reflexivity|].
  cbn [map find]. rewrite Hp. destruct (p x); [reflexivity | exact IH].
Qed.

(** Rewriting flags changes neither identifiers nor senders, so it keeps
    the markable identifiers. *)
Lemma markable_flags (st st2 : Store) (f : MessageRow -> MessageRow)
  (user_id : UUID) :
  (forall r, m_id (f r) = m_id r) ->
  (forall r, m_sender_id (f r) = m_sender_id r) ->
  messages st2 = map f (messages st) ->
  forall id, markable st2 user_id id = markable st user_id id.
Proof.
  intros Hid Hs Hm id. unfold markable. rewrite Hm.
  rewrite find_map_preserved by (intros x; rewrite Hid; reflexivity).
  destruct (find _ (messages st)) as [r|]; cbn [option_map];
    [rewrite Hs|]; reflexivity.
Qed.

Lemma set_read_twice (r : MessageRow) : set_read (set_read r) = set_read r.
Proof. reflexivity. Qed.

Lemma existsb_pointwise {A} (p q : A -> bool) (l : list A) :
  (forall x, p x = q x) -> existsb p l = existsb q l.
Proof.
  intros H. induction l as [|x l IH]; [reflexivity|].
  cbn [existsb]. rewrite H, IH. reflexivity.
Qed.

Lemma markable_select (st : Store) (user_id id : UUID) :
  markable st user_id id
  = match filter (fun r => m_id r =? id) (messages st) with
    | [] => false
    | msg :: _ => negb (m_sender_id msg =? user_id)
    end.
Proof.
  unfold markable. rewrite <- filter_head_find.
  destruct (filter _ (messages st)); reflexivity.
Qed.

Lemma marked_rows_skip (st : Store) (user_id id : UUID) (ids : list UUID) :
  markable st user_id id = false ->
  marked_rows st user_id (id :: ids) = marked_rows st user_id ids.
Proof.
  intros H. unfold marked_rows. apply map_ext. intros r.
  cbn [existsb]. rewrite H, andb_false_r. reflexivity.
Qed.

Lemma mark_each_run (user_id : UUID) (message_ids : list UUID) :
  forall (st : Store) (n : Z),
  exists st' j,
    Chat.mark_each user_id message_ids n st
    = (Ok (n + Z.of_nat (length (filter (markable st user_id) message_ids))),
       st')
    /\ messages st' = marked_rows st user_id message_ids
    /\ conversations st' = conversations st
    /\ profiles st' = profiles st
    /\ journal st' = journal st ++ j
    /\ Forall about_messages j.
Proof.
  induction message_ids as [|id ids IH]; intros st n.
  - exists st, []. cbn [Chat.mark_each filter length Z.of_nat].
    unfold ret, marked_rows. cbn [existsb].
    rewrite map_id, app_nil_r, Z.add_0_r. repeat split. constructor.
  - pose proof (markable_select st user_id id) as Hmark.
    cbn [Chat.mark_each]. unfold bind at 1. unfold select_messages at 1.
    rewrite (filter_ext _ _ (m_id_where id)).
    destruct (filter (fun r => m_id r =? id) (messages st))
      as [|msg rest] eqn:Hsel.
    + (* no such message *)
      destruct (IH (log (Select messages_t) st) n)
        as (st' & j & Hrun & Hm & Hc & Hp & Hj & Hfj).
      change (markable (log (Select messages_t) st)) with (markable st)
        in Hrun.
      change (marked_rows (log (Select messages_t) st))
        with (marked_rows st) in Hm.
      exists st', (Select messages_t :: j).
      rewrite Hrun. cbn [filter]. rewrite Hmark.
      split; [reflexivity|].
      split; [|split; [exact Hc|split; [exact Hp|split]]].
      * rewrite Hm. symmetry. apply marked_rows_skip, Hmark.
      * rewrite Hj. cbn [log journal]. rewrite <- app_assoc. reflexivity.
      * constructor; [left; reflexivity | exact Hfj].
    + destruct (m_sender_id msg =? user_id) eqn:Hsender;
        cbn [negb] in Hmark |- *.
      * (* the caller's own message *)
        destruct (IH (log (Select messages_t) st) n)
          as (st' & j & Hrun & Hm & Hc & Hp & Hj & Hfj).
        change (markable (log (Select messages_t) st)) with (markable st)
          in Hrun.
        change (marked_rows (log (Select messages_t) st))
          with (marked_rows st) in Hm.
        exists st', (Select messages_t :: j).
        rewrite Hrun. cbn [filter]. rewrite Hmark.
        split; [reflexivity|].
        split; [|split; [exact Hc|split; [exact Hp|split]]].
        -- rewrite Hm. symmetry. apply marked_rows_skip, Hmark.
        -- rewrite Hj. cbn [log journal]. rewrite <- app_assoc. reflexivity.
        -- constructor; [left; reflexivity | exact Hfj].
      * (* somebody else's message: written and counted *)
        unfold bind at 1. unfold update_is_read at 1.
        cbn [log profiles conversations messages now journal].
        rewrite (filter_ext _ _ (m_id_where id)), Hsel. cbn [map py_not].
        set (st2 := mkStore (profiles st) (conversations st)
                      (map (fun r => if msg_where [m_id_eq id] r
                                     then set_read r else r) (messages st))
                      (now st)
                      ((journal st ++ [Select messages_t])
                       ++ [UpdateIsRead])).
        destruct (IH st2 (n + 1))
          as (st' & j & Hrun & Hm & Hc & Hp & Hj & Hfj).
        exists st', (Select messages_t :: UpdateIsRead :: j).
        rewrite Hrun.
        assert (Hmk : forall i, markable st2 user_id i
                                = markable st user_id i).
        { apply (markable_flags st st2
                   (fun r => if msg_where [m_id_eq id] r
                             then set_read r else r)).
          - intros r. destruct (msg_where [m_id_eq id] r); reflexivity.
          - intros r. destruct (msg_where [m_id_eq id] r); reflexivity.
          - reflexivity. }
        rewrite (filter_ext _ _ Hmk). cbn [filter]. rewrite Hmark.
        split; [f_equal; f_equal; cbn [length]; lia|].
        split; [|split; [exact Hc|split; [exact Hp|split]]].
        -- rewrite Hm. unfold marked_rows, st2. cbn [messages].
           rewrite map_map. apply map_ext. intros r. cbn [existsb].
           rewrite Hmark, m_id_where.
           destruct (m_id r =? id) eqn:Hr; cbn [andb orb].
           ++ change (m_id (set_read r)) with (m_id r).
              rewrite set_read_twice.
              match goal with
              | |- context [existsb ?p ids] => destruct (existsb p ids)
              end; reflexivity.
           ++ rewrite (existsb_pointwise _
                         (fun i => (m_id r =? i) && markable st user_id i));
                [reflexivity|].
              intros i. rewrite Hmk. reflexivity.
        -- rewrite Hj. unfold st2. cbn [journal].
           rewrite <- !app_assoc. reflexivity.
        -- constructor; [left; reflexivity|].
           constructor; [right; reflexivity | exact Hfj].
Qed.

Ltac case_existsb l :=
  match goal with
  | |- context [existsb ?p l] => destruct (existsb p l)
  end.

Lemma mark_messages_as_read_each
  (st : Store) (user_id : UUID) (message_ids : list UUID) :
  Chat.mark_messages_as_read user_id message_ids st
  = Chat.mark_each user_id message_ids 0 st.
Proof.
  destruct (mark_each_run user_id message_ids st 0) as (st' & j & Hrun & _).
  unfold Chat.mark_messages_as_read, try_except.
  destruct message_ids as [|id ids]; cbn [py_not]; [reflexivity|].
  rewrite Hrun. reflexivity.
Qed.

(** A repeated request counts what the first one counted, whatever the
    flags have become, and writes the same rows again. *)
Lemma mark_read_repeats_count
  (st : Store) (user_id : UUID) (message_ids : list UUID) :
  exists n st1 st2,
    Chat.mark_messages_as_read user_id message_ids st = (Ok n, st1)
    /\ Chat.mark_messages_as_read user_id message_ids st1 = (Ok n, st2)
    /\ n = Z.of_nat (length (filter (markable st user_id) message_ids))
    /\ messages st2 = messages st1.
Proof.
  destruct (mark_each_run user_id message_ids st 0)
    as (st1 & j1 & Hrun1 & Hm1 & _).
  destruct (mark_each_run user_id message_ids st1 0)
    as (st2 & j2 & Hrun2 & Hm2 & _).
  assert (Hmk : forall i, markable st1 user_id i = markable st user_id i).
  { apply (markable_flags st st1
             (fun r => if existsb (fun id => (m_id r =? id)
                                             && markable st user_id id)
                                  message_ids
                       then set_read r else r)).
    - intros r. case_existsb message_ids; reflexivity.
    - intros r. case_existsb message_ids; reflexivity.
    - exact Hm1. }
  exists (Z.of_nat (length (filter (markable st user_id) message_ids))),
    st1, st2.
  rewrite !mark_messages_as_read_each, Hrun1, Hrun2.
  rewrite (filter_ext _ _ Hmk).
  repeat split.
  rewrite Hm2. unfold marked_rows. rewrite Hm1. unfold marked_rows.
  rewrite map_map. apply map_ext. intros r.
  rewrite (existsb_pointwise
             (fun id => (m_id (if existsb (fun id0 => (m_id r =? id0)
                                            && markable st user_id id0)
                                     message_ids
                               then set_read r else r) =? id)
                        && markable st1 user_id id)
             (fun id => (m_id r =? id) && markable st user_id id)).
  - case_existsb message_ids; reflexivity.
  - intros i. rewrite Hmk.
    case_existsb message_ids; reflexivity.
Qed.

(** C9: whoever calls, the function raises nothing and consults no
    conversation; it counts every requested identifier of a stored message
    the caller did not send, and each such message ends with its flag set,
    participant of the conversation or not: the table then holds the
    message with [is_read = true] and its other columns as they were, and
    no row with such an identifier is left unread. *)
Theorem mark_read_ignores_participancy
  (st : Store) (user_id : UUID) (message_ids : list UUID) :
  exists st' j,
    Chat.mark_messages_as_read user_id message_ids st
    = (Ok (Z.of_nat (length (filter (markable st user_id) message_ids))), st')
    /\ messages st' = marked_rows st user_id message_ids
    /\ conversations st' = conversations st
    /\ journal st' = journal st ++ j
    /\ Forall about_messages j
    /\ (forall msg,
          In msg (messages st) -> In (m_id msg) message_ids ->
          markable st user_id (m_id msg) = true ->
          In (set_read msg) (messages st'))
    /\ (forall msg,
          In msg (messages st) -> In (m_id msg) message_ids ->
          markable st user_id (m_id msg) = true ->
          exists row,
            In row (messages st')
            /\ is_read row = true
            /\ m_id row = m_id msg
            /\ m_conversation_id row = m_conversation_id msg
            /\ m_sender_id row = m_sender_id msg
            /\ content_encrypted row = content_encrypted msg
            /\ created_at row = created_at msg)
    /\ (forall row,
          In row (messages st') -> In (m_id row) message_ids ->
          markable st user_id (m_id row) = true ->
          is_read row = true).
Proof.
  destruct (mark_each_run user_id message_ids st 0)
    as (st' & j & Hrun & Hm & Hc & _ & Hj & Hfj).
  assert (Hset : forall msg,
            In msg (messages st) -> In (m_id msg) message_ids ->
            markable st user_id (m_id msg) = true ->
            In (set_read msg) (messages st')).
  { intros msg Hin Hid Hmk. rewrite Hm. unfold marked_rows.
    apply in_map_iff. exists msg. split; [|exact Hin].
    assert (E : existsb (fun id => (m_id msg =? id)
                                   && markable st user_id id)
                        message_ids = true).
    { apply existsb_exists. exists (m_id msg). split; [exact Hid|].
      rewrite Z.eqb_refl, Hmk. reflexivity. }
    rewrite E. reflexivity. }
  exists st', j.
  split; [|split; [exact Hm|split; [exact Hc|split; [exact Hj|split]]]].
  - unfold Chat.mark_messages_as_read, try_except.
    destruct message_ids as [|id ids]; cbn [py_not].
    + cbn [Chat.mark_each] in Hrun. rewrite Hrun. reflexivity.
    + rewrite Hrun. reflexivity.
  - exact Hfj.
  - split; [exact Hset|]. split.
    + intros msg Hin Hid Hmk. exists (set_read msg).
      split; [exact (Hset msg Hin Hid Hmk)|]. repeat split.
    + intros row Hrow Hid Hmk. rewrite Hm in Hrow. unfold marked_rows in Hrow.
      apply in_map_iff in Hrow. destruct Hrow as (r & Hr & _).
      assert (Hsame : m_id row = m_id r).
      { rewrite <- Hr. case_existsb message_ids; reflexivity. }
      assert (E : existsb (fun id => (m_id r =? id)
                                     && markable st user_id id)
                          message_ids = true).
      { apply existsb_exists. exists (m_id row). split; [exact Hid|].
        rewrite Hsame, Z.eqb_refl, <- Hsame, Hmk. reflexivity. }
      rewrite E in Hr. rewrite <- Hr. reflexivity.
Qed.

Lemma story_greeted_messages :
  map (fun r => (m_id r, m_conversation_id r, m_sender_id r, is_read r))
      (messages Story.greeted)
  = [(Story.hi, Scenario.talk, Scenario.alice, false)].
Proof. vm_compute. reflexivity. Qed.

(** C3 at the spec's own scenario: after Alice's "hi", her own request
    counts 0 and Bob's counts 1, and Bob's second identical request counts
    1 again, where the claim has 0: the update is sent for a message that
    is already read, and the store returns the row it wrote. *)
Theorem mark_read_counts_read_message_again :
  let '(r1, st1) :=
    Chat.mark_messages_as_read Scenario.alice [Story.hi] Story.greeted in
  let '(r2, st2) := Chat.mark_messages_as_read Scenario.bob [Story.hi] st1 in
  let '(r3, st3) := Chat.mark_messages_as_read Scenario.bob [Story.hi] st2 in
  r1 = Ok 0 /\ r2 = Ok 1 /\ r3 = Ok 1
  /\ map is_read (messages st1) = [false]
  /\ map is_read (messages st2) = [true]
  /\ map is_read (messages st3) = [true].
Proof. vm_compute. repeat split. Qed.

(** The sibling path filters on the flag, and is idempotent. *)
Lemma mark_conversation_as_read_twice :
  let '(r1, st1) :=
    Chat.mark_conversation_as_read Scenario.talk Scenario.bob Story.greeted in
  let '(r2, st2) :=
    Chat.mark_conversation_as_read Scenario.talk Scenario.bob st1 in
  r1 = Ok 1 /\ r2 = Ok 0.
Proof. vm_compute. repeat split. Qed.

(** Carol takes no part in the conversation of Alice and Bob, and marks
    Alice's message read. *)
Lemma outsider_marks_read :
  let '(r, st') :=
    Chat.mark_messages_as_read Scenario.carol [Story.hi] Story.greeted in
  r = Ok 1 /\ map is_read (messages st') = [true].
Proof. vm_compute. repeat split. Qed.

(** ** get_conversation_messages *)

Section ListingFacts.
Context {crypto : Cryptography} {settings : Settings}.

(** The loop keeps exactly the rows its body succeeds on, in order. *)
Lemma format_messages_in (rows : list MessageJoined) (m : MessageDict) :
  In m (Chat.format_messages rows)
  <-> exists msg, In msg rows /\ Chat.format_message msg = Ok m.
Proof.
  induction rows as [|msg rows IH]; cbn [Chat.format_messages In].
  - split; [contradiction | intros (x & [] & _)].
  - destruct (Chat.format_message msg) as [m0|e] eqn:E; cbn [In];
      rewrite IH; split.
    + intros [<-|(x & Hx & Hm)]; [exists msg; tauto | exists x; tauto].
    + intros (x & [<-|Hx] & Hm);
        [left; congruence | right; exists x; tauto].
    + intros (x & Hx & Hm). exists x. tauto.
    + intros (x & [<-|Hx] & Hm); [congruence | exists x; tauto].
Qed.

Lemma format_message_ok (msg : MessageJoined) (m : MessageDict) :
  Chat.format_message msg = Ok m ->
  Encryption.decrypt_message (content_encrypted (mj_row msg)) None
  = Ok (content m)
  /\ md_id m = m_id (mj_row msg)
  /\ md_content_encrypted m = content_encrypted (mj_row msg).
Proof.
  unfold Chat.format_message.
  destruct (Encryption.decrypt_message _ None) as [s|e]; cbn [rbind];
    [|discriminate].
  destruct (mj_profiles msg); [|discriminate].
  intros [= <-]. repeat split.
Qed.

Lemma format_message_decrypted (msg : MessageJoined) (s : str) :
  Encryption.decrypt_message (content_encrypted (mj_row msg)) None = Ok s ->
  mj_profiles msg <> None ->
  exists m, Chat.format_message msg = Ok m
            /\ content m = s /\ md_id m = m_id (mj_row msg).
Proof.
  intros Hd Hp. unfold Chat.format_message. rewrite Hd. cbn [rbind].
  destruct (mj_profiles msg); [|contradiction].
  eexists. repeat split.
Qed.

(** What a participant's listing request returns and leaves behind. *)
Lemma get_conversation_messages_run
  (st : Store) (conversation_id user_id : UUID) (page page_size : Z)
  (conv : ConversationRow) :
  find (fun r => c_id r =? conversation_id) (conversations st) = Some conv ->
  participant_of conv user_id ->
  1 <= page -> 1 <= page_size ->
  Chat.get_conversation_messages conversation_id user_id page page_size st
  = (Ok (if py_not (stored_page st conversation_id page page_size)
         then {| ml_messages := []; total := 0;
                 ml_page := page; ml_page_size := page_size; has_more := false |}
         else {| ml_messages :=
                   Chat.format_messages
                     (stored_page st conversation_id page page_size);
                 total :=
                   Z.of_nat (length (conversation_messages st
                                       conversation_id));
                 ml_page := page; ml_page_size := page_size;
                 has_more :=
                   page * page_size
                   <? Z.of_nat (length (conversation_messages st
                                          conversation_id)) |}),
     mkStore (profiles st) (conversations st) (messages st) (now st)
             (journal st ++ [Select conversations_t; Select messages_t;
                             Select messages_t])).
Proof.
  intros Hconv Hpart Hpage Hsize.
  unfold Chat.get_conversation_messages, try_except.
  unfold bind at 1. unfold select_conversations at 1.
  rewrite (filter_ext _ _ (id_where conversation_id)).
  rewrite <- filter_head_find in Hconv.
  destruct (filter (fun r => c_id r =? conversation_id) (conversations st))
    as [|c cs]; [discriminate|].
  cbn [hd_error] in Hconv. injection Hconv as ->.
  rewrite (neither_participant_false conv user_id Hpart).
  unfold bind at 1. unfold count_messages at 1.
  unfold bind at 1. unfold select_messages_page at 1.
  cbn [log profiles conversations messages now journal].
  fold (conversation_messages st conversation_id).
  set (count := Z.of_nat (length (conversation_messages st conversation_id))).
  assert (Hcount : (if count =? 0 then 0 else count) = count)
    by (destruct (Z.eqb_spec count 0); lia).
  rewrite Hcount.
  unfold range_rows.
  assert (Hoff : 0 <= (page - 1) * page_size) by nia.
  destruct (Z.ltb_spec ((page - 1) * page_size) 0); [lia|].
  destruct (Z.ltb_spec ((page - 1) * page_size + page_size - 1)
                       ((page - 1) * page_size)); [lia|].
  cbn [orb rbind].
  replace ((page - 1) * page_size + page_size - 1
           - (page - 1) * page_size + 1) with page_size by lia.
  fold (stored_page st conversation_id page page_size).
  unfold lift, MessageListResponse_validate.
  destruct (stored_page st conversation_id page page_size) as [|msg rows];
    cbn [py_not total ml_page ml_page_size].
  - destruct (Z.leb_spec 1 page); [|lia].
    destruct (Z.leb_spec 1 page_size); [|lia].
    cbn [andb Z.leb]. unfold log.
    cbn [profiles conversations messages now journal].
    rewrite <- !app_assoc. reflexivity.
  - destruct (Z.leb_spec 0 count); [|lia].
    destruct (Z.leb_spec 1 page); [|lia].
    destruct (Z.leb_spec 1 page_size); [|lia].
    cbn [andb]. unfold log.
    cbn [profiles conversations messages now journal].
    rewrite <- !app_assoc. reflexivity.
Qed.

Lemma insert_desc_in {A} (key : A -> Z) (x y : A) (l : list A) :
  In x (insert_desc key y l) <-> x = y \/ In x l.
Proof.
  induction l as [|z l IH]; cbn [insert_desc In]; [intuition congruence|].
  destruct (key z <=? key y); cbn [In]; [intuition congruence|].
  rewrite IH. intuition congruence.
Qed.

Lemma order_desc_in {A} (key : A -> Z) (x : A) (l : list A) :
  In x (order_desc key l) <-> In x l.
Proof.
  induction l as [|y l IH]; cbn [order_desc fold_right In]; [tauto|].
  fold (order_desc key l). rewrite insert_desc_in, IH.
  intuition congruence.
Qed.

Lemma in_firstn {A} (n : nat) (l : list A) (x : A) :
  In x (firstn n l) -> In x l.
Proof.
  revert l. induction n as [|n IH]; intros [|y l]; cbn [firstn In];
    try contradiction.
  intros [->|H]; [left; reflexivity | right; apply IH, H].
Qed.

Lemma in_skipn {A} (n : nat) (l : list A) (x : A) :
  In x (skipn n l) -> In x l.
Proof.
  revert l. induction n as [|n IH]; intros [|y l]; cbn [skipn In];
    try tauto.
  intros H. right. apply IH, H.
Qed.

Lemma stored_page_rows (st : Store) (conversation_id : UUID)
  (page page_size : Z) (msg : MessageJoined) :
  In msg (stored_page st conversation_id page page_size) ->
  exists r, In r (messages st)
            /\ m_conversation_id r = conversation_id
            /\ msg = join_message (profiles st) r.
Proof.
  unfold stored_page. intros H. apply in_map_iff in H.
  destruct H as (r & <- & Hr). exists r.
  apply in_firstn, in_skipn in Hr.
  apply order_desc_in in Hr. unfold conversation_messages in Hr.
  apply filter_In in Hr. destruct Hr as [Hin Hw].
  unfold msg_where in Hw. cbn [forallb msg_matches] in Hw.
  rewrite andb_true_r in Hw. apply Z.eqb_eq in Hw. tauto.
Qed.

Lemma format_messages_readable (rows : list MessageJoined) :
  Forall (fun msg => mj_profiles msg <> None) rows ->
  map (fun m => (md_id m, content m)) (Chat.format_messages rows)
  = readable rows.
Proof.
  induction 1 as [|msg rows Hp _ IH]; [reflexivity|].
  cbn [Chat.format_messages readable flat_map].
  fold (readable rows). unfold Chat.format_message.
  destruct (Encryption.decrypt_message _ None) as [s|e]; cbn [rbind app].
  - destruct (mj_profiles msg); [|contradiction].
    cbn [map md_id content]. rewrite IH. reflexivity.
  - exact IH.
Qed.

(** C5: a participant's listing never raises over a row that does not
    decrypt; it returns, in the order of the page, exactly the rows of the
    page whose content decrypts, each with its plain text. *)
Theorem listing_isolates_decryption_failures
  (st : Store) (conversation_id user_id : UUID) (page page_size : Z)
  (conv : ConversationRow) :
  find (fun r => c_id r =? conversation_id) (conversations st) = Some conv ->
  participant_of conv user_id ->
  1 <= page -> 1 <= page_size ->
  senders_have_profiles st ->
  exists resp st',
    Chat.get_conversation_messages conversation_id user_id page page_size st
    = (Ok resp, st')
    /\ ml_messages resp
       = Chat.format_messages (stored_page st conversation_id page page_size)
    /\ map (fun m => (md_id m, content m)) (ml_messages resp)
       = readable (stored_page st conversation_id page page_size)
    /\ (forall m, In m (ml_messages resp) ->
          Encryption.decrypt_message (md_content_encrypted m) None
          = Ok (content m))
    /\ (forall msg s,
          In msg (stored_page st conversation_id page page_size) ->
          Encryption.decrypt_message (content_encrypted (mj_row msg)) None
          = Ok s ->
          exists m, In m (ml_messages resp)
                    /\ md_id m = m_id (mj_row msg) /\ content m = s).
Proof.
  intros Hconv Hpart Hpage Hsize Hfk.
  rewrite (get_conversation_messages_run st conversation_id user_id
             page page_size conv Hconv Hpart Hpage Hsize).
  assert (Hprof : Forall (fun msg => mj_profiles msg <> None)
                    (stored_page st conversation_id page page_size)).
  { apply Forall_forall. intros msg Hin.
    destruct (stored_page_rows _ _ _ _ _ Hin) as (r & Hr & _ & ->).
    cbn [join_message mj_profiles].
    destruct (has_profile_find st _ (Hfk r Hr)) as (p & -> & _).
    discriminate. }
  set (rows := stored_page st conversation_id page page_size) in *.
  eexists. eexists. split; [reflexivity|].
  assert (Hm : ml_messages
                 (if py_not rows
                  then {| ml_messages := []; total := 0;
                          ml_page := page; ml_page_size := page_size;
                          has_more := false |}
                  else {| ml_messages := Chat.format_messages rows;
                          total := Z.of_nat (length (conversation_messages
                                                st conversation_id));
                          ml_page := page; ml_page_size := page_size;
                          has_more :=
                            page * page_size
                            <? Z.of_nat (length (conversation_messages
                                                   st conversation_id)) |})
               = Chat.format_messages rows)
    by (destruct rows; reflexivity).
  rewrite Hm. split; [reflexivity|].
  split; [apply format_messages_readable, Hprof|]. split.
  - intros m Hin. apply format_messages_in in Hin.
    destruct Hin as (msg & _ & Hf).
    destruct (format_message_ok msg m Hf) as (Hd & _ & ->). exact Hd.
  - intros msg s Hin Hd.
    destruct (format_message_decrypted msg s Hd) as (m & Hf & Hc & Hi).
    { exact (proj1 (Forall_forall _ _) Hprof msg Hin). }
    exists m. split; [|tauto].
    apply format_messages_in. exists msg. tauto.
Qed.

End ListingFacts.

Lemma insert_desc_length {A} (key : A -> Z) (x : A) (l : list A) :
  length (insert_desc key x l) = S (length l).
Proof.
  induction l as [|y l IH]; cbn [insert_desc length]; [reflexivity|].
  destruct (key y <=? key x); cbn [length]; [reflexivity|].
  rewrite IH. reflexivity.
Qed.

Lemma order_desc_length {A} (key : A -> Z) (l : list A) :
  length (order_desc key l) = length l.
Proof.
  induction l as [|y l IH]; cbn [order_desc fold_right length]; [reflexivity|].
  fold (order_desc key l). rewrite insert_desc_length, IH. reflexivity.
Qed.

Lemma stored_page_length (st : Store) (conversation_id : UUID)
  (page page_size : Z) :
  1 <= page -> 1 <= page_size ->
  Z.of_nat (length (stored_page st conversation_id page page_size))
  = Z.max 0 (Z.min page_size
               (Z.of_nat (length (conversation_messages st conversation_id))
                - (page - 1) * page_size)).
Proof.
  intros Hpage Hsize. unfold stored_page.
  rewrite length_map, length_firstn, length_skipn, order_desc_length.
  assert (0 <= (page - 1) * page_size) by nia.
  lia.
Qed.

Section ListingCounts.
Context {crypto : Cryptography} {settings : Settings}.

(** The numbers of a listing.  The flag is [page * page_size < count] for
    every page; the total is the stored count on a page that holds rows,
    and 0 on a page past the end. *)
Lemma listing_counts
  (st : Store) (conversation_id user_id : UUID) (page page_size : Z)
  (conv : ConversationRow) :
  find (fun r => c_id r =? conversation_id) (conversations st) = Some conv ->
  participant_of conv user_id ->
  1 <= page -> 1 <= page_size ->
  let count :=
    Z.of_nat (length (conversation_messages st conversation_id)) in
  exists resp st',
    Chat.get_conversation_messages conversation_id user_id page page_size st
    = (Ok resp, st')
    /\ has_more resp = (page * page_size <? count)
    /\ total resp = (if (page - 1) * page_size <? count then count else 0)
    /\ ml_page resp = page /\ ml_page_size resp = page_size.
Proof.
  intros Hconv Hpart Hpage Hsize count.
  rewrite (get_conversation_messages_run st conversation_id user_id
             page page_size conv Hconv Hpart Hpage Hsize).
  pose proof (stored_page_length st conversation_id page page_size
                Hpage Hsize) as Hlen.
  fold count in Hlen |- *.
  eexists. eexists. split; [reflexivity|].
  destruct (stored_page st conversation_id page page_size) as [|msg rows];
    cbn [py_not has_more total ml_page ml_page_size length] in Hlen |- *.
  - destruct (Z.ltb_spec ((page - 1) * page_size) count); [lia|].
    destruct (Z.ltb_spec (page * page_size) count); [nia|].
    repeat split.
  - destruct (Z.ltb_spec ((page - 1) * page_size) count); [|lia].
    repeat split.
Qed.

End ListingCounts.

Lemma story_answered_senders : senders_have_profiles Story.answered.
Proof.
  intros r Hr. vm_compute in Hr.
  destruct Hr as [<-|[<-|[<-|[]]]]; reflexivity.
Qed.

Lemma listing_isolates_decryption_failures_witness :
  exists resp st',
    @Chat.get_conversation_messages toy_cryptography toy_settings
      Scenario.talk Scenario.alice 1 50 Story.answered
    = (Ok resp, st')
    /\ ml_messages resp
       = @Chat.format_messages toy_cryptography toy_settings
           (stored_page Story.answered Scenario.talk 1 50)
    /\ map (fun m => (md_id m, content m)) (ml_messages resp)
       = @readable toy_cryptography toy_settings
           (stored_page Story.answered Scenario.talk 1 50)
    /\ (forall m, In m (ml_messages resp) ->
          @Encryption.decrypt_message toy_cryptography toy_settings
            (md_content_encrypted m) None
          = Ok (content m))
    /\ (forall msg s,
          In msg (stored_page Story.answered Scenario.talk 1 50) ->
          @Encryption.decrypt_message toy_cryptography toy_settings
            (content_encrypted (mj_row msg)) None
          = Ok s ->
          exists m, In m (ml_messages resp)
                    /\ md_id m = m_id (mj_row msg) /\ content m = s).
Proof.
  apply (@listing_isolates_decryption_failures toy_cryptography toy_settings
           Story.answered Scenario.talk Scenario.alice 1 50
           (first_contact_row Scenario.campus Scenario.alice Scenario.bob)).
  - vm_compute. reflexivity.
  - left. reflexivity.
  - lia.
  - lia.
  - exact story_answered_senders.
Defined.

(** The page of the damaged conversation holds three rows, newest first;
    the listing returns the two that decrypt and counts all three. *)
Lemma listing_of_damaged_conversation :
  map (fun msg => m_id (mj_row msg))
      (stored_page Story.answered Scenario.talk 1 50) = [3; 2; 1]
  /\ match fst (@Chat.get_conversation_messages toy_cryptography toy_settings
                  Scenario.talk Scenario.alice 1 50 Story.answered) with
     | Ok resp =>
         map (fun m => (md_id m, content m)) (ml_messages resp)
         = [(3, text "yo"); (1, text "hi")]
         /\ total resp = 3 /\ has_more resp = false
     | Raise _ => False
     end.
Proof. vm_compute. repeat split. Qed.

(** C7 at the spec's own numbers: with 125 stored messages and pages of
    50, pages 1 and 2 hold 50 messages and page 3 holds 25, with the flag
    and the total of the claim; page 4 is empty and reports a total of 0,
    where the claim has the stored count, 125. *)
Theorem pagination_of_125_messages :
  let listing p :=
    match fst (@Chat.get_conversation_messages toy_cryptography toy_settings
                 Scenario.talk Scenario.alice p 50 Story.busy) with
    | Ok resp => Some (Z.of_nat (length (ml_messages resp)),
                       total resp, has_more resp)
    | Raise _ => None
    end in
  Z.of_nat (length (conversation_messages Story.busy Scenario.talk)) = 125
  /\ listing 1 = Some (50, 125, true)
  /\ listing 2 = Some (50, 125, true)
  /\ listing 3 = Some (25, 125, false)
  /\ listing 4 = Some (0, 0, false).
Proof. vm_compute. repeat split. Qed.

(** ** search_messages *)

Section SearchFacts.
Context {crypto : Cryptography} {settings : Settings}.
Variable str_lower : str -> str.

(** C10: a search that names a conversation the store does not hold, or
    one the user takes no part in, returns the empty list after the one
    lookup of the conversation; it raises nothing. *)
Theorem search_named_conversation_hidden
  (st : Store) (user_id : UUID) (query : str) (conversation_id : UUID) :
  match find (fun r => c_id r =? conversation_id) (conversations st) with
  | None => True
  | Some conv => ~ participant_of conv user_id
  end ->
  Chat.search_messages str_lower user_id query (Some conversation_id) st
  = (Ok [], log (Select conversations_t) st).
Proof.
  intros H. unfold Chat.search_messages, try_except.
  unfold bind at 1. unfold select_conversations at 1.
  rewrite (filter_ext _ _ (id_where conversation_id)).
  rewrite <- filter_head_find in H.
  destruct (filter (fun r => c_id r =? conversation_id) (conversations st))
    as [|conv convs]; cbn [hd_error] in H.
  - reflexivity.
  - rewrite (neither_participant_true conv user_id H). reflexivity.
Qed.

End SearchFacts.

Lemma search_named_conversation_hidden_witness :
  @Chat.search_messages toy_cryptography toy_settings (fun s => s)
    Scenario.carol (text "hi") (Some Scenario.talk) Story.greeted
  = (Ok [], log (Select conversations_t) Story.greeted)
  /\ @Chat.search_messages toy_cryptography toy_settings (fun s => s)
       Scenario.alice (text "hi") (Some 99) Story.greeted
     = (Ok [], log (Select conversations_t) Story.greeted).
Proof.
  split.
  - apply (@search_named_conversation_hidden toy_cryptography toy_settings
             (fun s => s) Story.greeted Scenario.carol (text "hi")
             Scenario.talk).
    vm_compute. intros [H|H]; discriminate H.
  - apply (@search_named_conversation_hidden toy_cryptography toy_settings
             (fun s => s) Story.greeted Scenario.alice (text "hi") 99).
    vm_compute. exact I.
Defined.

(** A participant's search of the same conversation finds the message. *)
Lemma search_by_participant :
  match fst (@Chat.search_messages toy_cryptography toy_settings (fun s => s)
               Scenario.bob (text "hi") (Some Scenario.talk)
               Story.greeted) with
  | Ok found => map (fun m => (md_id m, content m)) found
                = [(Story.hi, text "hi")]
  | Raise _ => False
  end.
Proof. vm_compute. reflexivity. Qed.

(** * Further properties *)

(** ** [str.strip()] *)

Lemma lstrip_head (s : str) :
  lstrip s = [] \/ exists c t, lstrip s = c :: t /\ isspace c = false.
Proof.
  induction s as [|c s IH]; [left; reflexivity|].
  cbn [lstrip]. destruct (isspace c) eqn:E; [exact IH|].
  right. exists c, s. split; [reflexivity | exact E].
Qed.

Lemma lstrip_solid (c : codepoint) (t : str) :
  isspace c = false -> lstrip (c :: t) = c :: t.
Proof. intros E. cbn [lstrip]. rewrite E. reflexivity. Qed.

Lemma lstrip_twice (s : str) : lstrip (lstrip s) = lstrip s.
Proof.
  destruct (lstrip_head s) as [->|(c & t & -> & E)]; [reflexivity|].
  apply lstrip_solid, E.
Qed.

Lemma lstrip_snoc (l : str) (c : codepoint) :
  isspace c = false -> lstrip (l ++ [c]) = lstrip l ++ [c].
Proof.
  intros E. induction l as [|x l IH]; cbn [app lstrip].
  - rewrite E. reflexivity.
  - destruct (isspace x); [exact IH | reflexivity].
Qed.

Lemma rstrip_solid (c : codepoint) (t : str) :
  isspace c = false -> rstrip (c :: t) = c :: rstrip t.
Proof.
  intros E. unfold rstrip. cbn [rev]. rewrite (lstrip_snoc _ c E).
  rewrite rev_app_distr. reflexivity.
Qed.

Lemma rstrip_twice (s : str) : rstrip (rstrip s) = rstrip s.
Proof. unfold rstrip. rewrite rev_involutive, lstrip_twice. reflexivity. Qed.

(** Stripping what is stripped changes nothing. *)
Lemma strip_twice (s : str) : strip (strip s) = strip s.
Proof.
  unfold strip.
  destruct (lstrip_head s) as [->|(c & t & -> & E)]; [reflexivity|].
  rewrite (rstrip_solid c t E), (lstrip_solid c _ E).
  rewrite (rstrip_solid c _ E), rstrip_twice. reflexivity.
Qed.

Lemma lstrip_incl (s : str) (c : codepoint) : In c (lstrip s) -> In c s.
Proof.
  induction s as [|x s IH]; cbn [lstrip]; [tauto|].
  destruct (isspace x); [intros H; right; apply IH, H | tauto].
Qed.

Lemma strip_incl (s : str) (c : codepoint) : In c (strip s) -> In c s.
Proof.
  unfold strip, rstrip. intros H. apply in_rev in H.
  apply lstrip_incl in H. apply in_rev in H. apply lstrip_incl, H.
Qed.

Lemma lstrip_length (s : str) : (length (lstrip s) <= length s)%nat.
Proof.
  induction s as [|x s IH]; cbn [lstrip length]; [lia|].
  destruct (isspace x); cbn [length]; lia.
Qed.

Lemma strip_length (s : str) : (length (strip s) <= length s)%nat.
Proof.
  unfold strip, rstrip. rewrite length_rev.
  pose proof (lstrip_length (rev (lstrip s))) as H.
  rewrite length_rev in H. pose proof (lstrip_length s). lia.
Qed.

(** Text can be encoded exactly when each of its code points can. *)
Lemma utf8_encode_each (s : str) :
  utf8_encode s <> None
  <-> forall c, In c s -> utf8_encode_char c <> None.
Proof.
  induction s as [|x s IH]; cbn [utf8_encode In].
  - split; [intros _ c [] | discriminate].
  - destruct (utf8_encode_char x) as [a|] eqn:Ex.
    + destruct (utf8_encode s) as [b|].
      * split; [|discriminate].
        intros _ c [<-|Hc]; [congruence|].
        apply (proj1 IH); [discriminate | exact Hc].
      * split; [intros H; contradiction|].
        intros H. exfalso. apply (proj2 IH); [|reflexivity].
        intros c Hc. apply H. right. exact Hc.
    + split; [intros H; contradiction|].
      intros H. exfalso. apply (H x); [left; reflexivity | exact Ex].
Qed.

Lemma strip_encodable (s : str) :
  utf8_encode s <> None -> utf8_encode (strip s) <> None.
Proof.
  rewrite !utf8_encode_each. intros H c Hc. apply H, strip_incl, Hc.
Qed.

(** ** encryption.py, further *)

Section EncryptionMore.
Context {crypto : Cryptography} {settings : Settings}.


Lemma encrypt_message_under (key : option str) (k : bytes)
  (s : str) (iv : Z) (data : bytes) :
  Encryption._get_fernet_key key = Ok k ->
  strip s <> [] -> utf8_encode s = Some data ->
  Encryption.encrypt_message s key iv = Ok (fernet_encrypt k iv data).
Proof.
  intros Hk Hs Hd. unfold Encryption.encrypt_message.
  assert (Hne : py_not s = false)
    by (destruct s; [rewrite strip_nil in Hs; contradiction|reflexivity]).
  assert (Hns : py_not (strip s) = false)
    by (destruct (strip s); [contradiction|reflexivity]).
  rewrite Hne, Hns. cbn [orb]. rewrite Hk. cbn [rbind].
  unfold str_encode at 1. rewrite Hd. cbn [rbind].
  rewrite (proj1 (token_text k iv data)). reflexivity.
Qed.



(** X2: [encrypt_message] refuses exactly the blank text, with its
    [ValueError]; anything else that UTF-8 can encode it turns into a token
    that is not empty and is plain ASCII. *)
Theorem encrypt_message_refuses_blank_only (s : str) (iv : Z) :
  utf8_encode s <> None ->
  (strip s = []
   /\ Encryption.encrypt_message s None iv
      = Raise (ValueError "Cannot encrypt empty content"))
  \/ (strip s <> []
      /\ exists token,
           Encryption.encrypt_message s None iv = Ok token
           /\ token <> [] /\ Forall is_ascii token).
Proof.
  intros He. destruct (strip s) as [|c t] eqn:Hs.
  - left. split; [reflexivity|]. apply encrypt_message_blank, Hs.
  - right. split; [discriminate|].
    destruct (utf8_encode s) as [data|] eqn:Ed; [|contradiction].
    destruct get_fernet_key_default as [k Hk].
    exists (fernet_encrypt k iv data). split.
    + apply (encrypt_message_under None k s iv data Hk); [|exact Ed].
      rewrite Hs. discriminate.
    + split; [apply fernet_token_nonempty | apply fernet_token_ascii].
Qed.

(** X3: text with a code point UTF-8 cannot encode, a lone surrogate say, is
    not wrapped into the generic exception: the [UnicodeEncodeError] is a
    [ValueError] and leaves [encrypt_message] as it is. *)
Theorem encrypt_message_unencodable (s : str) (iv : Z) :
  strip s <> [] -> utf8_encode s = None ->
  Encryption.encrypt_message s None iv = Raise UnicodeEncodeError.
Proof.
  intros Hs He. unfold Encryption.encrypt_message.
  assert (Hne : py_not s = false)
    by (destruct s; [rewrite strip_nil in Hs; contradiction|reflexivity]).
  assert (Hns : py_not (strip s) = false)
    by (destruct (strip s); [contradiction|reflexivity]).
  rewrite Hne, Hns. cbn [orb].
  destruct get_fernet_key_default as [k ->]. cbn [rbind].
  unfold str_encode. rewrite He. reflexivity.
Qed.

(** X4: how [decrypt_message] can end: with text, for content that is not
    empty; with its [ValueError], exactly for empty content; with a Unicode
    error of one of the two conversions; or with the generic exception that
    wraps Fernet's refusal of the token. *)
Theorem decrypt_message_outcomes (encrypted_content : str) :
  match Encryption.decrypt_message encrypted_content None with
  | Ok _ => encrypted_content <> []
  | Raise e =>
      (e = ValueError "Cannot decrypt empty content"
       /\ encrypted_content = [])
      \/ (encrypted_content <> []
          /\ (e = UnicodeEncodeError \/ e = UnicodeDecodeError
              \/ e = ExceptionFrom "Decryption failed: " InvalidToken))
  end.
Proof.
  unfold Encryption.decrypt_message.
  destruct encrypted_content as [|c t]; cbn [py_not].
  - left. split; reflexivity.
  - destruct get_fernet_key_default as [k ->]. cbn [rbind].
    unfold str_encode.
    destruct (utf8_encode (c :: t)) as [token|]; cbn [rbind].
    + destruct (fernet_decrypt k token) as [data|].
      * unfold bytes_decode. destruct (utf8_decode data);
          cbn [Encryption.reraise_value_error is_ValueError].
        -- discriminate.
        -- right. split; [discriminate|]. right. left. reflexivity.
      * cbn [Encryption.reraise_value_error is_ValueError].
        right. split; [discriminate|]. right. right. reflexivity.
    + cbn [Encryption.reraise_value_error is_ValueError].
      right. split; [discriminate|]. left. reflexivity.
Qed.

(** X5: what [MessageCreate] lets through is the received text stripped: it is
    not blank, has 1 to 5000 code points, stripping it again changes nothing,
    and [encrypt_message] accepts it and round-trips it. *)
Theorem message_create_content (received content : str) (iv : Z) :
  Models.MessageCreate received = Ok content ->
  utf8_encode received <> None ->
  content = strip received
  /\ strip content = content
  /\ 1 <= Z.of_nat (length content) <= 5000
  /\ exists token,
       Encryption.encrypt_message content None iv = Ok token
       /\ Encryption.decrypt_message token None = Ok content.
Proof.
  unfold Models.MessageCreate. intros H He.
  destruct (utf8_encode received) as [octets|] eqn:Er in H; [|discriminate].
  destruct (Z.ltb_spec (Z.of_nat (length received)) 1); [discriminate|].
  destruct (Z.ltb_spec 5000 (Z.of_nat (length received))); [discriminate|].
  cbn [orb] in H.
  destruct (strip received) as [|c t] eqn:Hs; [discriminate|].
  cbn [py_not] in H. injection H as <-. rewrite <- Hs.
  assert (Hns : strip (strip received) <> [])
    by (rewrite strip_twice, Hs; discriminate).
  split; [reflexivity|]. split; [apply strip_twice|]. split.
  - pose proof (strip_length received). rewrite Hs in *.
    cbn [length] in *. lia.
  - pose proof (strip_encodable received He) as Hse.
    destruct (utf8_encode (strip received)) as [data|] eqn:Ed;
      [|contradiction].
    destruct (encrypt_message_accepts (strip received) iv data Hns Ed)
      as (k & Hk & Henc).
    exists (fernet_encrypt k iv data). split; [exact Henc|].
    apply decrypt_message_token.
    + exact Hk.
    + exact (utf8_encode_bytes _ data Ed).
    + exact (utf8_decode_encode _ data Ed).
Qed.

End EncryptionMore.


Lemma encrypt_message_refuses_blank_only_witness :
  utf8_encode (text "  ") <> None
  /\ ((strip (text "  ") = []
       /\ @Encryption.encrypt_message toy_cryptography toy_settings
            (text "  ") None 3
          = Raise (ValueError "Cannot encrypt empty content"))
      \/ (strip (text "  ") <> []
          /\ exists token,
               @Encryption.encrypt_message toy_cryptography toy_settings
                 (text "  ") None 3 = Ok token
               /\ token <> [] /\ Forall is_ascii token)).
Proof.
  assert (H : utf8_encode (text "  ") <> None) by (vm_compute; discriminate).
  split; [exact H|].
  exact (@encrypt_message_refuses_blank_only toy_cryptography toy_settings
           (text "  ") 3 H).
Defined.

Lemma encrypt_message_unencodable_witness :
  strip [0xD800] <> [] /\ utf8_encode [0xD800] = None
  /\ @Encryption.encrypt_message toy_cryptography toy_settings
       [0xD800] None 3 = Raise UnicodeEncodeError.
Proof.
  assert (H1 : strip [0xD800] <> []) by (vm_compute; discriminate).
  assert (H2 : utf8_encode [0xD800] = None) by (vm_compute; reflexivity).
  split; [exact H1|]. split; [exact H2|].
  exact (@encrypt_message_unencodable toy_cryptography toy_settings
           [0xD800] 3 H1 H2).
Defined.

Lemma message_create_content_witness :
  Models.MessageCreate (text " hi ") = Ok (text "hi")
  /\ utf8_encode (text " hi ") <> None
  /\ text "hi" = strip (text " hi ")
  /\ strip (text "hi") = text "hi"
  /\ 1 <= Z.of_nat (length (text "hi")) <= 5000
  /\ exists token,
       @Encryption.encrypt_message toy_cryptography toy_settings
         (text "hi") None 7 = Ok token
       /\ @Encryption.decrypt_message toy_cryptography toy_settings
            token None = Ok (text "hi").
Proof.
  assert (H1 : Models.MessageCreate (text " hi ") = Ok (text "hi"))
    by (vm_compute; reflexivity).
  assert (H2 : utf8_encode (text " hi ") <> None)
    by (vm_compute; discriminate).
  split; [exact H1|]. split; [exact H2|].
  exact (@message_create_content toy_cryptography toy_settings
           (text " hi ") (text "hi") 7 H1 H2).
Defined.

(** ** send_message, further *)

Section SendRefusals.
Context {crypto : Cryptography} {settings : Settings}.

(** X6: a send that is refused wrote nothing. A conversation that does not
    exist gives [ConversationNotFoundError]; a sender who is no participant
    gives [UnauthorizedError]; blank text from a participant gives the generic
    exception around the [ValueError] of [encrypt_message]. In each case the
    store has seen the lookup of the conversation and nothing else. *)
Theorem send_message_refusals
  (st : Store) (conversation_id sender_id : UUID) (plaintext : str) (iv : Z) :
  match find (fun r => c_id r =? conversation_id) (conversations st) with
  | None =>
      Chat.send_message conversation_id sender_id plaintext iv st
      = (Raise (ConversationNotFoundError conversation_id),
         log (Select conversations_t) st)
  | Some conv =>
      (~ participant_of conv sender_id ->
       Chat.send_message conversation_id sender_id plaintext iv st
       = (Raise (UnauthorizedError Chat.not_a_participant),
          log (Select conversations_t) st))
      /\ (participant_of conv sender_id -> strip plaintext = [] ->
          Chat.send_message conversation_id sender_id plaintext iv st
          = (Raise (ExceptionFrom "Error sending message: "
                      (ValueError "Cannot encrypt empty content")),
             log (Select conversations_t) st))
  end.
Proof.
  rewrite <- filter_head_find.
  destruct (filter (fun r => c_id r =? conversation_id) (conversations st))
    as [|conv convs] eqn:Hf; cbn [hd_error].
  - unfold Chat.send_message, try_except.
    unfold bind at 1. unfold select_conversations at 1.
    rewrite (filter_ext _ _ (id_where conversation_id)), Hf. reflexivity.
  - split.
    + intros Hn. unfold Chat.send_message, try_except.
      unfold bind at 1. unfold select_conversations at 1.
      rewrite (filter_ext _ _ (id_where conversation_id)), Hf.
      rewrite (neither_participant_true conv sender_id Hn). reflexivity.
    + intros Hp Hs. unfold Chat.send_message, try_except.
      unfold bind at 1. unfold select_conversations at 1.
      rewrite (filter_ext _ _ (id_where conversation_id)), Hf.
      rewrite (neither_participant_false conv sender_id Hp).
      unfold bind at 1, lift.
      rewrite (encrypt_message_blank plaintext None iv Hs). reflexivity.
Qed.

End SendRefusals.

(** ** get_conversation_by_id *)

Lemma format_conversation_other
  (ps : list ProfileRow) (row : ConversationRow) (user_id : UUID)
  (p : ProfileRow) :
  find_profile ps (other_of row user_id) = Some p ->
  exists d,
    Chat._format_conversation_response (join_conversation ps row) user_id
    = Ok d
    /\ conversation_record d = row
    /\ unread_count d = 0
    /\ other_participant d
       = {| op_id := other_of row user_id;
            op_full_name := full_name p;
            op_profile_picture_url := profile_picture_url p;
            op_university_name := universities p |}.
Proof.
  unfold other_of, Chat._format_conversation_response, join_conversation.
  cbn [cj_row participant_1 participant_2].
  destruct (participant_1_id row =? user_id); intros ->;
    eexists; (split; [reflexivity|]); destruct row; repeat split.
Qed.

Lemma embed_head (st : Store) (conversation_id : UUID)
  (conv : ConversationRow) (convs : list ConversationRow) :
  filter (fun r => c_id r =? conversation_id) (conversations st)
  = conv :: convs ->
  select_conversations_embed [c_id_eq conversation_id] st
  = (Ok (join_conversation (profiles st) conv
         :: map (join_conversation (profiles st)) convs),
     log (Select conversations_t) st).
Proof.
  intros Hf. unfold select_conversations_embed.
  rewrite (filter_ext _ _ (id_where conversation_id)), Hf. reflexivity.
Qed.

Lemma other_of_other (conv : ConversationRow) (user_id : UUID) :
  participant_of conv user_id ->
  participant_1_id conv <> participant_2_id conv ->
  other_of conv user_id <> user_id
  /\ participant_of conv (other_of conv user_id).
Proof.
  unfold participant_of, other_of. intros Hp Hne.
  destruct (Z.eqb_spec (participant_1_id conv) user_id); split;
    try tauto; lia.
Qed.

Lemma get_conversation_by_id_unknown
  (st : Store) (conversation_id user_id : UUID) :
  filter (fun r => c_id r =? conversation_id) (conversations st) = [] ->
  Chat.get_conversation_by_id conversation_id user_id st
  = (Raise (ConversationNotFoundError conversation_id),
     log (Select conversations_t) st).
Proof.
  intros Hf. unfold Chat.get_conversation_by_id, try_except.
  unfold bind at 1. unfold select_conversations_embed at 1.
  rewrite (filter_ext _ _ (id_where conversation_id)), Hf. reflexivity.
Qed.

(** X7: a conversation is shown to its two participants only: an unknown
    identifier gives [ConversationNotFoundError], anybody else gets
    [UnauthorizedError], and a participant gets the stored record, with the
    identifier of the other participant as [other_participant]. *)
Theorem get_conversation_by_id_outcomes
  (st : Store) (conversation_id user_id : UUID) :
  match find (fun r => c_id r =? conversation_id) (conversations st) with
  | None =>
      Chat.get_conversation_by_id conversation_id user_id st
      = (Raise (ConversationNotFoundError conversation_id),
         log (Select conversations_t) st)
  | Some conv =>
      (~ participant_of conv user_id ->
       Chat.get_conversation_by_id conversation_id user_id st
       = (Raise (UnauthorizedError Chat.not_a_participant),
          log (Select conversations_t) st))
      /\ (participant_of conv user_id ->
          has_profile st (other_of conv user_id) = true ->
          exists d,
            Chat.get_conversation_by_id conversation_id user_id st
            = (Ok d, log (Select conversations_t) st)
            /\ conversation_record d = conv
            /\ op_id (other_participant d) = other_of conv user_id
            /\ (participant_1_id conv <> participant_2_id conv ->
                op_id (other_participant d) <> user_id
                /\ participant_of conv (op_id (other_participant d))))
  end.
Proof.
  rewrite <- filter_head_find.
  destruct (filter (fun r => c_id r =? conversation_id) (conversations st))
    as [|conv convs] eqn:Hf; cbn [hd_error].
  - apply get_conversation_by_id_unknown, Hf.
  - split.
    + intros Hn. unfold Chat.get_conversation_by_id, try_except, bind.
      rewrite (embed_head st conversation_id conv convs Hf).
      cbn [join_conversation cj_row].
      rewrite (neither_participant_true conv user_id Hn). reflexivity.
    + intros Hp Hprof.
      destruct (has_profile_find st _ Hprof) as (p & Hfind & _).
      destruct (format_conversation_other (profiles st) conv user_id p Hfind)
        as (d & Hd & Hrec & _ & Hother).
      exists d. split; [|split; [exact Hrec|]].
      * unfold Chat.get_conversation_by_id, try_except, bind.
        rewrite (embed_head st conversation_id conv convs Hf).
        cbn [join_conversation cj_row].
        rewrite (neither_participant_false conv user_id Hp).
        unfold lift.
        change {| cj_row := conv;
                  participant_1 :=
                    find_profile (profiles st) (participant_1_id conv);
                  participant_2 :=
                    find_profile (profiles st) (participant_2_id conv) |}
          with (join_conversation (profiles st) conv).
        rewrite Hd. reflexivity.
      * rewrite Hother. cbn [op_id]. split; [reflexivity|].
        intros Hne. exact (other_of_other conv user_id Hp Hne).
Qed.

(** ** delete_conversation *)

(** X8: only a participant deletes: an unknown identifier gives
    [ConversationNotFoundError], anybody else [UnauthorizedError]; in both
    cases the store has seen the lookup of the conversation and no other
    request, no delete among them, and every table is as it was. *)
Theorem delete_conversation_refusals
  (st : Store) (conversation_id user_id : UUID) :
  match find (fun r => c_id r =? conversation_id) (conversations st) with
  | None =>
      Chat.delete_conversation conversation_id user_id st
      = (Raise (ConversationNotFoundError conversation_id),
         log (Select conversations_t) st)
  | Some conv =>
      ~ participant_of conv user_id ->
      Chat.delete_conversation conversation_id user_id st
      = (Raise (UnauthorizedError Chat.not_a_participant),
         log (Select conversations_t) st)
  end.
Proof.
  rewrite <- filter_head_find.
  destruct (filter (fun r => c_id r =? conversation_id) (conversations st))
    as [|conv convs] eqn:Hf; cbn [hd_error].
  - unfold Chat.delete_conversation, try_except.
    unfold bind at 1. unfold select_conversations at 1.
    rewrite (filter_ext _ _ (id_where conversation_id)), Hf. reflexivity.
  - intros Hn. unfold Chat.delete_conversation, try_except.
    unfold bind at 1. unfold select_conversations at 1.
    rewrite (filter_ext _ _ (id_where conversation_id)), Hf.
    rewrite (neither_participant_true conv user_id Hn). reflexivity.
Qed.

Lemma removed_ids (conversation_id x : UUID) (rows : list ConversationRow)
  (conv : ConversationRow) (convs : list ConversationRow) :
  filter (fun r => c_id r =? conversation_id) rows = conv :: convs ->
  existsb (fun r => c_id r =? x) (conv :: convs) = (x =? conversation_id).
Proof.
  intros Hf.
  assert (Hall : forall r, In r (conv :: convs) -> c_id r = conversation_id).
  { intros r Hr. rewrite <- Hf in Hr. apply filter_In in Hr.
    apply Z.eqb_eq, Hr. }
  destruct (Z.eqb_spec x conversation_id) as [->|Hne].
  - cbn [existsb]. rewrite (Hall conv (or_introl eq_refl)), Z.eqb_refl.
    reflexivity.
  - destruct (existsb _ (conv :: convs)) eqn:E; [|reflexivity].
    apply existsb_exists in E. destruct E as (r & Hr & Heq).
    apply Z.eqb_eq in Heq. rewrite (Hall r Hr) in Heq. congruence.
Qed.

(** X9: a participant's delete removes the conversation and nothing else
    from its table, by one delete request after the lookup, and answers
    [True]; the messages of the conversation go with it, by the cascade of
    the foreign key that the code's comment relies on, and no other
    message does; afterwards the identifier is unknown to
    [get_conversation_by_id], whoever asks. *)
Theorem delete_conversation_removes
  (st : Store) (conversation_id user_id : UUID) (conv : ConversationRow) :
  find (fun r => c_id r =? conversation_id) (conversations st) = Some conv ->
  participant_of conv user_id ->
  exists st',
    Chat.delete_conversation conversation_id user_id st = (Ok true, st')
    /\ conversations st'
       = filter (fun r => negb (c_id r =? conversation_id))
                (conversations st)
    /\ messages st'
       = filter (fun m => negb (m_conversation_id m =? conversation_id))
                (messages st)
    /\ profiles st' = profiles st
    /\ journal st'
       = journal st ++ [Select conversations_t; Delete conversations_t]
    /\ forall anyone,
         Chat.get_conversation_by_id conversation_id anyone st'
         = (Raise (ConversationNotFoundError conversation_id),
            log (Select conversations_t) st').
Proof.
  intros Hconv Hp. rewrite <- filter_head_find in Hconv.
  destruct (filter (fun r => c_id r =? conversation_id) (conversations st))
    as [|c convs] eqn:Hf; [discriminate|].
  cbn [hd_error] in Hconv. injection Hconv as ->.
  set (kept := filter (fun r => negb (c_id r =? conversation_id))
                      (conversations st)).
  exists (mkStore (profiles st) kept
            (filter (fun m => negb (m_conversation_id m =? conversation_id))
                    (messages st))
            (now st)
            ((journal st ++ [Select conversations_t])
             ++ [Delete conversations_t])).
  split; [|split; [reflexivity|split; [reflexivity|split; [reflexivity|
    split; [cbn [journal]; rewrite <- app_assoc; reflexivity|]]]]].
  - unfold Chat.delete_conversation, try_except.
    unfold bind at 1. unfold select_conversations at 1.
    rewrite (filter_ext _ _ (id_where conversation_id)), Hf.
    rewrite (neither_participant_false conv user_id Hp).
    unfold bind, delete_conversations, ret.
    cbn [log profiles conversations messages now journal].
    rewrite (filter_ext _ _ (id_where conversation_id)), Hf.
    cbn [py_not negb]. do 2 f_equal.
    + apply filter_ext. intros r. rewrite id_where. reflexivity.
    + apply filter_ext. intros m.
      rewrite (removed_ids conversation_id (m_conversation_id m)
                 (conversations st) conv convs Hf).
      reflexivity.
  - intros anyone. apply get_conversation_by_id_unknown.
    cbn [conversations]. apply filter_nil_existsb.
    destruct (existsb _ kept) eqn:E; [|reflexivity].
    apply existsb_exists in E. destruct E as (r & Hin & Hid).
    apply filter_In in Hin. destruct Hin as [_ Hn].
    rewrite Hid in Hn. discriminate.
Qed.

Lemma delete_conversation_removes_witness :
  exists conv,
    find (fun r => c_id r =? Scenario.talk) (conversations Story.greeted)
    = Some conv
    /\ participant_of conv Scenario.bob
    /\ exists st',
         Chat.delete_conversation Scenario.talk Scenario.bob Story.greeted
         = (Ok true, st')
         /\ conversations st'
            = filter (fun r => negb (c_id r =? Scenario.talk))
                     (conversations Story.greeted)
         /\ messages st'
            = filter (fun m => negb (m_conversation_id m =? Scenario.talk))
                     (messages Story.greeted)
         /\ profiles st' = profiles Story.greeted
         /\ journal st'
            = journal Story.greeted
              ++ [Select conversations_t; Delete conversations_t]
         /\ forall anyone,
              Chat.get_conversation_by_id Scenario.talk anyone st'
              = (Raise (ConversationNotFoundError Scenario.talk),
                 log (Select conversations_t) st').
Proof.
  destruct (find (fun r => c_id r =? Scenario.talk)
                 (conversations Story.greeted)) as [conv|] eqn:Hfind;
    [|vm_compute in Hfind; discriminate].
  assert (Hp : participant_of conv Scenario.bob).
  { vm_compute in Hfind. injection Hfind as <-. right. reflexivity. }
  exists conv. split; [reflexivity|]. split; [exact Hp|].
  exact (delete_conversation_removes Story.greeted Scenario.talk
           Scenario.bob conv Hfind Hp).
Defined.

(** ** mark_conversation_as_read *)

Lemma unread_for_fields (user_id conversation_id : UUID) (r : MessageRow) :
  unread_for user_id conversation_id r
  = (m_conversation_id r =? conversation_id)
    && (Bool.eqb (is_read r) false && negb (m_sender_id r =? user_id)).
Proof.
  unfold unread_for, msg_where. cbn [forallb msg_matches].
  rewrite andb_true_r. reflexivity.
Qed.

Lemma unread_for_read (user_id conversation_id : UUID) (r : MessageRow) :
  unread_for user_id conversation_id (set_read r) = false.
Proof.
  rewrite unread_for_fields. cbn [set_read is_read Bool.eqb].
  rewrite andb_false_r. reflexivity.
Qed.

Lemma read_rows_none_unread (user_id conversation_id : UUID)
  (rows : list MessageRow) :
  filter (unread_for user_id conversation_id)
         (read_rows user_id conversation_id rows) = [].
Proof.
  induction rows as [|r rows IH]; [reflexivity|].
  cbn [read_rows map filter]. fold (read_rows user_id conversation_id rows).
  destruct (unread_for user_id conversation_id r) eqn:E.
  - rewrite unread_for_read. exact IH.
  - rewrite E. exact IH.
Qed.

Lemma read_rows_fixed (user_id conversation_id : UUID)
  (rows : list MessageRow) :
  filter (unread_for user_id conversation_id) rows = [] ->
  read_rows user_id conversation_id rows = rows.
Proof.
  induction rows as [|r rows IH]; [reflexivity|].
  cbn [read_rows map filter]. fold (read_rows user_id conversation_id rows).
  destruct (unread_for user_id conversation_id r); [discriminate|].
  intros H. rewrite (IH H). reflexivity.
Qed.

Lemma mark_conversation_as_read_run
  (st : Store) (conversation_id user_id : UUID) (conv : ConversationRow)
  (convs : list ConversationRow) :
  filter (fun r => c_id r =? conversation_id) (conversations st)
  = conv :: convs ->
  participant_of conv user_id ->
  Chat.mark_conversation_as_read conversation_id user_id st
  = (Ok (unread_in st user_id conversation_id),
     mkStore (profiles st) (conversations st)
             (read_rows user_id conversation_id (messages st))
             (now st)
             (journal st ++ [Select conversations_t; UpdateIsRead])).
Proof.
  intros Hf Hp. unfold Chat.mark_conversation_as_read, try_except.
  unfold bind at 1. unfold select_conversations at 1.
  rewrite (filter_ext _ _ (id_where conversation_id)), Hf.
  rewrite (neither_participant_false conv user_id Hp).
  unfold bind, update_is_read, ret.
  cbn [log profiles conversations messages now journal].
  fold (unread_for user_id conversation_id).
  rewrite length_map, <- app_assoc. reflexivity.
Qed.

(** X10: for a participant, [mark_conversation_as_read] returns the number of
    messages of the conversation that were unread for that user and sets the
    flag of exactly those: a message the user sent, or of another
    conversation, or already read, stays as it is; afterwards none of the
    conversation is unread for the user. *)
Theorem mark_conversation_as_read_effect
  (st : Store) (conversation_id user_id : UUID) (conv : ConversationRow) :
  find (fun r => c_id r =? conversation_id) (conversations st) = Some conv ->
  participant_of conv user_id ->
  exists st',
    Chat.mark_conversation_as_read conversation_id user_id st
    = (Ok (unread_in st user_id conversation_id), st')
    /\ messages st'
       = map (fun r => if unread_for user_id conversation_id r
                       then set_read r else r) (messages st)
    /\ conversations st' = conversations st
    /\ unread_in st' user_id conversation_id = 0
    /\ (forall r, In r (messages st) ->
          m_sender_id r = user_id
          \/ m_conversation_id r <> conversation_id
          \/ is_read r = true ->
          In r (messages st')).
Proof.
  intros Hconv Hp. rewrite <- filter_head_find in Hconv.
  destruct (filter (fun r => c_id r =? conversation_id) (conversations st))
    as [|c convs] eqn:Hf; [discriminate|].
  cbn [hd_error] in Hconv. injection Hconv as ->.
  eexists. split;
    [exact (mark_conversation_as_read_run st conversation_id user_id
              conv convs Hf Hp)|].
  cbn [messages conversations]. split; [reflexivity|].
  split; [reflexivity|]. split.
  - unfold unread_in. cbn [messages].
    rewrite read_rows_none_unread. reflexivity.
  - intros r Hin Hr. unfold read_rows. apply in_map_iff. exists r.
    split; [|exact Hin].
    assert (E : unread_for user_id conversation_id r = false).
    { rewrite unread_for_fields.
      destruct Hr as [Hs|[Hc|Hread]].
      - rewrite Hs, Z.eqb_refl. cbn [negb]. rewrite !andb_false_r.
        reflexivity.
      - destruct (Z.eqb_spec (m_conversation_id r) conversation_id);
          [contradiction | reflexivity].
      - rewrite Hread. cbn [Bool.eqb]. rewrite andb_false_r. reflexivity. }
    rewrite E. reflexivity.
Qed.

(** X11: [mark_conversation_as_read] is idempotent: repeated at once, it
    returns 0 and leaves every message as the first call left it. *)
Theorem mark_conversation_as_read_idempotent
  (st : Store) (conversation_id user_id : UUID) (conv : ConversationRow) :
  find (fun r => c_id r =? conversation_id) (conversations st) = Some conv ->
  participant_of conv user_id ->
  exists n st1 st2,
    Chat.mark_conversation_as_read conversation_id user_id st = (Ok n, st1)
    /\ Chat.mark_conversation_as_read conversation_id user_id st1
       = (Ok 0, st2)
    /\ messages st2 = messages st1.
Proof.
  intros Hconv Hp. rewrite <- filter_head_find in Hconv.
  destruct (filter (fun r => c_id r =? conversation_id) (conversations st))
    as [|c convs] eqn:Hf; [discriminate|].
  cbn [hd_error] in Hconv. injection Hconv as ->.
  pose proof (mark_conversation_as_read_run st conversation_id user_id
                conv convs Hf Hp) as H1.
  set (st1 := mkStore (profiles st) (conversations st)
                (read_rows user_id conversation_id (messages st)) (now st)
                (journal st ++ [Select conversations_t; UpdateIsRead])) in *.
  pose proof (mark_conversation_as_read_run st1 conversation_id user_id
                conv convs Hf Hp) as H2.
  assert (H0 : unread_in st1 user_id conversation_id = 0).
  { unfold unread_in, st1. cbn [messages].
    rewrite read_rows_none_unread. reflexivity. }
  rewrite H0 in H2.
  eexists _, st1, _. split; [exact H1|]. split; [exact H2|].
  cbn [messages]. apply read_rows_fixed.
  unfold st1. cbn [messages]. apply read_rows_none_unread.
Qed.

(** X12: unlike [mark_messages_as_read], the conversation-wide marking checks
    the caller: an unknown identifier gives [ConversationNotFoundError], a
    user who is no participant gives [UnauthorizedError], and no flag is
    touched. *)
Theorem mark_conversation_as_read_refusals
  (st : Store) (conversation_id user_id : UUID) :
  match find (fun r => c_id r =? conversation_id) (conversations st) with
  | None =>
      Chat.mark_conversation_as_read conversation_id user_id st
      = (Raise (ConversationNotFoundError conversation_id),
         log (Select conversations_t) st)
  | Some conv =>
      ~ participant_of conv user_id ->
      Chat.mark_conversation_as_read conversation_id user_id st
      = (Raise (UnauthorizedError Chat.not_a_participant),
         log (Select conversations_t) st)
  end.
Proof.
  rewrite <- filter_head_find.
  destruct (filter (fun r => c_id r =? conversation_id) (conversations st))
    as [|conv convs] eqn:Hf; cbn [hd_error].
  - unfold Chat.mark_conversation_as_read, try_except.
    unfold bind at 1. unfold select_conversations at 1.
    rewrite (filter_ext _ _ (id_where conversation_id)), Hf. reflexivity.
  - intros Hn. unfold Chat.mark_conversation_as_read, try_except.
    unfold bind at 1. unfold select_conversations at 1.
    rewrite (filter_ext _ _ (id_where conversation_id)), Hf.
    rewrite (neither_participant_true conv user_id Hn). reflexivity.
Qed.

Lemma mark_conversation_as_read_effect_witness :
  exists conv,
    find (fun r => c_id r =? Scenario.talk) (conversations Story.greeted)
    = Some conv
    /\ participant_of conv Scenario.bob
    /\ exists st',
         Chat.mark_conversation_as_read Scenario.talk Scenario.bob
           Story.greeted
         = (Ok (unread_in Story.greeted Scenario.bob Scenario.talk), st')
         /\ messages st'
            = map (fun r => if unread_for Scenario.bob Scenario.talk r
                            then set_read r else r)
                  (messages Story.greeted)
         /\ conversations st' = conversations Story.greeted
         /\ unread_in st' Scenario.bob Scenario.talk = 0
         /\ (forall r, In r (messages Story.greeted) ->
               m_sender_id r = Scenario.bob
               \/ m_conversation_id r <> Scenario.talk
               \/ is_read r = true ->
               In r (messages st')).
Proof.
  destruct (find (fun r => c_id r =? Scenario.talk)
                 (conversations Story.greeted)) as [conv|] eqn:Hfind;
    [|vm_compute in Hfind; discriminate].
  assert (Hp : participant_of conv Scenario.bob).
  { vm_compute in Hfind. injection Hfind as <-. right. reflexivity. }
  exists conv. split; [reflexivity|]. split; [exact Hp|].
  exact (mark_conversation_as_read_effect Story.greeted Scenario.talk
           Scenario.bob conv Hfind Hp).
Defined.

Lemma mark_conversation_as_read_idempotent_witness :
  exists conv,
    find (fun r => c_id r =? Scenario.talk) (conversations Story.answered)
    = Some conv
    /\ participant_of conv Scenario.alice
    /\ exists n st1 st2,
         Chat.mark_conversation_as_read Scenario.talk Scenario.alice
           Story.answered = (Ok n, st1)
         /\ Chat.mark_conversation_as_read Scenario.talk Scenario.alice st1
            = (Ok 0, st2)
         /\ messages st2 = messages st1.
Proof.
  destruct (find (fun r => c_id r =? Scenario.talk)
                 (conversations Story.answered)) as [conv|] eqn:Hfind;
    [|vm_compute in Hfind; discriminate].
  assert (Hp : participant_of conv Scenario.alice).
  { vm_compute in Hfind. injection Hfind as <-. left. reflexivity. }
  exists conv. split; [reflexivity|]. split; [exact Hp|].
  exact (mark_conversation_as_read_idempotent Story.answered Scenario.talk
           Scenario.alice conv Hfind Hp).
Defined.

(** ** get_unread_count *)

Lemma same_tables_refl (st : Store) : same_tables st st.
Proof. repeat split. Qed.

Lemma same_tables_log (rq : Request) (st st' : Store) :
  same_tables (log rq st) st' -> same_tables st st'.
Proof. exact (fun H => H). Qed.

Lemma count_unread_run (user_id : UUID) (conversation_ids : list UUID) :
  forall (st : Store) (n : Z),
  exists st',
    Chat.count_unread user_id conversation_ids n st
    = (Ok (n + fold_right Z.add 0
                 (map (unread_in st user_id) conversation_ids)), st')
    /\ same_tables st st'.
Proof.
  induction conversation_ids as [|id ids IH]; intros st n.
  - exists st. cbn [Chat.count_unread map fold_right]. unfold ret.
    rewrite Z.add_0_r. split; [reflexivity | apply same_tables_refl].
  - cbn [Chat.count_unread]. unfold bind at 1. unfold count_messages at 1.
    change (Z.of_nat (length (filter
              (msg_where [conversation_id_eq id; is_read_eq false;
                          sender_id_neq user_id]) (messages st))))
      with (unread_in st user_id id).
    assert (E : (if unread_in st user_id id =? 0 then 0
                 else unread_in st user_id id) = unread_in st user_id id)
      by (destruct (Z.eqb_spec (unread_in st user_id id) 0); lia).
    rewrite E.
    destruct (IH (log (Select messages_t) st) (n + unread_in st user_id id))
      as (st' & Hrun & Hsame).
    exists st'. split; [|exact Hsame].
    rewrite Hrun. cbn [map fold_right].
    change (unread_in (log (Select messages_t) st)) with (unread_in st).
    f_equal. f_equal. lia.
Qed.

Lemma get_unread_count_run (st : Store) (user_id : UUID) :
  exists st',
    Chat.get_unread_count user_id st = (Ok (unread_total st user_id), st')
    /\ same_tables st st'.
Proof.
  unfold Chat.get_unread_count, try_except.
  unfold bind at 1. unfold select_conversations at 1.
  unfold bind at 1. unfold select_conversations at 1.
  cbn [log profiles conversations messages now journal].
  fold (conversations_of st user_id).
  destruct (conversations_of st user_id) as [|id ids] eqn:Hids;
    cbn [py_not].
  - eexists. unfold ret, unread_total. rewrite Hids.
    split; [reflexivity | repeat split].
  - destruct (count_unread_run user_id (id :: ids)
                (log (Select conversations_t)
                   (log (Select conversations_t) st)) 0)
      as (st' & Hrun & Hsame).
    exists st'. rewrite Hrun. unfold unread_total. rewrite Hids.
    split; [reflexivity | exact Hsame].
Qed.

Lemma participant_where (user_id : UUID) (r : ConversationRow) :
  conv_where [participant_1_id_eq user_id] r = (participant_1_id r =? user_id)
  /\ conv_where [participant_2_id_eq user_id] r
     = (participant_2_id r =? user_id).
Proof.
  unfold conv_where. cbn [forallb conv_matches]. rewrite !andb_true_r.
  split; reflexivity.
Qed.

Lemma conversations_of_in (st : Store) (user_id id : UUID) :
  In id (conversations_of st user_id)
  <-> exists r, In r (conversations st) /\ c_id r = id
                /\ participant_of r user_id.
Proof.
  unfold conversations_of, participant_of. rewrite in_app_iff, !in_map_iff.
  split.
  - intros [(r & Hid & Hr)|(r & Hid & Hr)]; apply filter_In in Hr;
      destruct Hr as [Hin Hw]; exists r.
    + rewrite (proj1 (participant_where user_id r)) in Hw.
      apply Z.eqb_eq in Hw. tauto.
    + rewrite (proj2 (participant_where user_id r)) in Hw.
      apply Z.eqb_eq in Hw. tauto.
  - intros (r & Hin & Hid & [H1|H2]); [left|right]; exists r;
      (split; [exact Hid|]); apply filter_In; (split; [exact Hin|]).
    + rewrite (proj1 (participant_where user_id r)). apply Z.eqb_eq, H1.
    + rewrite (proj2 (participant_where user_id r)). apply Z.eqb_eq, H2.
Qed.

Lemma filtered_keys_nodup {A} (key : A -> UUID) (keep : A -> bool)
  (rows : list A) :
  NoDup (map key rows) -> NoDup (map key (filter keep rows)).
Proof.
  induction rows as [|x rows IH]; cbn [map filter]; [intros; constructor|].
  intros H. inversion H as [|? ? Hx Hrest]; subst.
  destruct (keep x); [|exact (IH Hrest)].
  cbn [map]. constructor; [|exact (IH Hrest)].
  intros Hin. apply Hx. apply in_map_iff in Hin.
  destruct Hin as (y & Hy & Hin). apply filter_In in Hin.
  apply in_map_iff. exists y. tauto.
Qed.

Lemma nodup_map_injective_on {A B} (f : A -> B) (l : list A) (x y : A) :
  NoDup (map f l) -> In x l -> In y l -> f x = f y -> x = y.
Proof.
  induction l as [|z l IH]; cbn [map In]; [contradiction|].
  intros H. inversion H as [|? ? Hz Hl]; subst.
  intros [->|Hx] [->|Hy] E; try reflexivity.
  - exfalso. apply Hz. rewrite E. apply in_map, Hy.
  - exfalso. apply Hz. rewrite <- E. apply in_map, Hx.
  - exact (IH Hl Hx Hy E).
Qed.

(** Under the keys of the table, a user's conversations are collected
    once each. *)
Lemma conversations_of_nodup (st : Store) (user_id : UUID) :
  conversations_keyed st -> NoDup (conversations_of st user_id).
Proof.
  intros [Hkey Hlt]. unfold conversations_of.
  apply NoDup_app.
  - apply filtered_keys_nodup, Hkey.
  - apply filtered_keys_nodup, Hkey.
  - intros id H1 H2.
    apply in_map_iff in H1. destruct H1 as (r1 & Hid1 & Hr1).
    apply in_map_iff in H2. destruct H2 as (r2 & Hid2 & Hr2).
    apply filter_In in Hr1. destruct Hr1 as [Hin1 Hw1].
    apply filter_In in Hr2. destruct Hr2 as [Hin2 Hw2].
    rewrite (proj1 (participant_where user_id r1)) in Hw1.
    rewrite (proj2 (participant_where user_id r2)) in Hw2.
    apply Z.eqb_eq in Hw1, Hw2.
    assert (r1 = r2)
      by (apply (nodup_map_injective_on c_id (conversations st));
          congruence).
    subst r2. pose proof (Hlt r1 Hin1). lia.
Qed.

Lemma sum_bump (f g : UUID -> Z) (x : UUID) (d : Z) (l : list UUID) :
  (forall i, g i = f i + (if i =? x then d else 0)) ->
  NoDup l ->
  fold_right Z.add 0 (map g l)
  = fold_right Z.add 0 (map f l) + (if existsb (Z.eqb x) l then d else 0).
Proof.
  intros Hg. induction 1 as [|i l Hi _ IH]; cbn [map fold_right existsb].
  - lia.
  - rewrite IH, Hg. rewrite (Z.eqb_sym x i).
    destruct (Z.eqb_spec i x) as [->|Hne]; cbn [orb]; [|lia].
    assert (E : existsb (Z.eqb x) l = false).
    { destruct (existsb (Z.eqb x) l) eqn:E; [|reflexivity].
      apply existsb_exists in E. destruct E as (y & Hy & Hxy).
      apply Z.eqb_eq in Hxy. subst y. contradiction. }
    rewrite E. lia.
Qed.

Lemma participant_of_dec (conv : ConversationRow) (user_id : UUID) :
  participant_of conv user_id \/ ~ participant_of conv user_id.
Proof.
  unfold participant_of.
  destruct (Z.eq_dec (participant_1_id conv) user_id);
    destruct (Z.eq_dec (participant_2_id conv) user_id); tauto.
Qed.

Section UnreadFacts.
Context {crypto : Cryptography} {settings : Settings}.

(** The shape of the store after a send that returned. *)
Lemma send_message_ok_shape
  (st st' : Store) (conversation_id sender_id : UUID) (plaintext : str)
  (iv : Z) (m : MessageDict) :
  Chat.send_message conversation_id sender_id plaintext iv st = (Ok m, st') ->
  exists token conv,
    find (fun r => c_id r =? conversation_id) (conversations st) = Some conv
    /\ participant_of conv sender_id
    /\ messages st'
       = messages st
         ++ [{| m_id := fresh_id (map m_id (messages st));
                m_conversation_id := conversation_id;
                m_sender_id := sender_id;
                content_encrypted := token;
                is_read := false;
                created_at := now st |}]
    /\ conversations st' = conversations st
    /\ profiles st' = profiles st.
Proof.
  unfold Chat.send_message, try_except.
  unfold bind at 1. unfold select_conversations at 1.
  rewrite (filter_ext _ _ (id_where conversation_id)).
  rewrite <- filter_head_find.
  destruct (filter (fun r => c_id r =? conversation_id) (conversations st))
    as [|conv convs]; [discriminate|].
  destruct (participant_of_dec conv sender_id) as [Hp|Hn];
    [rewrite (neither_participant_false conv sender_id Hp)
    |rewrite (neither_participant_true conv sender_id Hn); discriminate].
  unfold bind at 1, lift.
  destruct (Encryption.encrypt_message plaintext None iv) as [token|e];
    [|destruct (Chat.is_not_found_or_unauthorized e); discriminate].
  unfold bind at 1. unfold insert_message.
  cbn [log profiles conversations messages now journal].
  rewrite has_profile_log.
  destruct (existsb (fun r => c_id r =? conversation_id) (conversations st)
            && has_profile st sender_id); cbn [negb]; [|discriminate].
  unfold Chat._get_user_profile_for_message, bind, select_profiles, ret.
  cbn [log profiles conversations messages now journal].
  intros H. exists token, conv. split; [reflexivity|]. split; [exact Hp|].
  destruct (filter (fun p => p_id p =? sender_id) (profiles st));
    injection H as <- <-; repeat split.
Qed.

Lemma unread_in_appended (st st' : Store) (row : MessageRow)
  (user_id id : UUID) :
  messages st' = messages st ++ [row] ->
  unread_in st' user_id id
  = unread_in st user_id id + (if unread_for user_id id row then 1 else 0).
Proof.
  intros Hm. unfold unread_in. rewrite Hm, filter_app, length_app.
  cbn [filter]. destruct (unread_for user_id id row); cbn [length]; lia.
Qed.

Lemma conversations_of_same (st st' : Store) (user_id : UUID) :
  conversations st' = conversations st ->
  conversations_of st' user_id = conversations_of st user_id.
Proof. intros H. unfold conversations_of. rewrite H. reflexivity. Qed.

(** Whether the collection of a user's conversations holds a given stored
    conversation: exactly when the user takes part in it. *)
Lemma conversations_of_holds (st : Store) (user_id conversation_id : UUID)
  (conv : ConversationRow) :
  conversations_keyed st ->
  find (fun r => c_id r =? conversation_id) (conversations st) = Some conv ->
  (participant_of conv user_id ->
   existsb (Z.eqb conversation_id) (conversations_of st user_id) = true)
  /\ (~ participant_of conv user_id ->
      existsb (Z.eqb conversation_id) (conversations_of st user_id) = false).
Proof.
  intros [Hkey _] Hfind. apply find_some in Hfind.
  destruct Hfind as [Hin Hid]. apply Z.eqb_eq in Hid. split.
  - intros Hp. apply existsb_exists. exists conversation_id.
    split; [|apply Z.eqb_refl].
    apply conversations_of_in. exists conv. tauto.
  - intros Hn.
    destruct (existsb (Z.eqb conversation_id)
                      (conversations_of st user_id)) eqn:E; [|reflexivity].
    apply existsb_exists in E. destruct E as (id & Hid' & Heq).
    apply Z.eqb_eq in Heq. subst id.
    apply conversations_of_in in Hid'. destruct Hid' as (r & Hr & Hrid & Hp).
    assert (r = conv)
      by (apply (nodup_map_injective_on c_id (conversations st));
          congruence).
    subst r. contradiction.
Qed.

(** X13: a message sent in a conversation raises the unread count of the other
    participant by exactly one, and nobody else's: not the sender's, not that
    of a user outside the conversation. *)
Theorem unread_count_after_send
  (st st1 : Store) (conversation_id sender_id : UUID) (plaintext : str)
  (iv : Z) (m : MessageDict) (user_id : UUID) :
  conversations_keyed st ->
  Chat.send_message conversation_id sender_id plaintext iv st = (Ok m, st1) ->
  exists conv n,
    find (fun r => c_id r =? conversation_id) (conversations st) = Some conv
    /\ fst (Chat.get_unread_count user_id st) = Ok n
    /\ (participant_of conv user_id -> user_id <> sender_id ->
        fst (Chat.get_unread_count user_id st1) = Ok (n + 1))
    /\ (user_id = sender_id \/ ~ participant_of conv user_id ->
        fst (Chat.get_unread_count user_id st1) = Ok n).
Proof.
  intros Hkeyed Hsend.
  destruct (send_message_ok_shape st st1 conversation_id sender_id
              plaintext iv m Hsend)
    as (token & conv & Hfind & Hsender & Hm & Hc & _).
  destruct (get_unread_count_run st user_id) as (st2 & Hrun & _).
  destruct (get_unread_count_run st1 user_id) as (st3 & Hrun1 & _).
  exists conv, (unread_total st user_id).
  rewrite Hrun, Hrun1. cbn [fst].
  split; [exact Hfind|]. split; [reflexivity|].
  set (row := {| m_id := fresh_id (map m_id (messages st));
                 m_conversation_id := conversation_id;
                 m_sender_id := sender_id;
                 content_encrypted := token;
                 is_read := false;
                 created_at := now st |}) in *.
  set (d := if sender_id =? user_id then 0 else 1).
  assert (Hsum : unread_total st1 user_id
                 = unread_total st user_id
                   + (if existsb (Z.eqb conversation_id)
                                 (conversations_of st user_id)
                      then d else 0)).
  { unfold unread_total.
    rewrite (conversations_of_same st st1 user_id Hc).
    apply sum_bump; [|apply conversations_of_nodup, Hkeyed].
    intros i. rewrite (unread_in_appended st st1 row user_id i Hm).
    f_equal. rewrite unread_for_fields. unfold row, d.
    cbn [m_conversation_id is_read m_sender_id Bool.eqb].
    rewrite (Z.eqb_sym conversation_id i).
    destruct (i =? conversation_id); cbn [andb]; [|reflexivity].
    destruct (sender_id =? user_id); reflexivity. }
  rewrite Hsum.
  destruct (conversations_of_holds st user_id conversation_id conv
              Hkeyed Hfind) as [Hin Hout].
  split.
  - intros Hp Hne. rewrite (Hin Hp). unfold d.
    destruct (Z.eqb_spec sender_id user_id); [congruence | reflexivity].
  - intros [->|Hn].
    + unfold d. rewrite Z.eqb_refl.
      destruct (existsb (Z.eqb conversation_id)
                        (conversations_of st sender_id));
        rewrite Z.add_0_r; reflexivity.
    + rewrite (Hout Hn), Z.add_0_r. reflexivity.
Qed.

End UnreadFacts.

Lemma unread_for_conversation (user_id id : UUID) (r : MessageRow) :
  unread_for user_id id r = true -> m_conversation_id r = id.
Proof.
  rewrite unread_for_fields. intros H. apply andb_true_iff in H.
  apply Z.eqb_eq, H.
Qed.

Lemma read_rows_elsewhere (user_id conversation_id id : UUID)
  (rows : list MessageRow) :
  id <> conversation_id ->
  filter (unread_for user_id id) (read_rows user_id conversation_id rows)
  = filter (unread_for user_id id) rows.
Proof.
  intros Hne. induction rows as [|r rows IH]; [reflexivity|].
  cbn [read_rows map filter]. fold (read_rows user_id conversation_id rows).
  destruct (unread_for user_id conversation_id r) eqn:E.
  - rewrite unread_for_read.
    destruct (unread_for user_id id r) eqn:E'; [|exact IH].
    apply unread_for_conversation in E, E'. congruence.
  - rewrite IH. reflexivity.
Qed.

Lemma sum_nonneg (f : UUID -> Z) (l : list UUID) :
  (forall i, 0 <= f i) -> 0 <= fold_right Z.add 0 (map f l).
Proof.
  intros Hf. induction l as [|i l IH]; cbn [map fold_right]; [lia|].
  pose proof (Hf i). lia.
Qed.

Lemma unread_in_nonneg (st : Store) (user_id id : UUID) :
  0 <= unread_in st user_id id.
Proof. unfold unread_in. lia. Qed.

(** X14: marking a conversation read lowers the unread count of the user who
    marks by exactly the number the marking returned. *)
Theorem unread_count_after_mark_conversation
  (st : Store) (conversation_id user_id : UUID) (conv : ConversationRow) :
  conversations_keyed st ->
  find (fun r => c_id r =? conversation_id) (conversations st) = Some conv ->
  participant_of conv user_id ->
  exists k n st1,
    Chat.mark_conversation_as_read conversation_id user_id st = (Ok k, st1)
    /\ fst (Chat.get_unread_count user_id st) = Ok n
    /\ fst (Chat.get_unread_count user_id st1) = Ok (n - k)
    /\ 0 <= k <= n.
Proof.
  intros Hkeyed Hfind Hp.
  pose proof Hfind as Hconv. rewrite <- filter_head_find in Hconv.
  destruct (filter (fun r => c_id r =? conversation_id) (conversations st))
    as [|c convs] eqn:Hf; [discriminate|].
  cbn [hd_error] in Hconv. injection Hconv as ->.
  pose proof (mark_conversation_as_read_run st conversation_id user_id
                conv convs Hf Hp) as Hmark.
  set (st1 := mkStore (profiles st) (conversations st)
                (read_rows user_id conversation_id (messages st)) (now st)
                (journal st ++ [Select conversations_t; UpdateIsRead])) in *.
  destruct (get_unread_count_run st user_id) as (st2 & Hrun & _).
  destruct (get_unread_count_run st1 user_id) as (st3 & Hrun1 & _).
  exists (unread_in st user_id conversation_id), (unread_total st user_id),
    st1.
  rewrite Hrun, Hrun1. cbn [fst].
  split; [exact Hmark|]. split; [reflexivity|].
  assert (Hsum : unread_total st1 user_id
                 = unread_total st user_id
                   + (if existsb (Z.eqb conversation_id)
                                 (conversations_of st user_id)
                      then - unread_in st user_id conversation_id else 0)).
  { unfold unread_total.
    rewrite (conversations_of_same st st1 user_id eq_refl).
    apply sum_bump; [|apply conversations_of_nodup, Hkeyed].
    intros i. unfold unread_in at 1. unfold st1. cbn [messages].
    destruct (Z.eqb_spec i conversation_id) as [->|Hne].
    - rewrite read_rows_none_unread. cbn [length]. lia.
    - rewrite (read_rows_elsewhere user_id conversation_id i _ Hne).
      unfold unread_in. lia. }
  rewrite (proj1 (conversations_of_holds st user_id conversation_id conv
                    Hkeyed Hfind) Hp) in Hsum.
  split; [f_equal; lia|].
  pose proof (unread_in_nonneg st user_id conversation_id).
  pose proof (sum_nonneg (unread_in st1 user_id)
                (conversations_of st1 user_id)
                (unread_in_nonneg st1 user_id)) as Hnn.
  fold (unread_total st1 user_id) in Hnn. lia.
Qed.

Lemma scenario_met_keyed : conversations_keyed Scenario.met.
Proof.
  split.
  - vm_compute. constructor; [intros [] | constructor].
  - intros r Hr. vm_compute in Hr. destruct Hr as [<-|[]].
    vm_compute. reflexivity.
Qed.

Lemma story_greeted_keyed : conversations_keyed Story.greeted.
Proof.
  split.
  - vm_compute. constructor; [intros [] | constructor].
  - intros r Hr. vm_compute in Hr. destruct Hr as [<-|[]].
    vm_compute. reflexivity.
Qed.

Lemma unread_count_after_send_witness :
  conversations_keyed Scenario.met
  /\ @Chat.send_message toy_cryptography toy_settings
       Scenario.talk Scenario.alice (text "hi") 7 Scenario.met
     = (Ok Story.echo, Story.greeted)
  /\ exists conv n,
       find (fun r => c_id r =? Scenario.talk) (conversations Scenario.met)
       = Some conv
       /\ fst (Chat.get_unread_count Scenario.bob Scenario.met) = Ok n
       /\ (participant_of conv Scenario.bob ->
           Scenario.bob <> Scenario.alice ->
           fst (Chat.get_unread_count Scenario.bob Story.greeted)
           = Ok (n + 1))
       /\ (Scenario.bob = Scenario.alice
           \/ ~ participant_of conv Scenario.bob ->
           fst (Chat.get_unread_count Scenario.bob Story.greeted) = Ok n).
Proof.
  assert (H : @Chat.send_message toy_cryptography toy_settings
                Scenario.talk Scenario.alice (text "hi") 7 Scenario.met
              = (Ok Story.echo, Story.greeted))
    by (vm_compute; reflexivity).
  split; [exact scenario_met_keyed|]. split; [exact H|].
  exact (@unread_count_after_send toy_cryptography toy_settings
           Scenario.met Story.greeted Scenario.talk Scenario.alice
           (text "hi") 7 Story.echo Scenario.bob scenario_met_keyed H).
Defined.

Lemma unread_count_after_mark_conversation_witness :
  conversations_keyed Story.greeted
  /\ exists conv,
       find (fun r => c_id r =? Scenario.talk) (conversations Story.greeted)
       = Some conv
       /\ participant_of conv Scenario.bob
       /\ exists k n st1,
            Chat.mark_conversation_as_read Scenario.talk Scenario.bob
              Story.greeted = (Ok k, st1)
            /\ fst (Chat.get_unread_count Scenario.bob Story.greeted) = Ok n
            /\ fst (Chat.get_unread_count Scenario.bob st1) = Ok (n - k)
            /\ 0 <= k <= n.
Proof.
  split; [exact story_greeted_keyed|].
  destruct (find (fun r => c_id r =? Scenario.talk)
                 (conversations Story.greeted)) as [conv|] eqn:Hfind;
    [|vm_compute in Hfind; discriminate].
  assert (Hp : participant_of conv Scenario.bob).
  { vm_compute in Hfind. injection Hfind as <-. right. reflexivity. }
  exists conv. split; [reflexivity|]. split; [exact Hp|].
  exact (unread_count_after_mark_conversation Story.greeted Scenario.talk
           Scenario.bob conv story_greeted_keyed Hfind Hp).
Defined.

(** ** Order of the listings *)

Lemma insert_desc_sorted {A} (key : A -> Z) (x : A) (l : list A) :
  newest_first key l -> newest_first key (insert_desc key x l).
Proof.
  unfold newest_first. induction 1 as [|y l Hl IH Hy]; cbn [insert_desc].
  - repeat constructor.
  - destruct (Z.leb_spec (key y) (key x)).
    + constructor; [constructor; assumption|].
      constructor; [assumption|].
      eapply Forall_impl; [|exact Hy]. cbn. intros z Hz. lia.
    + constructor; [exact IH|].
      apply Forall_forall. intros z Hz. apply insert_desc_in in Hz.
      destruct Hz as [->|Hz]; [lia|].
      exact (proj1 (Forall_forall _ _) Hy z Hz).
Qed.

Lemma order_desc_sorted {A} (key : A -> Z) (l : list A) :
  newest_first key (order_desc key l).
Proof.
  induction l as [|x l IH]; cbn [order_desc fold_right]; [constructor|].
  apply insert_desc_sorted, IH.
Qed.

Lemma newest_first_skipn {A} (key : A -> Z) (n : nat) (l : list A) :
  newest_first key l -> newest_first key (skipn n l).
Proof.
  unfold newest_first. revert l.
  induction n as [|n IH]; intros l H; [exact H|].
  destruct l as [|x l]; [exact H|]. cbn [skipn]. apply IH.
  inversion H; assumption.
Qed.

Lemma newest_first_firstn {A} (key : A -> Z) (n : nat) (l : list A) :
  newest_first key l -> newest_first key (firstn n l).
Proof.
  unfold newest_first. revert l.
  induction n as [|n IH]; intros l H; [constructor|].
  destruct l as [|x l]; [constructor|]. cbn [firstn].
  inversion H as [|? ? Hl Hx]; subst. constructor; [apply IH, Hl|].
  apply Forall_forall. intros z Hz. apply in_firstn in Hz.
  exact (proj1 (Forall_forall _ _) Hx z Hz).
Qed.

Lemma newest_first_map {A B} (f : A -> B) (key : B -> Z) (l : list A) :
  newest_first (fun a => key (f a)) l -> newest_first key (map f l).
Proof.
  unfold newest_first. induction 1 as [|x l Hl IH Hx]; cbn [map];
    constructor; [exact IH|].
  apply Forall_map. exact Hx.
Qed.

Lemma stored_page_sorted (st : Store) (conversation_id : UUID)
  (page page_size : Z) :
  newest_first (fun msg => created_at (mj_row msg))
               (stored_page st conversation_id page page_size).
Proof.
  unfold stored_page.
  apply (newest_first_map (join_message (profiles st))
           (fun msg => created_at (mj_row msg))).
  cbn [join_message mj_row].
  apply newest_first_firstn, newest_first_skipn, order_desc_sorted.
Qed.

Section ListingOrder.
Context {crypto : Cryptography} {settings : Settings}.

Lemma format_message_fields (msg : MessageJoined) (m : MessageDict) :
  Chat.format_message msg = Ok m ->
  md_created_at m = created_at (mj_row msg)
  /\ md_conversation_id m = m_conversation_id (mj_row msg)
  /\ md_sender_id m = m_sender_id (mj_row msg)
  /\ md_is_read m = is_read (mj_row msg).
Proof.
  unfold Chat.format_message.
  destruct (Encryption.decrypt_message _ None) as [s|e]; cbn [rbind];
    [|discriminate].
  destruct (mj_profiles msg); [|discriminate].
  intros [= <-]. repeat split.
Qed.

Lemma format_messages_sorted (rows : list MessageJoined) :
  newest_first (fun msg => created_at (mj_row msg)) rows ->
  newest_first md_created_at (Chat.format_messages rows).
Proof.
  unfold newest_first.
  induction 1 as [|msg rows Hrows IH Hmsg]; cbn [Chat.format_messages];
    [constructor|].
  destruct (Chat.format_message msg) as [m|e] eqn:E; [|exact IH].
  constructor; [exact IH|].
  apply Forall_forall. intros m' Hm'. apply format_messages_in in Hm'.
  destruct Hm' as (msg' & Hin & Hf).
  rewrite (proj1 (format_message_fields msg m E)).
  rewrite (proj1 (format_message_fields msg' m' Hf)).
  exact (proj1 (Forall_forall _ _) Hmsg msg' Hin).
Qed.

Lemma format_messages_length (rows : list MessageJoined) :
  (length (Chat.format_messages rows) <= length rows)%nat.
Proof.
  induction rows as [|msg rows IH]; cbn [Chat.format_messages length];
    [lia|].
  destruct (Chat.format_message msg); cbn [length]; lia.
Qed.

(** X15: a participant's listing is ordered newest first, holds at most
    [page_size] messages, all of the conversation asked for, and changes no
    table. *)
Theorem listing_newest_first
  (st : Store) (conversation_id user_id : UUID) (page page_size : Z)
  (conv : ConversationRow) :
  find (fun r => c_id r =? conversation_id) (conversations st) = Some conv ->
  participant_of conv user_id ->
  1 <= page -> 1 <= page_size ->
  exists resp st',
    Chat.get_conversation_messages conversation_id user_id page page_size st
    = (Ok resp, st')
    /\ newest_first md_created_at (ml_messages resp)
    /\ Z.of_nat (length (ml_messages resp)) <= page_size
    /\ (forall m, In m (ml_messages resp) ->
          md_conversation_id m = conversation_id)
    /\ same_tables st st'.
Proof.
  intros Hconv Hp Hpage Hsize.
  rewrite (get_conversation_messages_run st conversation_id user_id
             page page_size conv Hconv Hp Hpage Hsize).
  pose proof (stored_page_sorted st conversation_id page page_size) as Hs.
  pose proof (stored_page_length st conversation_id page page_size
                Hpage Hsize) as Hl.
  assert (Hrows : forall msg,
            In msg (stored_page st conversation_id page page_size) ->
            m_conversation_id (mj_row msg) = conversation_id).
  { intros msg Hin.
    destruct (stored_page_rows st conversation_id page page_size msg Hin)
      as (r & _ & Hc & ->). exact Hc. }
  set (rows := stored_page st conversation_id page page_size) in *.
  eexists. eexists. split; [reflexivity|].
  assert (Hm : ml_messages
                 (if py_not rows
                  then {| ml_messages := []; total := 0;
                          ml_page := page; ml_page_size := page_size;
                          has_more := false |}
                  else {| ml_messages := Chat.format_messages rows;
                          total := Z.of_nat (length (conversation_messages
                                                st conversation_id));
                          ml_page := page; ml_page_size := page_size;
                          has_more :=
                            page * page_size
                            <? Z.of_nat (length (conversation_messages
                                                   st conversation_id)) |})
               = Chat.format_messages rows)
    by (destruct rows; reflexivity).
  rewrite Hm. split; [apply format_messages_sorted, Hs|]. split.
  - pose proof (format_messages_length rows). lia.
  - split; [|repeat split].
    intros m Hin. apply format_messages_in in Hin.
    destruct Hin as (msg & Hmsg & Hf).
    rewrite (proj1 (proj2 (format_message_fields msg m Hf))).
    apply Hrows, Hmsg.
Qed.

(** X16: messages are listed for participants only: an unknown identifier
    gives [ConversationNotFoundError], anybody else [UnauthorizedError], after
    the one lookup of the conversation; no message is read. *)
Theorem listing_refusals
  (st : Store) (conversation_id user_id : UUID) (page page_size : Z) :
  match find (fun r => c_id r =? conversation_id) (conversations st) with
  | None =>
      Chat.get_conversation_messages conversation_id user_id page page_size st
      = (Raise (ConversationNotFoundError conversation_id),
         log (Select conversations_t) st)
  | Some conv =>
      ~ participant_of conv user_id ->
      Chat.get_conversation_messages conversation_id user_id page page_size st
      = (Raise (UnauthorizedError Chat.not_a_participant),
         log (Select conversations_t) st)
  end.
Proof.
  rewrite <- filter_head_find.
  destruct (filter (fun r => c_id r =? conversation_id) (conversations st))
    as [|conv convs] eqn:Hf; cbn [hd_error].
  - unfold Chat.get_conversation_messages, try_except.
    unfold bind at 1. unfold select_conversations at 1.
    rewrite (filter_ext _ _ (id_where conversation_id)), Hf. reflexivity.
  - intros Hn. unfold Chat.get_conversation_messages, try_except.
    unfold bind at 1. unfold select_conversations at 1.
    rewrite (filter_ext _ _ (id_where conversation_id)), Hf.
    rewrite (neither_participant_true conv user_id Hn). reflexivity.
Qed.

End ListingOrder.

Lemma listing_newest_first_witness :
  exists conv,
    find (fun r => c_id r =? Scenario.talk) (conversations Story.answered)
    = Some conv
    /\ participant_of conv Scenario.alice
    /\ 1 <= 1 /\ 1 <= 2
    /\ exists resp st',
         @Chat.get_conversation_messages toy_cryptography toy_settings
           Scenario.talk Scenario.alice 1 2 Story.answered
         = (Ok resp, st')
         /\ newest_first md_created_at (ml_messages resp)
         /\ Z.of_nat (length (ml_messages resp)) <= 2
         /\ (forall m, In m (ml_messages resp) ->
               md_conversation_id m = Scenario.talk)
         /\ same_tables Story.answered st'.
Proof.
  destruct (find (fun r => c_id r =? Scenario.talk)
                 (conversations Story.answered)) as [conv|] eqn:Hfind;
    [|vm_compute in Hfind; discriminate].
  assert (Hp : participant_of conv Scenario.alice).
  { vm_compute in Hfind. injection Hfind as <-. left. reflexivity. }
  assert (H1 : 1 <= 1) by lia.
  assert (H2 : 1 <= 2) by lia.
  exists conv. split; [reflexivity|]. split; [exact Hp|].
  split; [exact H1|]. split; [exact H2|].
  exact (@listing_newest_first toy_cryptography toy_settings
           Story.answered Scenario.talk Scenario.alice 1 2 conv
           Hfind Hp H1 H2).
Defined.

(** ** search_messages, further *)

Section SearchMore.
Context {crypto : Cryptography} {settings : Settings}.
Variable str_lower : str -> str.

Lemma search_conversations_run (query_lower : str) (ids : list UUID) :
  forall (st : Store) (acc : list MessageDict),
  exists st',
    Chat.search_conversations str_lower query_lower ids acc st
    = (Ok (acc ++ flat_map (found_in str_lower st query_lower) ids), st')
    /\ same_tables st st'.
Proof.
  induction ids as [|id ids IH]; intros st acc.
  - exists st. cbn [Chat.search_conversations flat_map]. unfold ret.
    rewrite app_nil_r. split; [reflexivity | apply same_tables_refl].
  - cbn [Chat.search_conversations]. unfold bind at 1.
    unfold select_messages_embed at 1.
    fold (conversation_messages st id).
    fold (found_in str_lower st query_lower id).
    destruct (IH (log (Select messages_t) st)
                 (acc ++ found_in str_lower st query_lower id))
      as (st' & Hrun & Hsame).
    exists st'. split; [|exact Hsame].
    rewrite Hrun. cbn [flat_map]. rewrite <- app_assoc. reflexivity.
Qed.

Lemma search_in_run (query : str) (ids : list UUID) (st : Store) :
  exists st',
    Chat.search_in str_lower query ids st
    = (Ok (order_desc md_created_at
             (flat_map (found_in str_lower st (str_lower query)) ids)), st')
    /\ same_tables st st'.
Proof.
  unfold Chat.search_in. destruct ids as [|id ids]; cbn [py_not].
  - exists st. split; [reflexivity | apply same_tables_refl].
  - destruct (search_conversations_run (str_lower query) (id :: ids) st [])
      as (st' & Hrun & Hsame).
    exists st'. split; [|exact Hsame].
    unfold bind. rewrite Hrun. reflexivity.
Qed.

Lemma search_rows_in (query_lower : str) (rows : list MessageJoined)
  (m : MessageDict) :
  In m (Chat.search_rows str_lower query_lower rows)
  <-> exists msg, In msg rows
                  /\ Chat.search_message str_lower query_lower msg
                     = Ok (Some m).
Proof.
  induction rows as [|msg rows IH]; cbn [Chat.search_rows In].
  - split; [contradiction | intros (x & [] & _)].
  - destruct (Chat.search_message str_lower query_lower msg)
      as [[m0|]|e] eqn:E; cbn [In]; rewrite IH; split.
    + intros [<-|(x & Hx & Hm)]; [exists msg; tauto | exists x; tauto].
    + intros (x & [<-|Hx] & Hm);
        [left; congruence | right; exists x; tauto].
    + intros (x & Hx & Hm). exists x. tauto.
    + intros (x & [<-|Hx] & Hm); [congruence | exists x; tauto].
    + intros (x & Hx & Hm). exists x. tauto.
    + intros (x & [<-|Hx] & Hm); [congruence | exists x; tauto].
Qed.

(** The body of the loop succeeds with a message exactly when the content
    decrypts, the lowered text holds the lowered query, and the sender is
    embedded. *)
Lemma search_message_found (query_lower : str) (msg : MessageJoined)
  (m : MessageDict) :
  Chat.search_message str_lower query_lower msg = Ok (Some m)
  <-> exists s p,
        Encryption.decrypt_message (content_encrypted (mj_row msg)) None
        = Ok s
        /\ contains query_lower (str_lower s) = true
        /\ mj_profiles msg = Some p
        /\ m = {| md_id := m_id (mj_row msg);
                  md_conversation_id := m_conversation_id (mj_row msg);
                  md_sender_id := m_sender_id (mj_row msg);
                  md_content_encrypted := content_encrypted (mj_row msg);
                  content := s;
                  md_is_read := is_read (mj_row msg);
                  md_created_at := created_at (mj_row msg);
                  sender :=
                    {| si_id := p_id p;
                       si_full_name := full_name p;
                       si_profile_picture_url := profile_picture_url p |} |}.
Proof.
  unfold Chat.search_message.
  destruct (Encryption.decrypt_message _ None) as [s|e]; cbn [rbind].
  - destruct (contains query_lower (str_lower s)) eqn:Ec.
    + destruct (mj_profiles msg) as [p|]; split.
      * intros [= <-]. exists s, p. repeat split. exact Ec.
      * intros (s' & p' & [= <-] & _ & [= <-] & ->). reflexivity.
      * discriminate.
      * intros (s' & p' & _ & _ & Hp & _). discriminate.
    + split; [discriminate|].
      intros (s' & p' & [= <-] & Hc & _). congruence.
  - split; [discriminate|]. intros (s' & p' & H & _). discriminate.
Qed.

Lemma found_member (st : Store) (query_lower : str) (ids : list UUID)
  (m : MessageDict) :
  In m (flat_map (found_in str_lower st query_lower) ids)
  <-> exists r, In (m_conversation_id r) ids /\ In r (messages st)
                /\ Chat.search_message str_lower query_lower
                     (join_message (profiles st) r) = Ok (Some m).
Proof.
  rewrite in_flat_map. unfold found_in. split.
  - intros (id & Hid & Hm). apply search_rows_in in Hm.
    destruct Hm as (msg & Hmsg & Hs). apply in_map_iff in Hmsg.
    destruct Hmsg as (r & <- & Hr). unfold conversation_messages in Hr.
    apply filter_In in Hr. destruct Hr as [Hin Hw].
    unfold msg_where in Hw. cbn [forallb msg_matches] in Hw.
    rewrite andb_true_r in Hw. apply Z.eqb_eq in Hw.
    exists r. rewrite Hw. tauto.
  - intros (r & Hid & Hin & Hs). exists (m_conversation_id r).
    split; [exact Hid|]. apply search_rows_in.
    exists (join_message (profiles st) r). split; [|exact Hs].
    apply in_map. unfold conversation_messages. apply filter_In.
    split; [exact Hin|]. unfold msg_where. cbn [forallb msg_matches].
    rewrite Z.eqb_refl. reflexivity.
Qed.

(** What a search over conversations [ids] returns, member by member. *)
Lemma search_results (st : Store) (query : str) (ids : list UUID)
  (found : list MessageDict) :
  found = order_desc md_created_at
            (flat_map (found_in str_lower st (str_lower query)) ids) ->
  newest_first md_created_at found
  /\ (forall m, In m found ->
        contains (str_lower query) (str_lower (content m)) = true
        /\ Encryption.decrypt_message (md_content_encrypted m) None
           = Ok (content m)
        /\ In (md_conversation_id m) ids)
  /\ (forall r s,
        In r (messages st) -> In (m_conversation_id r) ids ->
        Encryption.decrypt_message (content_encrypted r) None = Ok s ->
        contains (str_lower query) (str_lower s) = true ->
        has_profile st (m_sender_id r) = true ->
        exists m, In m found /\ md_id m = m_id r /\ content m = s).
Proof.
  intros ->. split; [apply order_desc_sorted|]. split.
  - intros m Hm. apply order_desc_in, found_member in Hm.
    destruct Hm as (r & Hid & _ & Hs).
    apply search_message_found in Hs.
    destruct Hs as (s & p & Hd & Hc & _ & ->).
    cbn [content md_content_encrypted md_conversation_id
         join_message mj_row] in *.
    tauto.
  - intros r s Hin Hid Hd Hc Hprof.
    destruct (has_profile_find st _ Hprof) as (p & Hp & _).
    eexists. split.
    + apply order_desc_in, found_member. exists r.
      split; [exact Hid|]. split; [exact Hin|].
      apply search_message_found. exists s, p.
      cbn [join_message mj_row mj_profiles]. repeat split; assumption.
    + cbn [md_id content join_message mj_row]. split; reflexivity.
Qed.

(** X17: a search without a named conversation looks through the conversations
    the user takes part in, and no other. Every message returned decrypts to a
    text that holds the query, case folded, and belongs to a conversation of
    the user; every such message whose sender has a profile is returned; the
    order is newest first; no table changes. *)
Theorem search_all_conversations
  (st : Store) (user_id : UUID) (query : str) :
  exists found st',
    Chat.search_messages str_lower user_id query None st = (Ok found, st')
    /\ same_tables st st'
    /\ newest_first md_created_at found
    /\ (forall m, In m found ->
          contains (str_lower query) (str_lower (content m)) = true
          /\ Encryption.decrypt_message (md_content_encrypted m) None
             = Ok (content m)
          /\ exists conv, In conv (conversations st)
                          /\ c_id conv = md_conversation_id m
                          /\ participant_of conv user_id)
    /\ (forall r conv s,
          In r (messages st) -> In conv (conversations st) ->
          c_id conv = m_conversation_id r -> participant_of conv user_id ->
          Encryption.decrypt_message (content_encrypted r) None = Ok s ->
          contains (str_lower query) (str_lower s) = true ->
          has_profile st (m_sender_id r) = true ->
          exists m, In m found /\ md_id m = m_id r /\ content m = s).
Proof.
  destruct (search_in_run query (conversations_of st user_id)
              (log (Select conversations_t)
                 (log (Select conversations_t) st)))
    as (st' & Hrun & Hsame).
  destruct (search_results st query (conversations_of st user_id) _ eq_refl)
    as (Hsorted & Hsound & Hcomplete).
  eexists. exists st'. split.
  - unfold Chat.search_messages, try_except.
    unfold bind at 1. unfold select_conversations at 1.
    unfold bind at 1. unfold select_conversations at 1.
    cbn [log profiles conversations messages now journal].
    fold (conversations_of st user_id).
    rewrite Hrun. reflexivity.
  - split; [exact Hsame|]. split; [exact Hsorted|]. split.
    + intros m Hm. destruct (Hsound m Hm) as (Hc & Hd & Hid).
      split; [exact Hc|]. split; [exact Hd|].
      apply conversations_of_in in Hid.
      destruct Hid as (conv & Hin & Hcid & Hp). exists conv. tauto.
    + intros r conv s Hin Hconv Hcid Hp Hd Hc Hprof.
      apply (Hcomplete r s Hin); try assumption.
      apply conversations_of_in. exists conv. tauto.
Qed.

(** X18: a participant's search of a named conversation returns messages of
    that conversation only: those that decrypt to a text holding the query,
    case folded, newest first. *)
Theorem search_named_conversation
  (st : Store) (user_id : UUID) (query : str) (conversation_id : UUID)
  (conv : ConversationRow) :
  find (fun r => c_id r =? conversation_id) (conversations st) = Some conv ->
  participant_of conv user_id ->
  exists found st',
    Chat.search_messages str_lower user_id query (Some conversation_id) st
    = (Ok found, st')
    /\ same_tables st st'
    /\ newest_first md_created_at found
    /\ (forall m, In m found ->
          md_conversation_id m = conversation_id
          /\ contains (str_lower query) (str_lower (content m)) = true
          /\ Encryption.decrypt_message (md_content_encrypted m) None
             = Ok (content m))
    /\ (forall r s,
          In r (messages st) -> m_conversation_id r = conversation_id ->
          Encryption.decrypt_message (content_encrypted r) None = Ok s ->
          contains (str_lower query) (str_lower s) = true ->
          has_profile st (m_sender_id r) = true ->
          exists m, In m found /\ md_id m = m_id r /\ content m = s).
Proof.
  intros Hconv Hp. rewrite <- filter_head_find in Hconv.
  destruct (filter (fun r => c_id r =? conversation_id) (conversations st))
    as [|c convs] eqn:Hf; [discriminate|].
  cbn [hd_error] in Hconv. injection Hconv as ->.
  destruct (search_in_run query [conversation_id]
              (log (Select conversations_t) st))
    as (st' & Hrun & Hsame).
  destruct (search_results st query [conversation_id] _ eq_refl)
    as (Hsorted & Hsound & Hcomplete).
  eexists. exists st'. split.
  - unfold Chat.search_messages, try_except.
    unfold bind at 1. unfold select_conversations at 1.
    rewrite (filter_ext _ _ (id_where conversation_id)), Hf.
    rewrite (neither_participant_false conv user_id Hp).
    rewrite Hrun. reflexivity.
  - split; [exact Hsame|]. split; [exact Hsorted|]. split.
    + intros m Hm. destruct (Hsound m Hm) as (Hc & Hd & [Hid|[]]).
      split; [symmetry; exact Hid|]. split; assumption.
    + intros r s Hin Hcid Hd Hc Hprof.
      apply (Hcomplete r s Hin); try assumption.
      left. symmetry. exact Hcid.
Qed.

End SearchMore.

Lemma search_named_conversation_witness :
  exists conv,
    find (fun r => c_id r =? Scenario.talk) (conversations Story.answered)
    = Some conv
    /\ participant_of conv Scenario.bob
    /\ exists found st',
         @Chat.search_messages toy_cryptography toy_settings (fun s => s)
           Scenario.bob (text "h") (Some Scenario.talk) Story.answered
         = (Ok found, st')
         /\ same_tables Story.answered st'
         /\ newest_first md_created_at found
         /\ (forall m, In m found ->
               md_conversation_id m = Scenario.talk
               /\ contains (text "h") (content m) = true
               /\ @Encryption.decrypt_message toy_cryptography toy_settings
                    (md_content_encrypted m) None
                  = Ok (content m))
         /\ (forall r s,
               In r (messages Story.answered) ->
               m_conversation_id r = Scenario.talk ->
               @Encryption.decrypt_message toy_cryptography toy_settings
                 (content_encrypted r) None = Ok s ->
               contains (text "h") s = true ->
               has_profile Story.answered (m_sender_id r) = true ->
               exists m, In m found /\ md_id m = m_id r /\ content m = s).
Proof.
  destruct (find (fun r => c_id r =? Scenario.talk)
                 (conversations Story.answered)) as [conv|] eqn:Hfind;
    [|vm_compute in Hfind; discriminate].
  assert (Hp : participant_of conv Scenario.bob).
  { vm_compute in Hfind. injection Hfind as <-. right. reflexivity. }
  exists conv. split; [reflexivity|]. split; [exact Hp|].
  exact (@search_named_conversation toy_cryptography toy_settings
           (fun s => s) Story.answered Scenario.bob (text "h")
           Scenario.talk conv Hfind Hp).
Defined.

(** ** get_user_conversations *)

Section ConversationList.
Context {crypto : Cryptography} {settings : Settings}.













End ConversationList.



(** ** backend/api/routes/chat.py *)

Section RouteFacts.
Context {crypto : Cryptography} {settings : Settings}.

(** Between two different users the service raises its
    [InvalidParticipantError] nowhere. *)
Lemma get_or_create_failure
  (st st' : Store) (user_id participant_id : UUID) (e : exn) :
  user_id <> participant_id ->
  Chat.get_or_create_conversation user_id participant_id st = (Raise e, st') ->
  exists cause,
    e = ExceptionFrom "Error getting or creating conversation: " cause.
Proof.
  intros Hne. apply Z.eqb_neq in Hne.
  unfold Chat.get_or_create_conversation,
    Chat.get_or_create_conversation_amid, try_except.
  rewrite Hne.
  destruct (if user_id <? participant_id
            then (user_id, participant_id)
            else (participant_id, user_id)) as [p1_id p2_id].
  unfold bind at 1. unfold select_conversations_embed at 1.
  destruct (map _ (filter _ (conversations st))) as [|conv rest].
  - unfold bind at 1. unfold Chat.concurrently at 1.
    unfold bind at 1.
    destruct (insert_conversation p1_id p2_id _) as [[created|e1] st1] eqn:Hi.
    + destruct created as [|created_conv others].
      * unfold raise. cbn [Chat.is_InvalidParticipantError].
        intros [= <- _]. eexists. reflexivity.
      * unfold bind at 1. unfold select_conversations_embed at 1.
        destruct (map _ (filter _ (conversations st1))) as [|full rest].
        -- unfold raise. cbn [Chat.is_InvalidParticipantError].
           intros [= <- _]. eexists. reflexivity.
        -- unfold lift, Chat._format_conversation_response.
           destruct (if participant_1_id (cj_row full) =? user_id
                     then (participant_2 full, participant_2_id (cj_row full))
                     else (participant_1 full, participant_1_id (cj_row full)))
             as [[other|] other_id]; [discriminate|].
           cbn [Chat.is_InvalidParticipantError].
           intros [= <- _]. eexists. reflexivity.
    + assert (He1 : Chat.is_InvalidParticipantError e1 = false).
      { revert Hi. unfold insert_conversation.
        repeat match goal with
               | |- context [if ?b then _ else _] => destruct b
               end; intros [= <- _]; try discriminate; reflexivity. }
      rewrite He1. intros [= <- _]. eexists. reflexivity.
  - unfold lift, Chat._format_conversation_response.
    destruct (if participant_1_id (cj_row conv) =? user_id
              then (participant_2 conv, participant_2_id (cj_row conv))
              else (participant_1 conv, participant_1_id (cj_row conv)))
      as [[other|] other_id]; [discriminate|].
    cbn [Chat.is_InvalidParticipantError].
    intros [= <- _]. eexists. reflexivity.
Qed.

(** X20: the handler that opens a conversation, run for the authenticated
    user, answers 400 to a user who names themselves without calling the
    service: it issues no request of its own and returns with the store as
    it found it; between two different users it answers no failure with
    400: whatever goes wrong in the service, a participant who does not
    exist included, is answered with 500 and the text of the service's
    generic exception. *)
Theorem create_conversation_route_failures
  (st : Store) (participant_id current_user : UUID) :
  (current_user = participant_id ->
   Routes.create_or_get_conversation participant_id current_user st
   = (HTTPException 400 (Text "Cannot create conversation with yourself"),
      st))
  /\ (current_user <> participant_id ->
      forall status_code detail st',
        Routes.create_or_get_conversation participant_id current_user st
        = (HTTPException status_code detail, st') ->
        status_code = 500
        /\ exists e,
             detail = Failed "Failed to create conversation: " e
             /\ Routes.bad_participant e = None).
Proof.
  split.
  - intros ->. unfold Routes.create_or_get_conversation.
    rewrite Z.eqb_refl. reflexivity.
  - intros Hne status_code detail st'.
    unfold Routes.create_or_get_conversation.
    destruct (Z.eqb_spec current_user participant_id) as [|_]; [tauto|].
    unfold Routes.endpoint. unfold bind at 1.
    destruct (Chat.get_or_create_conversation current_user participant_id st)
      as [[conversation|e] st1] eqn:Hrun.
    + unfold lift, ConversationResponse_validate.
      destruct (0 <=? unread_count conversation); cbn [Routes.answer];
        [discriminate|].
      cbn [Routes.bad_participant]. intros [= <- <- _].
      split; [reflexivity|]. eexists. split; reflexivity.
    + destruct (get_or_create_failure st st1 current_user participant_id e
                  Hne Hrun) as (cause & ->).
      cbn [Routes.answer Routes.bad_participant]. intros [= <- <- _].
      split; [reflexivity|]. eexists. split; reflexivity.
Qed.

(** X21: a participant who has no profile: the insert violates the foreign
    key, and the endpoint answers 500. *)
Theorem create_conversation_route_unknown_participant
  (st : Store) (participant_id current_user : UUID) :
  participants_have_profiles st ->
  has_profile st participant_id = false ->
  current_user <> participant_id ->
  exists st',
    Routes.create_or_get_conversation participant_id current_user st
    = (HTTPException 500
         (Failed "Failed to create conversation: "
            (ExceptionFrom "Error getting or creating conversation: "
               (APIError ForeignKeyViolation))),
       st')
    /\ same_tables st st'.
Proof.
  intros Hfk Hnone Hne.
  assert (Hfree : forall lo hi,
             participant_id = lo \/ participant_id = hi ->
             filter (conv_where [participant_1_id_eq lo;
                                 participant_2_id_eq hi])
                    (conversations st) = []).
  { intros lo hi Hin. apply filter_nil_existsb.
    destruct (existsb _ (conversations st)) eqn:E; [|reflexivity].
    apply existsb_exists in E. destruct E as (r & Hr & Hw).
    fold (pair_filters lo hi) in Hw. rewrite pair_where in Hw.
    apply andb_true_iff in Hw. destruct Hw as [H1 H2].
    apply Z.eqb_eq in H1, H2.
    destruct (Hfk r Hr) as [Hp1 Hp2].
    destruct Hin as [<-|<-]; congruence. }
  assert (Hrun : forall lo hi,
             lo < hi ->
             participant_id = lo \/ participant_id = hi ->
             exists st',
               insert_conversation lo hi
                 (log (Select conversations_t) st)
               = (Raise (APIError ForeignKeyViolation), st')
               /\ same_tables st st').
  { intros lo hi Hlt Hin. unfold insert_conversation.
    replace (lo <? hi) with true by (symmetry; apply Z.ltb_lt; exact Hlt).
    cbn [negb].
    replace (pair_taken (log (Select conversations_t) st) lo hi)
      with false
      by (symmetry; apply pair_taken_filter; exact (Hfree lo hi Hin)).
    rewrite !has_profile_log.
    assert (Hb : has_profile st lo && has_profile st hi = false).
    { destruct Hin as [<-|<-]; rewrite Hnone;
        [reflexivity | apply andb_false_r]. }
    rewrite Hb. cbn [negb]. eexists. split; [reflexivity|].
    repeat split. }
  unfold Routes.create_or_get_conversation.
  destruct (Z.eqb_spec current_user participant_id) as [|_]; [tauto|].
  unfold Routes.endpoint. unfold bind at 1.
  unfold Chat.get_or_create_conversation,
    Chat.get_or_create_conversation_amid, try_except.
  destruct (Z.eqb_spec current_user participant_id) as [|_]; [tauto|].
  destruct (Z.ltb_spec current_user participant_id) as [Hlt|Hge].
  - unfold bind at 1. unfold select_conversations_embed at 1.
    rewrite (Hfree current_user participant_id (or_intror eq_refl)).
    cbn [map]. unfold bind at 1. unfold Chat.concurrently at 1.
    unfold bind at 1.
    destruct (Hrun current_user participant_id Hlt (or_intror eq_refl))
      as (st' & -> & Hsame).
    exists st'. split; [reflexivity | exact Hsame].
  - unfold bind at 1. unfold select_conversations_embed at 1.
    rewrite (Hfree participant_id current_user (or_introl eq_refl)).
    cbn [map]. unfold bind at 1. unfold Chat.concurrently at 1.
    unfold bind at 1.
    assert (Hlt : participant_id < current_user) by lia.
    destruct (Hrun participant_id current_user Hlt (or_introl eq_refl))
      as (st' & -> & Hsame).
    exists st'. split; [reflexivity | exact Hsame].
Qed.

(** What the services that start by looking a conversation up answer when
    it is not there, and to somebody who takes no part in it. *)
Lemma services_unknown
  (st : Store) (conversation_id user_id : UUID) (content : str)
  (iv page page_size : Z) :
  filter (fun r => c_id r =? conversation_id) (conversations st) = [] ->
  Chat.send_message conversation_id user_id content iv st
  = (Raise (ConversationNotFoundError conversation_id),
     log (Select conversations_t) st)
  /\ Chat.get_conversation_messages conversation_id user_id page page_size st
     = (Raise (ConversationNotFoundError conversation_id),
        log (Select conversations_t) st)
  /\ Chat.delete_conversation conversation_id user_id st
     = (Raise (ConversationNotFoundError conversation_id),
        log (Select conversations_t) st).
Proof.
  intros Hf. repeat split.
  - unfold Chat.send_message, try_except.
    unfold bind at 1. unfold select_conversations at 1.
    rewrite (filter_ext _ _ (id_where conversation_id)), Hf. reflexivity.
  - unfold Chat.get_conversation_messages, try_except.
    unfold bind at 1. unfold select_conversations at 1.
    rewrite (filter_ext _ _ (id_where conversation_id)), Hf. reflexivity.
  - unfold Chat.delete_conversation, try_except.
    unfold bind at 1. unfold select_conversations at 1.
    rewrite (filter_ext _ _ (id_where conversation_id)), Hf. reflexivity.
Qed.

Lemma services_outsider
  (st : Store) (conversation_id user_id : UUID) (content : str)
  (iv page page_size : Z) (conv : ConversationRow)
  (convs : list ConversationRow) :
  filter (fun r => c_id r =? conversation_id) (conversations st)
  = conv :: convs ->
  ~ participant_of conv user_id ->
  Chat.get_conversation_by_id conversation_id user_id st
  = (Raise (UnauthorizedError Chat.not_a_participant),
     log (Select conversations_t) st)
  /\ Chat.send_message conversation_id user_id content iv st
     = (Raise (UnauthorizedError Chat.not_a_participant),
        log (Select conversations_t) st)
  /\ Chat.get_conversation_messages conversation_id user_id page page_size st
     = (Raise (UnauthorizedError Chat.not_a_participant),
        log (Select conversations_t) st)
  /\ Chat.delete_conversation conversation_id user_id st
     = (Raise (UnauthorizedError Chat.not_a_participant),
        log (Select conversations_t) st).
Proof.
  intros Hf Hn. repeat split.
  - unfold Chat.get_conversation_by_id, try_except, bind.
    rewrite (embed_head st conversation_id conv convs Hf).
    cbn [join_conversation cj_row].
    rewrite (neither_participant_true conv user_id Hn). reflexivity.
  - unfold Chat.send_message, try_except.
    unfold bind at 1. unfold select_conversations at 1.
    rewrite (filter_ext _ _ (id_where conversation_id)), Hf.
    rewrite (neither_participant_true conv user_id Hn). reflexivity.
  - unfold Chat.get_conversation_messages, try_except.
    unfold bind at 1. unfold select_conversations at 1.
    rewrite (filter_ext _ _ (id_where conversation_id)), Hf.
    rewrite (neither_participant_true conv user_id Hn). reflexivity.
  - unfold Chat.delete_conversation, try_except.
    unfold bind at 1. unfold select_conversations at 1.
    rewrite (filter_ext _ _ (id_where conversation_id)), Hf.
    rewrite (neither_participant_true conv user_id Hn). reflexivity.
Qed.

(** X22: for a request that passed validation (content that
    [MessageCreate] accepted, [page] from 1, [page_size] from 1 to 100),
    the handlers that get a conversation, send a message to it, list its
    messages and delete it answer 404 with the text of
    [ConversationNotFoundError] when the conversation does not exist, and
    403 with the text of [UnauthorizedError] to a user who takes no part
    in it; the handler has then issued the lookup of the conversation and
    no other request: no message is read or written, nothing is
    deleted. *)
Theorem conversation_routes_refuse
  (st : Store) (conversation_id current_user : UUID)
  (received content : str) (iv page page_size : Z) :
  Models.MessageCreate received = Ok content ->
  1 <= page -> 1 <= page_size <= 100 ->
  match find (fun r => c_id r =? conversation_id) (conversations st) with
  | None =>
      Routes.get_conversation conversation_id current_user st
      = (HTTPException 404
           (StrOf (ConversationNotFoundError conversation_id)),
         log (Select conversations_t) st)
      /\ Routes.send_message conversation_id content current_user iv st
         = (HTTPException 404
              (StrOf (ConversationNotFoundError conversation_id)),
            log (Select conversations_t) st)
      /\ Routes.get_messages conversation_id page page_size current_user st
         = (HTTPException 404
              (StrOf (ConversationNotFoundError conversation_id)),
            log (Select conversations_t) st)
      /\ Routes.delete_conversation conversation_id current_user st
         = (HTTPException 404
              (StrOf (ConversationNotFoundError conversation_id)),
            log (Select conversations_t) st)
  | Some conv =>
      ~ participant_of conv current_user ->
      Routes.get_conversation conversation_id current_user st
      = (HTTPException 403
           (StrOf (UnauthorizedError Chat.not_a_participant)),
         log (Select conversations_t) st)
      /\ Routes.send_message conversation_id content current_user iv st
         = (HTTPException 403
              (StrOf (UnauthorizedError Chat.not_a_participant)),
            log (Select conversations_t) st)
      /\ Routes.get_messages conversation_id page page_size current_user st
         = (HTTPException 403
              (StrOf (UnauthorizedError Chat.not_a_participant)),
            log (Select conversations_t) st)
      /\ Routes.delete_conversation conversation_id current_user st
         = (HTTPException 403
              (StrOf (UnauthorizedError Chat.not_a_participant)),
            log (Select conversations_t) st)
  end.
Proof.
  intros _ _ _.
  rewrite <- filter_head_find.
  destruct (filter (fun r => c_id r =? conversation_id) (conversations st))
    as [|conv convs] eqn:Hf; cbn [hd_error].
  - destruct (services_unknown st conversation_id current_user content
                iv page page_size Hf) as (Hsend & Hlist & Hdel).
    pose proof (get_conversation_by_id_unknown st conversation_id
                  current_user Hf) as Hget.
    unfold Routes.get_conversation, Routes.send_message,
      Routes.get_messages, Routes.delete_conversation, Routes.endpoint,
      bind.
    rewrite Hget, Hsend, Hlist, Hdel. repeat split.
  - intros Hn.
    destruct (services_outsider st conversation_id current_user content
                iv page page_size conv convs Hf Hn)
      as (Hget & Hsend & Hlist & Hdel).
    unfold Routes.get_conversation, Routes.send_message,
      Routes.get_messages, Routes.delete_conversation, Routes.endpoint,
      bind.
    rewrite Hget, Hsend, Hlist, Hdel. repeat split.
Qed.

(** X23: the endpoint of the unread count never answers with an error: it
    answers with the number of unread messages that others sent in the
    conversations the user takes part in, and leaves every table as it was. *)
Theorem unread_count_route_answers (st : Store) (current_user : UUID) :
  exists st',
    Routes.get_unread_count current_user st
    = (Respond (unread_total st current_user), st')
    /\ same_tables st st'
    /\ 0 <= unread_total st current_user.
Proof.
  destruct (get_unread_count_run st current_user) as (st' & Hrun & Hsame).
  exists st'. split; [|split; [exact Hsame|]].
  - unfold Routes.get_unread_count, Routes.endpoint. rewrite Hrun.
    reflexivity.
  - unfold unread_total. apply sum_nonneg. intros id.
    apply unread_in_nonneg.
Qed.

End RouteFacts.

Lemma scenario_campus_participants :
  participants_have_profiles Scenario.campus.
Proof. intros r []. Qed.

Lemma create_conversation_route_unknown_participant_witness :
  participants_have_profiles Scenario.campus
  /\ has_profile Scenario.campus 5 = false
  /\ Scenario.alice <> 5
  /\ exists st',
       Routes.create_or_get_conversation 5 Scenario.alice Scenario.campus
       = (HTTPException 500
            (Failed "Failed to create conversation: "
               (ExceptionFrom "Error getting or creating conversation: "
                  (APIError ForeignKeyViolation))),
          st')
       /\ same_tables Scenario.campus st'.
Proof.
  assert (H1 : has_profile Scenario.campus 5 = false)
    by (vm_compute; reflexivity).
  assert (H2 : Scenario.alice <> 5) by (vm_compute; discriminate).
  split; [exact scenario_campus_participants|].
  split; [exact H1|]. split; [exact H2|].
  exact (create_conversation_route_unknown_participant Scenario.campus 5
           Scenario.alice scenario_campus_participants H1 H2).
Defined.

Lemma conversation_routes_refuse_witness :
  Models.MessageCreate (text " hi ") = Ok (text "hi")
  /\ 1 <= 1 /\ 1 <= 50 <= 100
  /\ exists conv,
       find (fun r => c_id r =? Scenario.talk) (conversations Story.greeted)
       = Some conv
       /\ ~ participant_of conv Scenario.carol
       /\ @Routes.get_conversation Scenario.talk Scenario.carol Story.greeted
          = (HTTPException 403
               (StrOf (UnauthorizedError Chat.not_a_participant)),
             log (Select conversations_t) Story.greeted)
       /\ @Routes.send_message toy_cryptography toy_settings
            Scenario.talk (text "hi") Scenario.carol 7 Story.greeted
          = (HTTPException 403
               (StrOf (UnauthorizedError Chat.not_a_participant)),
             log (Select conversations_t) Story.greeted)
       /\ @Routes.get_messages toy_cryptography toy_settings
            Scenario.talk 1 50 Scenario.carol Story.greeted
          = (HTTPException 403
               (StrOf (UnauthorizedError Chat.not_a_participant)),
             log (Select conversations_t) Story.greeted)
       /\ @Routes.delete_conversation Scenario.talk Scenario.carol
            Story.greeted
          = (HTTPException 403
               (StrOf (UnauthorizedError Chat.not_a_participant)),
             log (Select conversations_t) Story.greeted).
Proof.
  assert (H1 : Models.MessageCreate (text " hi ") = Ok (text "hi"))
    by (vm_compute; reflexivity).
  assert (H2 : 1 <= 1) by lia.
  assert (H3 : 1 <= 50 <= 100) by lia.
  split; [exact H1|]. split; [exact H2|]. split; [exact H3|].
  pose proof (@conversation_routes_refuse toy_cryptography toy_settings
                Story.greeted Scenario.talk Scenario.carol
                (text " hi ") (text "hi") 7 1 50 H1 H2 H3) as H.
  destruct (find (fun r => c_id r =? Scenario.talk)
                 (conversations Story.greeted)) as [conv|] eqn:Hfind;
    [|vm_compute in Hfind; discriminate].
  assert (Hn : ~ participant_of conv Scenario.carol).
  { vm_compute in Hfind. injection Hfind as <-.
    intros [Hp|Hp]; vm_compute in Hp; discriminate. }
  exists conv. split; [reflexivity|]. split; [exact Hn|].
  exact (H Hn).
Defined.
